(** * UK power market dashboard: the fetchers and the transform pipeline

    A shallow embedding of [power_market_dashboard.py]: the two fetchers
    ([fetch_fuelinst_data], [fetch_tsdf_data]), the fuel-type categorisation
    ([_categorise_fuel_types]) and the transform pipeline ([process_data]),
    followed by the properties the specification states about them.

    Modelling conventions.
    - A pandas [DataFrame] is a row index together with an ordered list of
      named columns; a cell is a string, a number, a timestamp or NA.
    - Numbers are exact rationals ([Q]): integer and decimal readings are
      represented exactly, and the rounding of binary floating point is not
      modelled.  Numeric statements are therefore stated with [==] on [Q]:
      they are identities between sums, differences and quotients that the
      program forms in the same way, and signs of sums of readings that are
      not negative.
    - A timestamp is a UTC instant in whole seconds since 1970-01-01T00:00:00Z
      tagged with the zone it is displayed in.
    - A Python exception is a value of [exn]; code that may raise returns a
      [result].  [process_data] assigns to columns of the two frames it is
      given, so it runs in a state-and-exception monad over those two frames.
    - The network and the file system of the fetchers are an explicit
      environment; a fetcher is a tree of requests to that environment. *)

From Stdlib Require Import List String Ascii ZArith QArith Qminmax Lia Bool.
From Stdlib Require Import Permutation Sorted.
Import ListNotations.

Open Scope string_scope.
Open Scope Z_scope.

(** ** Exceptions and results *)

Inductive exn : Type :=
| KeyError (key : string)            (* a column that is not in the frame *)
| ValueError (msg : string)          (* raised by the fetchers; unparsable date *)
| TypeError                          (* an operation on a cell of the wrong type *)
| AttributeError                     (* [.get] on a JSON value that is not an object *)
| AmbiguousTimeError                 (* [dt.floor] landing in a repeated local hour *)
| NonExistentTimeError               (* [dt.floor] landing in a skipped local hour *)
| ConnectionError                    (* [requests.get] could not reach the server *)
| JSONDecodeError                    (* a body or file that is not JSON *)
| EmptyDataError                     (* [pd.read_csv] on a file without a header *)
| ZeroDivisionError.                 (* stands for a floating-point infinity, see [series_div] *)

Inductive result (A : Type) : Type :=
| Ok (a : A)
| Raise (e : exn).
Arguments Ok {A} a.
Arguments Raise {A} e.

Definition rbind {A B} (m : result A) (k : A -> result B) : result B :=
  match m with
  | Ok a => k a
  | Raise e => Raise e
  end.

Fixpoint mapM {A B} (f : A -> result B) (l : list A) : result (list B) :=
  match l with
  | [] => Ok []
  | a :: l' =>
      rbind (f a) (fun b => rbind (mapM f l') (fun bs => Ok (b :: bs)))
  end.

(** ** Cells, columns and frames *)

Inductive tzinfo : Type := UTC | Europe_London.

Inductive value : Type :=
| VStr (s : string)
| VNum (q : Q)
| VTime (t : Z) (tz : tzinfo)
| VNA.

Definition column := list value.

Record DataFrame : Type := mkDataFrame {
  df_index_name : option string;
  df_index : column;
  df_columns : list (string * column)
}.

(** [len(df)]: the number of rows. *)
Definition df_len (df : DataFrame) : nat := List.length (df_index df).

(** [RangeIndex(n)]: the labels 0 .. n-1. *)
Definition RangeIndex (n : nat) : column :=
  map (fun i => VNum (inject_Z (Z.of_nat i))) (seq 0 n).

Fixpoint assoc {A} (k : string) (l : list (string * A)) : option A :=
  match l with
  | [] => None
  | (k', v) :: l' => if String.eqb k k' then Some v else assoc k l'
  end.

(** [col in df.columns] *)
Definition has_column (df : DataFrame) (name : string) : bool :=
  match assoc name (df_columns df) with Some _ => true | None => false end.

(** [df[name]] read. *)
Definition getitem (df : DataFrame) (name : string) : result column :=
  match assoc name (df_columns df) with
  | Some c => Ok c
  | None => Raise (KeyError name)
  end.

Fixpoint assoc_set {A} (k : string) (v : A) (l : list (string * A))
  : list (string * A) :=
  match l with
  | [] => [(k, v)]
  | (k', v') :: l' =>
      if String.eqb k k' then (k, v) :: l' else (k', v') :: assoc_set k v l'
  end.

(** [df[name] = col]: overwrites the column where it stands, or appends it. *)
Definition setitem (df : DataFrame) (name : string) (c : column) : DataFrame :=
  mkDataFrame (df_index_name df) (df_index df)
              (assoc_set name c (df_columns df)).

(** [df.rename(columns=mapping)] *)
Definition rename_columns (mapping : list (string * string)) (df : DataFrame)
  : DataFrame :=
  mkDataFrame (df_index_name df) (df_index df)
    (map (fun '(k, c) =>
            (match assoc k mapping with Some k' => k' | None => k end, c))
         (df_columns df)).

(** ** Fuel-type categorisation *)

Definition category_map : list (string * string) :=
  [ ("CCGT", "Gas");
    ("OCGT", "Gas");
    ("BIOMASS", "Biomass");
    ("COAL", "Coal/Oil/Other");
    ("OIL", "Coal/Oil/Other");
    ("OTHER", "Coal/Oil/Other");
    ("NUCLEAR", "Nuclear");
    ("WIND", "Wind");
    ("NPSHYD", "Hydro");
    ("PS", "Hydro") ].

Definition interconnectors : list string :=
  [ "INTELEC"; "INTEW"; "INTFR"; "INTGRNL"; "INTIFA2";
    "INTIRL"; "INTNED"; "INTNEM"; "INTNSL"; "INTVKL" ].

Definition str_mem (s : string) (l : list string) : bool :=
  existsb (String.eqb s) l.

Definition _categorise_fuel_types (fuel_type : string) : string :=
  match assoc fuel_type category_map with
  | Some c => c
  | None =>
      if str_mem fuel_type interconnectors then "Imports"
      else "Coal/Oil/Other"
  end.

(** The seven categories, in the order the pipeline lists them. *)
Definition categories : list string :=
  [ "Gas"; "Biomass"; "Nuclear"; "Wind"; "Hydro"; "Imports"; "Coal/Oil/Other" ].

(** [fuel_df["FuelType"].apply(_categorise_fuel_types)]: the function is
    applied to every cell; a cell that is not a string is in neither table
    and takes the fallback. *)
Definition apply_categorise (c : column) : column :=
  map (fun v =>
         match v with
         | VStr s => VStr (_categorise_fuel_types s)
         | _ => VStr "Coal/Oil/Other"
         end) c.

(** ** Timestamps *)

(** Days since 1970-01-01 of a date of the proleptic Gregorian calendar. *)
Definition days_from_civil (y m d : Z) : Z :=
  let y' := if m <=? 2 then y - 1 else y in
  let era := y' / 400 in
  let yoe := y' - era * 400 in
  let mp := if m <=? 2 then m + 9 else m - 3 in
  let doy := (153 * mp + 2) / 5 + d - 1 in
  let doe := yoe * 365 + yoe / 4 - yoe / 100 + doy in
  era * 146097 + doe - 719468.

(** The Gregorian year a day number falls in. *)
Definition year_of_days (days : Z) : Z :=
  let z := days + 719468 in
  let era := z / 146097 in
  let doe := z - era * 146097 in
  let yoe := (doe - doe / 1460 + doe / 36524 - doe / 146096) / 365 in
  let doy := doe - (365 * yoe + yoe / 4 - yoe / 100) in
  let mp := (5 * doy + 2) / 153 in
  if mp <? 10 then yoe + era * 400 else yoe + era * 400 + 1.

(** Day of the week, 0 = Sunday (1970-01-01 was a Thursday). *)
Definition weekday (days : Z) : Z := (days + 4) mod 7.

Definition is_leap (y : Z) : bool :=
  ((y mod 4 =? 0) && negb (y mod 100 =? 0)) || (y mod 400 =? 0).

Definition days_in_month (y m : Z) : Z :=
  if m =? 2 then (if is_leap y then 29 else 28)
  else if (m =? 4) || (m =? 6) || (m =? 9) || (m =? 11) then 30
  else 31.

Definition digit (c : ascii) : option Z :=
  let n := Z.of_N (N_of_ascii c) in
  if (48 <=? n) && (n <=? 57) then Some (n - 48) else None.

Fixpoint digits (acc : Z) (l : list ascii) : option Z :=
  match l with
  | [] => Some acc
  | c :: l' =>
      match digit c with
      | Some d => digits (10 * acc + d) l'
      | None => None
      end
  end.

Definition is_char (c : ascii) (s : string) : bool :=
  String.eqb (String c EmptyString) s.

(** The timestamps of the Elexon datasets have the shape
    [YYYY-MM-DDTHH:MM:SSZ].  [pd.to_datetime] reads further spellings of a
    date and turns a missing cell into NaT; these are outside this model,
    which raises on them, so that a run of the model that returns was given
    timestamps of this shape only.  pandas also refuses years beyond 2262;
    the statements about inputs bound the instants themselves. *)
Definition parse_iso8601 (s : string) : option Z :=
  match list_ascii_of_string s with
  | [y1; y2; y3; y4; s1; m1; m2; s2; d1; d2; s3;
     h1; h2; s4; n1; n2; s5; c1; c2; z] =>
      match digits 0 [y1; y2; y3; y4], digits 0 [m1; m2], digits 0 [d1; d2],
            digits 0 [h1; h2], digits 0 [n1; n2], digits 0 [c1; c2] with
      | Some y, Some m, Some d, Some h, Some mi, Some sec =>
          if is_char s1 "-" && is_char s2 "-" && is_char s3 "T"
             && is_char s4 ":" && is_char s5 ":" && is_char z "Z"
             && (1 <=? m) && (m <=? 12) && (1 <=? d) && (d <=? days_in_month y m)
             && (h <? 24) && (mi <? 60) && (sec <? 60)
          then Some (days_from_civil y m d * 86400 + h * 3600 + mi * 60 + sec)
          else None
      | _, _, _, _, _, _ => None
      end
  | _ => None
  end.

(** [pd.to_datetime(col, utc=True)], cell by cell: a string is parsed, a
    timestamp is re-expressed in UTC. *)
Definition to_datetime_cell (v : value) : result value :=
  match v with
  | VStr s =>
      match parse_iso8601 s with
      | Some t => Ok (VTime t UTC)
      | None => Raise (ValueError "Unknown datetime string format")
      end
  | VTime t _ => Ok (VTime t UTC)
  | _ => Raise TypeError
  end.

Definition to_datetime_utc (c : column) : result column :=
  mapM to_datetime_cell c.

(** [col.dt.tz_convert(tz)]: the instant is kept, the display zone changes. *)
Definition dt_tz_convert (tz : tzinfo) (c : column) : result column :=
  mapM (fun v => match v with
                 | VTime t _ => Ok (VTime t tz)
                 | _ => Raise AttributeError
                 end) c.

(** The last Sunday of a 31-day month, as a day number. *)
Definition last_sunday (y m : Z) : Z :=
  let d := days_from_civil y m 31 in d - weekday d.

(** Europe/London under the rule in force since 1996: British Summer Time
    (UTC+1) from 01:00 UTC on the last Sunday of March to 01:00 UTC on the
    last Sunday of October, Greenwich Mean Time otherwise.  For earlier
    instants the tz database has other offsets and other transition days;
    what is stated about the value of a half-hour bucket is stated for
    instants from 1996 on. *)
Definition london_utcoffset (t : Z) : Z :=
  let y := year_of_days (t / 86400) in
  if (last_sunday y 3 * 86400 + 3600 <=? t)
     && (t <? last_sunday y 10 * 86400 + 3600)
  then 3600 else 0.

Definition utcoffset (tz : tzinfo) (t : Z) : Z :=
  match tz with
  | UTC => 0
  | Europe_London => london_utcoffset t
  end.

(** [tz_localize(tz, ambiguous="raise", nonexistent="raise")] of a wall-clock
    reading: the instant that shows this reading in the zone, when there is
    exactly one. *)
Definition tz_localize (tz : tzinfo) (wall : Z) : result Z :=
  match tz with
  | UTC => Ok wall
  | Europe_London =>
      let as_gmt := london_utcoffset wall =? 0 in
      let as_bst := london_utcoffset (wall - 3600) =? 3600 in
      match as_gmt, as_bst with
      | true, true => Raise AmbiguousTimeError
      | true, false => Ok wall
      | false, true => Ok (wall - 3600)
      | false, false => Raise NonExistentTimeError
      end
  end.

(** [ts.floor("30min")] of a zone-aware timestamp: pandas rounds the
    wall-clock reading down and localizes the result again. *)
Definition floor_30min (t : Z) (tz : tzinfo) : result Z :=
  let wall := t + utcoffset tz t in
  tz_localize tz (wall - wall mod 1800).

Definition dt_floor_30min (c : column) : result column :=
  mapM (fun v => match v with
                 | VTime t tz => rbind (floor_30min t tz) (fun t' => Ok (VTime t' tz))
                 | _ => Raise AttributeError
                 end) c.

(** ** Typed views of a column *)

Definition as_time (v : value) : result Z :=
  match v with VTime t _ => Ok t | _ => Raise TypeError end.

Definition as_str (v : value) : result string :=
  match v with VStr s => Ok s | _ => Raise TypeError end.

(** A numeric cell; NA (NaN) is [None]. *)
Definition as_num (v : value) : result (option Q) :=
  match v with
  | VNum q => Ok (Some q)
  | VNA => Ok None
  | _ => Raise TypeError
  end.

Definition as_times (c : column) : result (list Z) := mapM as_time c.
Definition as_strs (c : column) : result (list string) := mapM as_str c.
Definition as_nums (c : column) : result (list (option Q)) := mapM as_num c.

(** The zone of a timestamp column (in pandas an attribute of its dtype). *)
Definition column_tz (c : column) : tzinfo :=
  match c with
  | VTime _ tz :: _ => tz
  | _ => UTC
  end.

(** ** Numeric columns *)

(** [col.clip(lower=0)] *)
Definition clip_lower0_cell (v : value) : result value :=
  match v with
  | VNum q => Ok (VNum (if Qle_bool 0 q then q else 0%Q))
  | VNA => Ok VNA
  | _ => Raise TypeError
  end.

Definition clip_lower0 (c : column) : result column := mapM clip_lower0_cell c.

(** pandas' [sum]: NA cells are skipped, the empty sum is 0. *)
Fixpoint sum_skipna (l : list (option Q)) : Q :=
  match l with
  | [] => 0%Q
  | Some q :: l' => (q + sum_skipna l')%Q
  | None :: l' => sum_skipna l'
  end.

(** [col.fillna(0)] *)
Definition fillna0_cell (v : value) : value :=
  match v with VNA => VNum 0%Q | _ => v end.

Definition fillna0 (c : column) : column := map fillna0_cell c.

(** [col.replace(0, pd.NA)] *)
Definition replace0_NA_cell (v : value) : value :=
  match v with
  | VNum q => if Qeq_bool q 0 then VNA else VNum q
  | _ => v
  end.

Definition replace0_NA (c : column) : column := map replace0_NA_cell c.

Definition num_binop (f : Q -> Q -> Q) (a b : value) : result value :=
  match a, b with
  | VNum x, VNum y => Ok (VNum (f x y))
  | VNum _, VNA | VNA, VNum _ | VNA, VNA => Ok VNA
  | _, _ => Raise TypeError
  end.

Fixpoint map2M {A B C} (f : A -> B -> result C) (l1 : list A) (l2 : list B)
  : result (list C) :=
  match l1, l2 with
  | a :: l1', b :: l2' =>
      rbind (f a b) (fun c => rbind (map2M f l1' l2') (fun cs => Ok (c :: cs)))
  | _, _ => Ok []
  end.

(** Element-wise arithmetic of two series over the same index. *)
Definition series_add (a b : column) : result column := map2M (num_binop Qplus) a b.
Definition series_sub (a b : column) : result column := map2M (num_binop Qminus) a b.

(** [series * ef] for a scalar [ef]. *)
Definition series_scale (a : column) (ef : Q) : result column :=
  mapM (fun v => num_binop Qmult v (VNum ef)) a.

(** Division of a number by zero is an infinity or NaN in floating point;
    the model has neither and raises [ZeroDivisionError] there, which makes
    it the stricter of the two.  [process_data] divides by a series whose
    zeros have been replaced by NA, and no run of it ends in this exception
    (proved below). *)
Definition value_div (a b : value) : result value :=
  match a, b with
  | VNum x, VNum y =>
      if Qeq_bool y 0 then Raise ZeroDivisionError else Ok (VNum (x / y)%Q)
  | VNum _, VNA | VNA, VNum _ | VNA, VNA => Ok VNA
  | _, _ => Raise TypeError
  end.

Definition series_div (a b : column) : result column := map2M value_div a b.

(** ** Grouping *)

Section SortUniq.
Context {K : Type} (ltb eqb : K -> K -> bool).

Fixpoint insert_uniq (x : K) (l : list K) : list K :=
  match l with
  | [] => [x]
  | y :: l' =>
      if ltb x y then x :: l
      else if eqb x y then l
      else y :: insert_uniq x l'
  end.

(** The distinct keys in increasing order, as [groupby] (with its default
    [sort=True]) and [pivot_table] lay them out. *)
Definition sort_uniq (l : list K) : list K := fold_right insert_uniq [] l.
End SortUniq.

Definition unique_times : list Z -> list Z := sort_uniq Z.ltb Z.eqb.
Definition unique_labels : list string -> list string := sort_uniq String.ltb String.eqb.

(** One observation of a pivot: index key, column key, value. *)
Definition obs : Type := Z * string * option Q.

Fixpoint zip3 (ts : list Z) (cs : list string) (vs : list (option Q)) : list obs :=
  match ts, cs, vs with
  | t :: ts', c :: cs', v :: vs' => (t, c, v) :: zip3 ts' cs' vs'
  | _, _, _ => []
  end.

Definition obs_in (t : Z) (c : string) (o : obs) : bool :=
  let '(t', c', _) := o in (t' =? t) && String.eqb c' c.

(** A cell of the pivot: the sum over the observations of its group, NA when
    the group is empty. *)
Definition pivot_cell (rows : list obs) (t : Z) (c : string) : value :=
  match filter (obs_in t c) rows with
  | [] => VNA
  | g => VNum (sum_skipna (map snd g))
  end.

(** The table of a pivot: one row per distinct index key, one column per
    distinct column key, both in increasing order. *)
Definition pivot_frame (name : string) (tz : tzinfo) (rows : list obs) : DataFrame :=
  let ilabels := unique_times (map (fun o => fst (fst o)) rows) in
  let clabels := unique_labels (map (fun o => snd (fst o)) rows) in
  mkDataFrame (Some name)
    (map (fun t => VTime t tz) ilabels)
    (map (fun cl => (cl, map (fun t => pivot_cell rows t cl) ilabels)) clabels).

(** [df.pivot_table(index=i, columns=c, values=v, aggfunc="sum")] *)
Definition pivot_table_sum (df : DataFrame) (i c v : string) : result DataFrame :=
  rbind (getitem df i) (fun icol =>
  rbind (getitem df c) (fun ccol =>
  rbind (getitem df v) (fun vcol =>
  rbind (as_times icol) (fun ts =>
  rbind (as_strs ccol) (fun cs =>
  rbind (as_nums vcol) (fun vs =>
    Ok (pivot_frame i (column_tz icol) (zip3 ts cs vs)))))))).

(** [df.fillna(0)] *)
Definition df_fillna0 (df : DataFrame) : DataFrame :=
  mkDataFrame (df_index_name df) (df_index df)
    (map (fun '(k, c) => (k, fillna0 c)) (df_columns df)).

(** [df[name] = x] for a scalar [x]. *)
Definition setitem_scalar (df : DataFrame) (name : string) (x : value) : DataFrame :=
  setitem df name (repeat x (df_len df)).

(** [df[names]]: the listed columns, in the listed order. *)
Definition select (df : DataFrame) (names : list string) : result DataFrame :=
  rbind (mapM (fun n => rbind (getitem df n) (fun c => Ok (n, c))) names)
        (fun cols => Ok (mkDataFrame (df_index_name df) (df_index df) cols)).

(** [df.sum(axis=1)] of a frame of numeric columns: one sum per row. *)
Definition sum_axis1 (df : DataFrame) : result column :=
  rbind (mapM (fun kc => as_nums (snd kc)) (df_columns df)) (fun cols =>
    Ok (map (fun i => VNum (sum_skipna (map (fun c => nth i c None) cols)))
            (seq 0 (df_len df)))).

(** [df.reset_index()]: a named index becomes the first column. *)
Definition reset_index (df : DataFrame) : DataFrame :=
  match df_index_name df with
  | Some n =>
      mkDataFrame None (RangeIndex (df_len df)) ((n, df_index df) :: df_columns df)
  | None =>
      mkDataFrame None (RangeIndex (df_len df)) (("index", df_index df) :: df_columns df)
  end.

(** [df.melt(id_vars=id, var_name=var, value_name=val)]: the columns other
    than [id] are stacked one after the other, each with its name repeated
    in [var] and the [id] column repeated beside it. *)
Definition melt (df : DataFrame) (id var val : string) : result DataFrame :=
  rbind (getitem df id) (fun idcol =>
    let vars := filter (fun kc => negb (String.eqb (fst kc) id)) (df_columns df) in
    Ok (mkDataFrame None
          (RangeIndex (List.length vars * df_len df))
          [ (id, flat_map (fun _ => idcol) vars);
            (var, flat_map (fun kc => repeat (VStr (fst kc)) (df_len df)) vars);
            (val, flat_map (fun kc => snd kc) vars) ])).

(** The sum of the values whose key is [k]. *)
Fixpoint group_sum (k : Z) (keys : list Z) (vals : list (option Q)) : Q :=
  match keys, vals with
  | k' :: keys', v :: vals' =>
      if k' =? k
      then (match v with Some q => q | None => 0 end + group_sum k keys' vals')%Q
      else group_sum k keys' vals'
  | _, _ => 0%Q
  end.

Definition group_sums_frame (by_ v : string) (tz : tzinfo)
  (ks : list Z) (vs : list (option Q)) : DataFrame :=
  let labels := unique_times ks in
  mkDataFrame None (RangeIndex (List.length labels))
    [ (by_, map (fun t => VTime t tz) labels);
      (v, map (fun t => VNum (group_sum t ks vs)) labels) ].

(** [df.groupby(by)[v].sum().reset_index()] *)
Definition groupby_sum (df : DataFrame) (by_ v : string) : result DataFrame :=
  rbind (getitem df by_) (fun kcol =>
  rbind (getitem df v) (fun vcol =>
  rbind (as_times kcol) (fun ks =>
  rbind (as_nums vcol) (fun vs =>
    Ok (group_sums_frame by_ v (column_tz kcol) ks vs))))).

(** ** Row selection *)

(** [df.take(positions)] *)
Definition take {A} (d : A) (positions : list nat) (l : list A) : list A :=
  map (fun i => nth i l d) positions.

Definition df_take (positions : list nat) (df : DataFrame) : DataFrame :=
  mkDataFrame (df_index_name df) (take VNA positions (df_index df))
    (map (fun '(k, c) => (k, take VNA positions c)) (df_columns df)).

(** Positions of the rows that are the last of their group. *)
Fixpoint last_of_group (pos : nat) (keys : list Z) : list nat :=
  match keys with
  | [] => []
  | k :: keys' =>
      if existsb (Z.eqb k) keys' then last_of_group (S pos) keys'
      else pos :: last_of_group (S pos) keys'
  end.

(** [df.groupby(by).tail(1)]: the last row of every group, in the order the
    rows have in [df]. *)
Definition groupby_tail1 (df : DataFrame) (by_ : string) : result DataFrame :=
  rbind (getitem df by_) (fun kcol =>
  rbind (as_times kcol) (fun ks =>
    Ok (df_take (last_of_group 0 ks) df))).

(** The pairs of positions (left, right) with equal keys, in the order of
    the left rows. *)
Definition join_positions (lk rk : list Z) : list (nat * nat) :=
  flat_map (fun '(i, k) =>
              map (fun '(j, _) => (i, j))
                  (filter (fun '(_, k') => k' =? k)
                          (combine (seq 0 (List.length rk)) rk)))
           (combine (seq 0 (List.length lk)) lk).

(** [pd.merge(left, right, on=key, how="inner")]: the key column, then the
    other columns of [left], then those of [right]. *)
Definition merge_inner (left right : DataFrame) (key : string) : result DataFrame :=
  rbind (getitem left key) (fun lkcol =>
  rbind (getitem right key) (fun rkcol =>
  rbind (as_times lkcol) (fun lk =>
  rbind (as_times rkcol) (fun rk =>
    let ps := join_positions lk rk in
    let other df := filter (fun kc => negb (String.eqb (fst kc) key)) (df_columns df) in
    Ok (mkDataFrame None (RangeIndex (List.length ps))
          ((key, take VNA (map fst ps) lkcol)
             :: map (fun '(k, c) => (k, take VNA (map fst ps) c)) (other left)
             ++ map (fun '(k, c) => (k, take VNA (map snd ps) c)) (other right))))))).

(** ** The transform pipeline *)

(** The two frames [process_data] is called with.  They are the caller's
    objects: an assignment to one of their columns is seen by the caller. *)
Record frames : Type := mkFrames {
  fuel_df : DataFrame;
  tsdf_df : DataFrame
}.

Definition M (A : Type) : Type := frames -> result A * frames.

Definition ret {A} (a : A) : M A := fun s => (Ok a, s).

Definition bind {A B} (m : M A) (k : A -> M B) : M B :=
  fun s =>
    match m s with
    | (Ok a, s') => k a s'
    | (Raise e, s') => (Raise e, s')
    end.

Definition lift {A} (r : result A) : M A := fun s => (r, s).

Declare Scope pipeline_scope.
Delimit Scope pipeline_scope with pipeline.
Notation "x <- m ;; k" := (bind m (fun x => k))
  (at level 61, m at next level, right associativity) : pipeline_scope.
Notation "m ;; k" := (bind m (fun _ => k))
  (at level 61, right associativity) : pipeline_scope.

Definition get_fuel : M DataFrame := fun s => (Ok (fuel_df s), s).
Definition get_tsdf : M DataFrame := fun s => (Ok (tsdf_df s), s).

(** [fuel_df[name]] and [fuel_df[name] = col] *)
Definition fuel_get (name : string) : M column :=
  fun s => (getitem (fuel_df s) name, s).
Definition fuel_set (name : string) (c : column) : M unit :=
  fun s => (Ok tt, mkFrames (setitem (fuel_df s) name c) (tsdf_df s)).

(** [tsdf_df[name]] and [tsdf_df[name] = col] *)
Definition tsdf_get (name : string) : M column :=
  fun s => (getitem (tsdf_df s) name, s).
Definition tsdf_set (name : string) (c : column) : M unit :=
  fun s => (Ok tt, mkFrames (fuel_df s) (setitem (tsdf_df s) name c)).

(** Emission factors (g/kWh), in the order the dictionary lists them. *)
Definition emission_factors : list (string * Q) :=
  [ ("Gas", 3294 # 10);
    ("Biomass", 120 # 1);
    ("Coal/Oil/Other", 675 # 1);
    ("Nuclear", 0 # 1);
    ("Wind", 0 # 1);
    ("Hydro", 0 # 1);
    ("Imports", 3294 # 10) ].

(** The loop that makes sure every expected column exists. *)
Definition ensure_columns (pivot : DataFrame) : DataFrame :=
  fold_left (fun p col =>
               if has_column p col then p else setitem_scalar p col (VNum 0%Q))
            categories pivot.

(** The loop that accumulates the numerator of the carbon intensity. *)
Definition ci_numerator (pivot : DataFrame) : result column :=
  fold_left (fun acc '(cat, ef) =>
               rbind acc (fun num =>
               rbind (getitem pivot cat) (fun c =>
               rbind (series_scale c ef) (fun w =>
               series_add num w))))
            emission_factors
            (Ok (repeat (VNum 0%Q) (df_len pivot))).

Section Pipeline.

(** [sort_values] takes the rows in the order given by an argsort of the
    key column.  Its default [kind="quicksort"] is not a stable sort, so
    the order among equal keys is the sorting routine's; the pipeline is
    stated over the routine. *)
Variable argsort : list string -> list nat.

(** [df.sort_values(by)] on a column of strings, which is what the
    PublishTime of both datasets holds.  pandas also sorts columns of
    numbers or timestamps and puts NA last; the model raises on them. *)
Definition sort_values (df : DataFrame) (by_ : string) : result DataFrame :=
  rbind (getitem df by_) (fun kcol =>
  rbind (as_strs kcol) (fun ks =>
    Ok (df_take (argsort ks) df))).

Definition process_data : M (DataFrame * DataFrame * DataFrame) :=
  (* Convert StartTime to datetime *)
  (st <- fuel_get "StartTime" ;;
   st <- lift (to_datetime_utc st) ;;
   fuel_set "StartTime" st ;;
   (* Create local time column *)
   st <- fuel_get "StartTime" ;;
   lt <- lift (dt_tz_convert Europe_London st) ;;
   fuel_set "LocalTime" lt ;;
   (* Clip negative generation *)
   g <- fuel_get "Generation" ;;
   gc <- lift (clip_lower0 g) ;;
   fuel_set "Generation_clipped" gc ;;
   (* Categorise fuel types *)
   ft <- fuel_get "FuelType" ;;
   fuel_set "Category" (apply_categorise ft) ;;
   (* Pivot table by 5-minute intervals *)
   fuel <- get_fuel ;;
   pivot <- lift (pivot_table_sum fuel "LocalTime" "Category" "Generation_clipped") ;;
   let pivot := df_fillna0 pivot in
   (* Ensure all expected columns exist *)
   let pivot := ensure_columns pivot in
   (* Total generation *)
   sel <- lift (select pivot categories) ;;
   total <- lift (sum_axis1 sel) ;;
   let pivot := setitem pivot "TotalGeneration" total in
   (* Calculate carbon intensity *)
   num <- lift (ci_numerator pivot) ;;
   total <- lift (getitem pivot "TotalGeneration") ;;
   ci <- lift (series_div num (replace0_NA total)) ;;
   let pivot := setitem pivot "CarbonIntensity" ci in
   (* Long format for stacked area *)
   sel <- lift (select pivot categories) ;;
   area_df <- lift (melt (reset_index sel) "LocalTime" "Category" "Generation") ;;
   (* Prepare demand merge (half-hour resolution) *)
   lt <- fuel_get "LocalTime" ;;
   hh <- lift (dt_floor_30min lt) ;;
   fuel_set "LocalHalfHour" hh ;;
   fuel <- get_fuel ;;
   half_hour_gen <- lift (groupby_sum fuel "LocalHalfHour" "Generation_clipped") ;;
   (* TSDF local time *)
   st <- tsdf_get "StartTime" ;;
   st <- lift (to_datetime_utc st) ;;
   tsdf_set "StartTime" st ;;
   st <- tsdf_get "StartTime" ;;
   lt <- lift (dt_tz_convert Europe_London st) ;;
   tsdf_set "LocalTime" lt ;;
   lt <- tsdf_get "LocalTime" ;;
   hh <- lift (dt_floor_30min lt) ;;
   tsdf_set "LocalHalfHour" hh ;;
   (* Use latest demand per half-hour window (greatest publish time) *)
   tsdf <- get_tsdf ;;
   sorted <- lift (sort_values tsdf "PublishTime") ;;
   latest_tsdf <- lift (groupby_tail1 sorted "LocalHalfHour") ;;
   left <- lift (select latest_tsdf ["LocalHalfHour"; "demand"]) ;;
   demand_merge <- lift (merge_inner left half_hour_gen "LocalHalfHour") ;;
   let demand_merge :=
     rename_columns [ ("Generation_clipped", "TotalGeneration");
                      ("demand", "DemandForecast") ] demand_merge in
   tg <- lift (getitem demand_merge "TotalGeneration") ;;
   df <- lift (getitem demand_merge "DemandForecast") ;;
   smd <- lift (series_sub tg df) ;;
   let demand_merge := setitem demand_merge "SupplyMinusDemand" smd in
   ret (pivot, area_df, demand_merge))%pipeline.

End Pipeline.

(** ** Sorting routines *)

(** A stable argsort: insertion of the positions from the right, a position
    going before the first one whose key is strictly greater. *)
Fixpoint stable_insert (ks : list string) (i : nat) (l : list nat) : list nat :=
  match l with
  | [] => [i]
  | j :: l' =>
      if String.ltb (nth i ks "") (nth j ks "") then i :: l
      else j :: stable_insert ks i l'
  end.

Definition stable_argsort (ks : list string) : list nat :=
  fold_left (fun acc i => stable_insert ks i acc) (seq 0 (List.length ks)) [].

(** NumPy's default argsort ([kind="quicksort"]) for an array of Python
    objects, which is what a column of strings is: an introsort over the
    array of positions.  A range of more than 17 positions is partitioned
    around the median of its first, middle and last element; a shorter range
    is sorted by insertion; a range reached after too many partitions is
    sorted by heapsort. *)
Module Npy.

Definition SMALL_QUICKSORT : nat := 16.

Section Keys.
Variable v : list string.

(** [v[tosort[i]] < v[tosort[j]]] *)
Definition less (a : list nat) (i j : nat) : bool :=
  String.ltb (nth (nth i a 0%nat) v "") (nth (nth j a 0%nat) v "").

Fixpoint aset (a : list nat) (i x : nat) : list nat :=
  match a, i with
  | [], _ => []
  | _ :: a', O => x :: a'
  | y :: a', S i' => y :: aset a' i' x
  end.

Definition swap (a : list nat) (i j : nat) : list nat :=
  aset (aset a i (nth j a 0%nat)) j (nth i a 0%nat).

(** [do ++pi; while (v[*pi] < vp)] *)
Fixpoint scan_up (fuel : nat) (a : list nat) (vp : string) (pi : nat) : nat :=
  match fuel with
  | O => S pi
  | S fuel' =>
      if String.ltb (nth (nth (S pi) a 0%nat) v "") vp
      then scan_up fuel' a vp (S pi) else S pi
  end.

(** [do --pj; while (vp < v[*pj])] *)
Fixpoint scan_down (fuel : nat) (a : list nat) (vp : string) (pj : nat) : nat :=
  match fuel with
  | O => pred pj
  | S fuel' =>
      if String.ltb vp (nth (nth (pred pj) a 0%nat) v "")
      then scan_down fuel' a vp (pred pj) else pred pj
  end.

Fixpoint partition_loop (fuel : nat) (a : list nat) (vp : string) (pi pj : nat)
  : list nat * nat :=
  match fuel with
  | O => (a, pi)
  | S fuel' =>
      let pi := scan_up (List.length a) a vp pi in
      let pj := scan_down (List.length a) a vp pj in
      if (pj <=? pi)%nat then (a, pi)
      else partition_loop fuel' (swap a pi pj) vp pi pj
  end.

(** The partition of [pl .. pr]; returns the array and the place of the
    pivot. *)
Definition partition (a : list nat) (pl pr : nat) : list nat * nat :=
  let pm := (pl + Nat.div2 (pr - pl))%nat in
  let a := if less a pm pl then swap a pm pl else a in
  let a := if less a pr pm then swap a pr pm else a in
  let a := if less a pm pl then swap a pm pl else a in
  let vp := nth (nth pm a 0%nat) v "" in
  let a := swap a pm (pr - 1) in
  let '(a, pi) := partition_loop (List.length a) a vp pl (pr - 1) in
  (swap a pi (pr - 1), pi).

(** The inner loop of the insertion sort: [vi] moves down from [pj]. *)
Fixpoint insert_down (fuel : nat) (a : list nat) (pl vi pj : nat) : list nat :=
  match fuel with
  | O => aset a pj vi
  | S fuel' =>
      if (pl <? pj)%nat
         && String.ltb (nth vi v "") (nth (nth (pj - 1) a 0%nat) v "")
      then insert_down fuel' (aset a pj (nth (pj - 1) a 0%nat)) pl vi (pj - 1)
      else aset a pj vi
  end.

Definition insertion_sort (a : list nat) (pl pr : nat) : list nat :=
  fold_left (fun a pi => insert_down (List.length a) a pl (nth pi a 0%nat) pi)
            (seq (S pl) (pr - pl)) a.

(** Heapsort of the [n] positions from [pl]; the heap is indexed from 1. *)
Definition hget (a : list nat) (pl k : nat) : nat := nth (pl + k - 1) a 0%nat.
Definition hset (a : list nat) (pl k x : nat) : list nat := aset a (pl + k - 1) x.

Fixpoint sift (fuel : nat) (a : list nat) (pl n tmp i j : nat) : list nat :=
  match fuel with
  | O => hset a pl i tmp
  | S fuel' =>
      if (j <=? n)%nat then
        let j := if (j <? n)%nat
                    && String.ltb (nth (hget a pl j) v "") (nth (hget a pl (S j)) v "")
                 then S j else j in
        if String.ltb (nth tmp v "") (nth (hget a pl j) v "")
        then sift fuel' (hset a pl i (hget a pl j)) pl n tmp j (j + j)
        else hset a pl i tmp
      else hset a pl i tmp
  end.

Definition aheapsort (a : list nat) (pl n : nat) : list nat :=
  let a := fold_left (fun a l => sift n a pl n (hget a pl l) l (l + l))
                     (rev (seq 1 (Nat.div2 n))) a in
  fold_left (fun a m =>
               (* m is the heap size before this step *)
               let tmp := hget a pl m in
               let a := hset a pl m (hget a pl 1) in
               sift n a pl (m - 1) tmp 1 2)
            (rev (seq 2 (n - 1))) a.

(** The range [pl .. pr] with [cdepth] partitions left before heapsort
    takes over.  The smaller side of a partition is carried on, the
    larger one is put aside with the same depth and checked against the
    depth limit when it is taken up again. *)
Fixpoint sort_range (fuel : nat) (a : list nat) (pl pr : nat) (cdepth : Z)
  : list nat :=
  match fuel with
  | O => a
  | S fuel' =>
      if (SMALL_QUICKSORT <? pr - pl)%nat then
        let '(a, pi) := partition a pl pr in
        let cdepth := cdepth - 1 in
        let aside a pl pr :=
          if cdepth <? 0 then aheapsort a pl (pr - pl + 1)
          else sort_range fuel' a pl pr cdepth in
        if (pi - pl <? pr - pi)%nat
        then aside (sort_range fuel' a pl (pi - 1) cdepth) (pi + 1)%nat pr
        else aside (sort_range fuel' a (pi + 1) pr cdepth) pl (pi - 1)%nat
      else insertion_sort a pl pr
  end.
End Keys.

(** [np.argsort(v)] with the default kind. *)
Definition argsort (v : list string) : list nat :=
  let num := List.length v in
  sort_range v (S num) (seq 0 num) 0 (num - 1)
             (2 * Z.of_nat (Nat.log2 num)).

End Npy.

(** ** The fetchers *)

(** One object of a JSON array of records. *)
Definition record : Type := list (string * value).

(** The JSON documents of the two datasets: a bare array of records, or an
    object whose ["data"] member, when it has one, is such an array. *)
Inductive json : Type :=
| JArray (rows : list record)
| JObject (data : option (list record)).

(** What [requests.get] comes back with: an exception when the server
    cannot be reached, otherwise a response with its status and its body
    ([None] for a body that is not JSON). *)
Inductive http_outcome : Type :=
| Unreachable
| Response (status_code : Z) (body : option json).

(** A file of the script's directory, by what it holds. *)
Inductive file : Type :=
| CsvFile (header : list string) (rows : list (list value))
| JsonFile (doc : json)
| OtherFile.

Inductive event : Type :=
| EvGet (url : string)
| EvExists (path : string)
| EvRead (path : string).

(** A computation that talks to the network and the file system. *)
Inductive io (A : Type) : Type :=
| Done (r : result A)
| HttpGet (url : string) (k : http_outcome -> io A)
| PathExists (path : string) (k : bool -> io A)
| ReadFile (path : string) (k : option file -> io A).
Arguments Done {A} r.
Arguments HttpGet {A} url k.
Arguments PathExists {A} path k.
Arguments ReadFile {A} path k.

Record environment : Type := mkEnv {
  net : string -> http_outcome;
  files : string -> option file
}.

(** Runs a computation in an environment; returns its outcome and the
    requests it made, in order. *)
Fixpoint run {A} (env : environment) (c : io A) : result A * list event :=
  match c with
  | Done r => (r, [])
  | HttpGet url k =>
      let '(r, tr) := run env (k (net env url)) in (r, EvGet url :: tr)
  | PathExists path k =>
      let '(r, tr) :=
        run env (k (match files env path with Some _ => true | None => false end)) in
      (r, EvExists path :: tr)
  | ReadFile path k =>
      let '(r, tr) := run env (k (files env path)) in (r, EvRead path :: tr)
  end.

(** The field names of a list of records, in the order they first appear. *)
Fixpoint record_keys (seen : list string) (rows : list record) : list string :=
  match rows with
  | [] => seen
  | r :: rows' =>
      record_keys
        (fold_left (fun acc kv =>
                      if str_mem (fst kv) acc then acc else (acc ++ [fst kv])%list) r seen)
        rows'
  end.

(** [pd.DataFrame(rows)] for a list of records: one row per record, one
    column per field name, NA where a record lacks the field. *)
Definition DataFrame_of_records (rows : list record) : DataFrame :=
  mkDataFrame None (RangeIndex (List.length rows))
    (map (fun k =>
            (k, map (fun r => match assoc k r with Some x => x | None => VNA end) rows))
         (record_keys [] rows)).

(** [pd.read_csv(path)] on what the file holds. *)
Definition read_csv (f : option file) : result DataFrame :=
  match f with
  | Some (CsvFile [] _) => Raise EmptyDataError
  | Some (CsvFile header rows) =>
      Ok (mkDataFrame None (RangeIndex (List.length rows))
            (map (fun '(j, k) => (k, map (fun r => nth j r VNA) rows))
                 (combine (seq 0 (List.length header)) header)))
  | Some _ => Raise (ValueError "Error tokenizing data")
  | None => Raise (ValueError "No such file")
  end.

(** [json.load(f)] *)
Definition json_load (f : option file) : result json :=
  match f with
  | Some (JsonFile doc) => Ok doc
  | Some _ => Raise JSONDecodeError
  | None => Raise (ValueError "No such file")
  end.

(** [response.json().get("data", [])] *)
Definition response_data (body : option json) : result (list record) :=
  match body with
  | None => Raise JSONDecodeError
  | Some (JArray _) => Raise AttributeError
  | Some (JObject (Some rows)) => Ok rows
  | Some (JObject None) => Ok []
  end.

(** [str(n)] for a status code. *)
Definition digit_char (d : Z) : ascii := ascii_of_N (Z.to_N (48 + d)).

Fixpoint decimal_digits (fuel : nat) (n : Z) (acc : string) : string :=
  match fuel with
  | O => acc
  | S fuel' =>
      let acc := String (digit_char (n mod 10)) acc in
      if n / 10 =? 0 then acc else decimal_digits fuel' (n / 10) acc
  end.

Definition str_of_Z (n : Z) : string :=
  if n <? 0 then "-" ++ decimal_digits (Z.to_nat (Z.log2 (- n)) + 1) (- n) ""
  else decimal_digits (Z.to_nat (Z.log2 n) + 1) n "".

Definition fuelinst_url : string := "https://data.elexon.co.uk/bmrs/api/v1/datasets/FUELINST".
Definition tsdf_url : string := "https://data.elexon.co.uk/bmrs/api/v1/datasets/TSDF".

(** [os.path.join(os.path.dirname(__file__), name)] *)
Definition path_join (dir name : string) : string := dir ++ "/" ++ name.

Definition fuelinst_columns : list (string * string) :=
  [ ("dataset", "Dataset");
    ("publishTime", "PublishTime");
    ("startTime", "StartTime");
    ("settlementDate", "SettlementDate");
    ("settlementPeriod", "SettlementPeriod");
    ("fuelType", "FuelType");
    ("generation", "Generation") ].

Definition tsdf_columns : list (string * string) :=
  [ ("dataset", "Dataset");
    ("publishTime", "PublishTime");
    ("startTime", "StartTime");
    ("settlementDate", "SettlementDate");
    ("settlementPeriod", "SettlementPeriod");
    ("boundary", "Boundary") ].

Definition no_data_message (dataset : string) : string :=
  "No " ++ dataset ++ " data returned from API.".

Definition no_fallback_message (dataset : string) (status_code : Z) : string :=
  "Failed to fetch " ++ dataset ++ " data (HTTP " ++ str_of_Z status_code
    ++ ") and no local fallback available.".

(** [dir] is the directory of the script. *)
Definition fetch_fuelinst_data (dir : string) : io DataFrame :=
  HttpGet fuelinst_url (fun response =>
    match response with
    | Unreachable => Done (Raise ConnectionError)
    | Response status_code body =>
        if status_code =? 200 then
          Done (rbind (response_data body) (fun data =>
                match data with
                | [] => Raise (ValueError (no_data_message "FUELINST"))
                | _ => Ok (rename_columns fuelinst_columns (DataFrame_of_records data))
                end))
        else
          (* Attempt to use local fallback file if API call fails *)
          let fallback_path := path_join dir "FUELINST.csv" in
          PathExists fallback_path (fun there =>
            if there then
              ReadFile fallback_path (fun f =>
                Done (rbind (read_csv f) (fun df =>
                      Ok (rename_columns fuelinst_columns df))))
            else
              Done (Raise (ValueError (no_fallback_message "FUELINST" status_code))))
    end).

Definition fetch_tsdf_data (dir : string) : io DataFrame :=
  HttpGet tsdf_url (fun response =>
    match response with
    | Unreachable => Done (Raise ConnectionError)
    | Response status_code body =>
        if status_code =? 200 then
          Done (rbind (response_data body) (fun data =>
                match data with
                | [] => Raise (ValueError (no_data_message "TSDF"))
                | _ => Ok (rename_columns tsdf_columns (DataFrame_of_records data))
                end))
        else
          let fallback_path := path_join dir "TSDF.json" in
          PathExists fallback_path (fun there =>
            if there then
              ReadFile fallback_path (fun f =>
                Done (rbind (json_load f) (fun fallback_data =>
                      (* Some files store data as top-level list; others under 'data' *)
                      match fallback_data with
                      | JObject (Some rows) | JArray rows =>
                          Ok (rename_columns tsdf_columns (DataFrame_of_records rows))
                      | JObject None =>
                          Raise (ValueError "If using all scalar values, you must pass an index")
                      end)))
            else
              Done (Raise (ValueError (no_fallback_message "TSDF" status_code))))
    end).

(** ** The scenarios of the specification *)

(** [pd.DataFrame] of [n] records given column by column. *)
Definition frame_of_columns (n : nat) (cols : list (string * column)) : DataFrame :=
  mkDataFrame None (RangeIndex n) cols.

(** Gas 100 MW, wind 50 MW and nuclear 0 MW at 10:05, and a forecast of
    140 MW for the half hour from 10:00. *)
Definition scenario_fuel : DataFrame :=
  frame_of_columns 3
    [ ("StartTime", [ VStr "2024-01-01T10:05:00Z"; VStr "2024-01-01T10:05:00Z";
                      VStr "2024-01-01T10:05:00Z" ]);
      ("FuelType", [ VStr "CCGT"; VStr "WIND"; VStr "NUCLEAR" ]);
      ("Generation", [ VNum 100; VNum 50; VNum 0 ]) ].

Definition scenario_tsdf : DataFrame :=
  frame_of_columns 1
    [ ("StartTime", [ VStr "2024-01-01T10:00:00Z" ]);
      ("PublishTime", [ VStr "2024-01-01T09:00:00Z" ]);
      ("demand", [ VNum 140 ]) ].

(** Two revisions of the forecast for the window from 10:00: 500 MW
    published at 10:00 and 520 MW published at 10:05. *)
Definition revisions_tsdf : DataFrame :=
  frame_of_columns 2
    [ ("StartTime", [ VStr "2024-01-01T10:00:00Z"; VStr "2024-01-01T10:00:00Z" ]);
      ("PublishTime", [ VStr "2024-01-01T10:00:00Z"; VStr "2024-01-01T10:05:00Z" ]);
      ("demand", [ VNum 500; VNum 520 ]) ].

(** ** Reading a table *)

(** The cell of column [name] in row [i]; NA when there is no such cell. *)
Definition cell (df : DataFrame) (name : string) (i : nat) : value :=
  match getitem df name with
  | Ok c => nth i c VNA
  | Raise _ => VNA
  end.

Definition num (v : value) : Q :=
  match v with VNum q => q | _ => 0%Q end.

Definition Qsum (l : list Q) : Q := fold_right Qplus 0%Q l.

Definition emission_factor (cat : string) : Q :=
  match assoc cat emission_factors with Some ef => ef | None => 0%Q end.

(** A frame is well formed when every column has one cell per row. *)
Definition wf_frame (df : DataFrame) : Prop :=
  Forall (fun kc => List.length (snd kc) = df_len df) (df_columns df).

(** An argsort sorts when its result lists every position once and the keys
    read in that order never decrease. *)
Definition sorts (argsort : list string -> list nat) : Prop :=
  forall ks,
    Permutation (argsort ks) (seq 0 (List.length ks)) /\
    StronglySorted (fun i j => String.leb (nth i ks "") (nth j ks "") = true)
                   (argsort ks).

(** The outcome of a run, or empty tables when it raises. *)
Definition outputs_of (r : result (DataFrame * DataFrame * DataFrame) * frames)
  : DataFrame * DataFrame * DataFrame :=
  match fst r with
  | Ok out => out
  | Raise _ =>
      (mkDataFrame None [] [], mkDataFrame None [] [], mkDataFrame None [] [])
  end.

Definition scenario_pivot : DataFrame :=
  Eval vm_compute in
    fst (fst (outputs_of (process_data stable_argsort
                            (mkFrames scenario_fuel scenario_tsdf)))).
Definition scenario_area : DataFrame :=
  Eval vm_compute in
    snd (fst (outputs_of (process_data stable_argsort
                            (mkFrames scenario_fuel scenario_tsdf)))).
Definition scenario_merge : DataFrame :=
  Eval vm_compute in
    snd (outputs_of (process_data stable_argsort
                       (mkFrames scenario_fuel scenario_tsdf))).
Definition scenario_frames : frames :=
  Eval vm_compute in
    snd (process_data stable_argsort (mkFrames scenario_fuel scenario_tsdf)).

(** A pumped-storage unit charging (-300 MW) beside 100 MW of gas at 10:05,
    and 40 MW of wind at 10:35. *)
Definition pumping_fuel : DataFrame :=
  frame_of_columns 3
    [ ("StartTime", [ VStr "2024-01-01T10:05:00Z"; VStr "2024-01-01T10:05:00Z";
                      VStr "2024-01-01T10:35:00Z" ]);
      ("FuelType", [ VStr "PS"; VStr "CCGT"; VStr "WIND" ]);
      ("Generation", [ VNum (-300); VNum 100; VNum 40 ]) ].

Definition pumping_pivot : DataFrame :=
  Eval vm_compute in
    fst (fst (outputs_of (process_data stable_argsort
                            (mkFrames pumping_fuel revisions_tsdf)))).
Definition pumping_area : DataFrame :=
  Eval vm_compute in
    snd (fst (outputs_of (process_data stable_argsort
                            (mkFrames pumping_fuel revisions_tsdf)))).
Definition pumping_merge : DataFrame :=
  Eval vm_compute in
    snd (outputs_of (process_data stable_argsort
                       (mkFrames pumping_fuel revisions_tsdf))).
Definition pumping_frames : frames :=
  Eval vm_compute in
    snd (process_data stable_argsort (mkFrames pumping_fuel revisions_tsdf)).

Definition str (v : value) : string :=
  match v with VStr s => s | _ => "" end.

(** Eighteen forecasts for the half hour from 10:00.  Records 0 and 5 carry
    the latest publish time, 10:05; the others were published at 10:00. *)
Definition ties_tsdf : DataFrame :=
  frame_of_columns 18
    [ ("StartTime", repeat (VStr "2024-01-01T10:00:00Z") 18);
      ("PublishTime",
       VStr "2024-01-01T10:05:00Z"
         :: repeat (VStr "2024-01-01T10:00:00Z") 4
         ++ VStr "2024-01-01T10:05:00Z"
         :: repeat (VStr "2024-01-01T10:00:00Z") 12)%list;
      ("demand",
       VNum 500 :: repeat (VNum 400) 4 ++ VNum 520 :: repeat (VNum 400) 12)%list ].

(** A sorting routine is stable when, besides sorting, it leaves positions
    with equal keys in increasing order. *)
Definition stable (argsort : list string -> list nat) : Prop :=
  forall ks,
    Permutation (argsort ks) (seq 0 (List.length ks)) /\
    StronglySorted
      (fun i j => String.ltb (nth i ks "") (nth j ks "") = true
                  \/ (nth i ks "" = nth j ks "" /\ (i < j)%nat))
      (argsort ks).

(** Two forecasts for the half hour from 10:00, published at the instants
    08:30 UTC (500 MW) and 08:00 UTC (520 MW), the second written with a
    UTC offset of one hour. *)
Definition offsets_tsdf : DataFrame :=
  frame_of_columns 2
    [ ("StartTime", [ VStr "2024-01-01T10:00:00Z"; VStr "2024-01-01T10:00:00Z" ]);
      ("PublishTime", [ VStr "2024-01-01T08:30:00Z"; VStr "2024-01-01T09:00:00+01:00" ]);
      ("demand", [ VNum 500; VNum 520 ]) ].

(** ** Environments of the fetchers *)

Definition one_reading : record :=
  [ ("dataset", VStr "FUELINST"); ("publishTime", VStr "2024-01-01T10:06:00Z");
    ("startTime", VStr "2024-01-01T10:05:00Z"); ("settlementDate", VStr "2024-01-01");
    ("settlementPeriod", VNum 21); ("fuelType", VStr "CCGT");
    ("generation", VNum 100) ].

Definition reading_header : list string :=
  [ "dataset"; "publishTime"; "startTime"; "settlementDate"; "settlementPeriod";
    "fuelType"; "generation" ].

(** The server cannot be reached; both fallback files are there, with data. *)
Definition offline_env : environment :=
  mkEnv (fun _ => Unreachable)
        (fun path =>
           if String.eqb path "/app/FUELINST.csv"
           then Some (CsvFile reading_header [map snd one_reading])
           else if String.eqb path "/app/TSDF.json"
           then Some (JsonFile (JArray [ [("demand", VNum 140)] ]))
           else None).

(** The server answers 503; both fallback files are there and hold no
    record. *)
Definition empty_fallback_env : environment :=
  mkEnv (fun _ => Response 503 None)
        (fun path =>
           if String.eqb path "/app/FUELINST.csv"
           then Some (CsvFile reading_header [])
           else if String.eqb path "/app/TSDF.json"
           then Some (JsonFile (JObject (Some [])))
           else None).

(** The server answers 200 with one record. *)
Definition online_env : environment :=
  mkEnv (fun _ => Response 200 (Some (JObject (Some [one_reading]))))
        (fun _ => None).

(** * The dashboard and the entry point

    [create_dashboard] and [main].  A Plotly figure is the record of what it
    was built from and of the layout properties set on it; a Dash
    application is its layout tree. *)

(** ** Figures *)

Inductive chart_kind : Type := AreaChart | LineChart.

Inductive layout_value : Type :=
| LText (s : string)
| LRange (lo hi : Q).

Record Figure : Type := mkFigure {
  fig_kind : chart_kind;
  fig_data : DataFrame;
  fig_x : string;
  fig_y : string;
  fig_color : option string;
  fig_title : string;
  fig_labels : list (string * string);
  fig_layout : list (string * layout_value)
}.

(** Plotly Express refuses an argument that does not name a column of the
    frame. *)
Definition px_chart (kind : chart_kind) (data_frame : DataFrame) (x y : string)
  (color : option string) (title : string) (labels : list (string * string))
  : result Figure :=
  if has_column data_frame x && has_column data_frame y
     && match color with Some c => has_column data_frame c | None => true end
  then Ok (mkFigure kind data_frame x y color title labels [])
  else Raise (ValueError "Value is not the name of a column in 'data_frame'").

(** [px.area(data_frame, x=, y=, color=, title=, labels=)] *)
Definition px_area (data_frame : DataFrame) (x y color title : string)
  (labels : list (string * string)) : result Figure :=
  px_chart AreaChart data_frame x y (Some color) title labels.

(** [px.line(data_frame, x=, y=, title=, labels=)] *)
Definition px_line (data_frame : DataFrame) (x y title : string)
  (labels : list (string * string)) : result Figure :=
  px_chart LineChart data_frame x y None title labels.

(** [fig.update_layout] with the given keyword arguments. *)
Definition update_layout (fig : Figure) (props : list (string * layout_value))
  : Figure :=
  mkFigure (fig_kind fig) (fig_data fig) (fig_x fig) (fig_y fig) (fig_color fig)
           (fig_title fig) (fig_labels fig)
           (fold_left (fun l kv => assoc_set (fst kv) (snd kv) l) props
                      (fig_layout fig)).

(** ** Components *)

Inductive component : Type :=
| html_H1 (text : string)
| html_P (text : string)
| dcc_Graph (figure : Figure).

(** [html.Div(children)] *)
Inductive container : Type :=
| html_Div (children : list component).

Record Dash : Type := mkDash { layout : container }.

(** ** Reductions of a series *)

(** The greatest number of a list, NA cells skipped; NA when there is none. *)
Definition max_skipna (l : list (option Q)) : option Q :=
  fold_left (fun acc v =>
               match acc, v with
               | _, None => acc
               | None, Some q => Some q
               | Some m, Some q => Some (Qmax m q)
               end) l None.

(** [col.max()] *)
Definition series_max (c : column) : result (option Q) :=
  rbind (as_nums c) (fun vs => Ok (max_skipna vs)).

(** The numbers of a list, NA cells left out. *)
Definition dropna (l : list (option Q)) : list Q :=
  flat_map (fun v => match v with Some q => [q] | None => [] end) l.

(** [col.mean()]: the mean of the cells that are not NA; NA when there is
    none. *)
Definition series_mean (c : column) : result (option Q) :=
  rbind (as_nums c) (fun vs =>
    match dropna vs with
    | [] => Ok None
    | qs => Ok (Some (sum_skipna vs / inject_Z (Z.of_nat (List.length qs)))%Q)
    end).

(** [df.empty]: no row, or no column. *)
Definition df_empty (df : DataFrame) : bool :=
  (df_len df =? 0)%nat || (List.length (df_columns df) =? 0)%nat.

(** ** [create_dashboard] *)

Definition time_label : string := "Time (Europe/London)".

Definition dashboard_title : string := "UK Power Market Dashboard".

Definition dashboard_text : string :=
  "This dashboard shows the UK power generation mix, estimated carbon "
  ++ "intensity and supply‑demand balance using open data from Elexon.".

Definition create_dashboard (area_df pivot_df : DataFrame)
  (demand_df : option DataFrame) : result Dash :=
  (* Stacked area chart (generation mix) *)
  rbind (px_area area_df "LocalTime" "Generation" "Category"
           "Generation Mix by Fuel Category"
           [ ("LocalTime", time_label);
             ("Generation", "Generation (MW)") ]) (fun area_fig =>
  let area_fig := update_layout area_fig [ ("legend_title_text", LText "Category") ] in
  (* Carbon intensity line chart *)
  rbind (px_line (reset_index pivot_df) "LocalTime" "CarbonIntensity"
           "Estimated Carbon Intensity"
           [ ("LocalTime", time_label);
             ("CarbonIntensity", "Carbon Intensity (g/kWh)") ]) (fun ci_fig =>
  (* set y-axis range to add headroom *)
  rbind (getitem pivot_df "CarbonIntensity") (fun ci =>
  rbind (series_max ci) (fun ci_max =>
  let ci_fig :=
    match ci_max with
    | Some m =>
        if negb (Qle_bool m 0)
        then update_layout ci_fig [ ("yaxis_range", LRange 0 (m * (11 # 10))) ]
        else ci_fig
    | None => ci_fig
    end in
  (* Optionally create supply-demand chart *)
  let charts := [ dcc_Graph area_fig; dcc_Graph ci_fig ] in
  rbind (match demand_df with
         | Some demand_df =>
             if negb (df_empty demand_df) then
               rbind (px_line demand_df "LocalHalfHour" "SupplyMinusDemand"
                        "Supply Minus Demand (Half‑hourly)"
                        [ ("LocalHalfHour", time_label);
                          ("SupplyMinusDemand", "Supply − Demand (MW)") ])
                     (fun sd_fig =>
               let sd_fig :=
                 update_layout sd_fig
                   [ ("yaxis_title", LText "Supply − Demand (MW)");
                     ("xaxis_title", LText time_label) ] in
               Ok (charts ++ [ dcc_Graph sd_fig ])%list)
             else Ok charts
         | None => Ok charts
         end) (fun charts =>
  (* Build layout *)
  Ok (mkDash (html_Div ([ html_H1 dashboard_title; html_P dashboard_text ] ++ charts)%list))))))).

(** The charts of an application, in the order of its layout. *)
Definition charts_of (app : Dash) : list Figure :=
  match layout app with
  | html_Div children =>
      flat_map (fun c => match c with dcc_Graph fig => [fig] | _ => [] end) children
  end.

(** ** [main] *)

(** What a run of the script does, as seen from outside. *)
Inductive action : Type :=
| PrintLine (text : string)
| Request (e : event)
| RunServer (app : Dash) (debug : bool).

Definition retrieved_message (fuel_rows tsdf_rows : nat) : string :=
  "Retrieved " ++ str_of_Z (Z.of_nat fuel_rows) ++ " rows of FUELINST data and "
  ++ str_of_Z (Z.of_nat tsdf_rows) ++ " rows of TSDF data.".

Definition no_overlap_warning : string :=
  "Warning: no overlapping half‑hour periods between generation and "
  ++ "demand forecast. Supply‑versus‑demand analysis will be empty.".

Definition starting_message : string :=
  "Starting dashboard… Navigate to http://127.0.0.1:8050 in your browser.".

Section Main.

Variable argsort : list string -> list nat.

(** The rendering of a number (or NaN) with one decimal, as the format
    [.1f] gives it; the digits it prints depend on the binary representation
    of the number, which is not modelled. *)
Variable format_1f : option Q -> string.

(** [dir] is the directory of the script.  The result is the exception the
    run ends with, if any, and what it did up to then. *)
Definition main (env : environment) (dir : string) : option exn * list action :=
  let out := [ PrintLine "Fetching data from Elexon…" ] in
  let '(fuel, tr) := run env (fetch_fuelinst_data dir) in
  let out := (out ++ map Request tr)%list in
  match fuel with
  | Raise e => (Some e, out)
  | Ok fuel_df =>
  let '(tsdf, tr) := run env (fetch_tsdf_data dir) in
  let out := (out ++ map Request tr)%list in
  match tsdf with
  | Raise e => (Some e, out)
  | Ok tsdf_df =>
  let out := (out ++ [ PrintLine (retrieved_message (df_len fuel_df) (df_len tsdf_df));
                       PrintLine "Processing data…" ])%list in
  match fst (process_data argsort (mkFrames fuel_df tsdf_df)) with
  | Raise e => (Some e, out)
  | Ok (pivot_df, area_df, demand_merge) =>
  let report :=
    if df_empty demand_merge then Ok no_overlap_warning
    else
      rbind (getitem demand_merge "SupplyMinusDemand") (fun smd =>
      rbind (series_mean smd) (fun avg_diff =>
        Ok ("Average supply minus forecast demand (MW) for overlap: "
            ++ format_1f avg_diff))) in
  match report with
  | Raise e => (Some e, out)
  | Ok line =>
  let out := (out ++ [ PrintLine line ])%list in
  (* Pass demand_merge to dashboard for supply/demand chart *)
  match create_dashboard area_df pivot_df
          (if negb (df_empty demand_merge) then Some demand_merge else None) with
  | Raise e => (Some e, out)
  | Ok app =>
      (* Run the Dash server *)
      (None, (out ++ [ PrintLine starting_message; RunServer app false ])%list)
  end end end end end.

End Main.

(** ** Notions used in the statements *)

Definition nonneg_opt (o : option Q) : Prop :=
  match o with Some q => (0 <= q)%Q | None => True end.

Definition nonneg_cell (v : value) : Prop := exists q, v = VNum q /\ (0 <= q)%Q.

Definition good_col (n : nat) (c : column) : Prop :=
  List.length c = n /\ Forall nonneg_cell c.

Definition good_frame (df : DataFrame) : Prop :=
  Forall (fun kc => good_col (df_len df) (snd kc)) (df_columns df).

Definition zipQ (f : Q -> Q -> Q) (a b : list Q) : list Q :=
  map (fun xy => f (fst xy) (snd xy)) (combine a b).

(** The numerator of the carbon intensity of a row, category by category in
    the order of the loop. *)
Definition ci_row (gas bio nuc wind hyd imp oth : Q) : Q :=
  (0 + gas * (3294 # 10) + bio * (120 # 1) + oth * (675 # 1) + nuc * (0 # 1)
   + wind * (0 # 1) + hyd * (0 # 1) + imp * (3294 # 10))%Q.

(** The generation of a half-hour window: the sums of [groupby]. *)
Definition window_sums (gks : list Z) (gvs : list (option Q)) : column :=
  map (fun t => VNum (group_sum t gks gvs)) (unique_times gks).

Definition times (tz : tzinfo) (l : list Z) : column :=
  map (fun t => VTime t tz) l.

Definition fuel_columns_written : list string :=
  [ "StartTime"; "LocalTime"; "Generation_clipped"; "Category"; "LocalHalfHour" ].

Definition tsdf_columns_written : list string :=
  [ "StartTime"; "LocalTime"; "LocalHalfHour" ].

(** The instants at which the tz database gives Europe/London the rule of
    [london_utcoffset]: from 1996-01-01T00:00:00Z, the year the end of
    summer time moved to the last Sunday of October, up to
    2038-01-19T03:14:08Z, the end of 32-bit time stamps, before which
    every compiled form of the database lists the transitions one by one. *)
Definition rule_in_force (x : Z) : Prop := 820454400 <= x < 2147483648.

(** A demand table without its demand column. *)
Definition no_demand_tsdf : DataFrame :=
  frame_of_columns 1
    [ ("StartTime", [ VStr "2024-01-01T10:00:00Z" ]);
      ("PublishTime", [ VStr "2024-01-01T09:00:00Z" ]) ].

Definition one_forecast : record :=
  [ ("dataset", VStr "TSDF"); ("demand", VNum 140);
    ("publishTime", VStr "2024-01-01T09:00:00Z");
    ("startTime", VStr "2024-01-01T10:00:00Z"); ("settlementDate", VStr "2024-01-01");
    ("settlementPeriod", VNum 21); ("boundary", VStr "N") ].

(** The server answers 200 with one reading and with one forecast. *)
Definition serving_env : environment :=
  mkEnv (fun url =>
           if String.eqb url tsdf_url
           then Response 200 (Some (JObject (Some [one_forecast])))
           else Response 200 (Some (JObject (Some [one_reading]))))
        (fun _ => None).

(** The name a field has after [df.rename(columns=mapping)]. *)
Definition standard_name (mapping : list (string * string)) (k : string) : string :=
  match assoc k mapping with Some k' => k' | None => k end.

(** The value of a field in a record; NA when the record lacks it. *)
Definition record_field (k : string) (r : record) : value :=
  match assoc k r with Some x => x | None => VNA end.

(** A frame holds a list of records under a renaming: one row per record in
    the records' order, one cell per column and row, the columns being the
    renamed field names; and, when no two field names are renamed to the
    same column, the cell of a field in a row is the record's value. *)
Definition holds_records (mapping : list (string * string)) (rows : list record)
  (df : DataFrame) : Prop :=
  df_len df = List.length rows /\
  wf_frame df /\
  (forall c, has_column df c = true <->
             exists r k, In r rows /\ In k (map fst r) /\ standard_name mapping k = c) /\
  (NoDup (map (standard_name mapping) (record_keys [] rows)) ->
   forall i r k, nth_error rows i = Some r -> In k (record_keys [] rows) ->
                 cell df (standard_name mapping k) i = record_field k r).



(** A number or NA. *)
Definition numeric (v : value) : Prop := v = VNA \/ exists q, v = VNum q.




(** The first day of a year of the calendar that starts in March. *)
Definition march_year_base (y' : Z) : Z :=
  let era := y' / 400 in
  let yoe := y' - era * 400 in
  era * 146097 + yoe * 365 + yoe / 4 - yoe / 100.

(** The day of the March-based year. *)
Definition march_day (m d : Z) : Z :=
  (153 * (if m <=? 2 then m + 9 else m - 3) + 2) / 5 + d - 1.

Definition valid_date (y m d : Z) : Prop :=
  1 <= m <= 12 /\ 1 <= d <= days_in_month y m.

(** The fields of a timestamp and its instant. *)
Definition instant_of (y m d h mi sec : Z) : Z :=
  days_from_civil y m d * 86400 + h * 3600 + mi * 60 + sec.

Definition valid_clock (h mi sec : Z) : Prop :=
  0 <= h < 24 /\ 0 <= mi < 60 /\ 0 <= sec < 60.

Definition fields_lt (y1 m1 d1 h1 mi1 sec1 y2 m2 d2 h2 mi2 sec2 : Z) : Prop :=
  y1 < y2 \/ (y1 = y2 /\ (m1 < m2 \/ (m1 = m2 /\ (d1 < d2 \/ (d1 = d2 /\
  (h1 < h2 \/ (h1 = h2 /\ (mi1 < mi2 \/ (mi1 = mi2 /\ sec1 < sec2))))))))).

Definition codes (s : string) : list Z :=
  map (fun c => Z.of_N (N_of_ascii c)) (list_ascii_of_string s).

(** The instant a publish time denotes. *)
Definition publish_instant (v : value) : Z :=
  match parse_iso8601 (str v) with Some x => x | None => 0 end.

(** A pumped-storage unit charging (-300 MW) as the only reading at 10:05,
    and 100 MW of gas at 10:35: after clipping, the interval at 10:05 has
    no generation at all. *)
Definition charging_fuel : DataFrame :=
  frame_of_columns 2
    [ ("StartTime", [ VStr "2024-01-01T10:05:00Z"; VStr "2024-01-01T10:35:00Z" ]);
      ("FuelType", [ VStr "PS"; VStr "CCGT" ]);
      ("Generation", [ VNum (-300); VNum 100 ]) ].

Definition charging_pivot : DataFrame :=
  Eval vm_compute in
    fst (fst (outputs_of (process_data stable_argsort
                            (mkFrames charging_fuel scenario_tsdf)))).

Definition charging_area : DataFrame :=
  Eval vm_compute in
    snd (fst (outputs_of (process_data stable_argsort
                            (mkFrames charging_fuel scenario_tsdf)))).

Definition charging_merge : DataFrame :=
  Eval vm_compute in
    snd (outputs_of (process_data stable_argsort
                       (mkFrames charging_fuel scenario_tsdf))).

Definition charging_frames : frames :=
  Eval vm_compute in
    snd (process_data stable_argsort (mkFrames charging_fuel scenario_tsdf)).

(** The instant an ISO 8601 timestamp denotes: the reading
    [YYYY-MM-DDTHH:MM:SS] taken in the zone its suffix names, [Z] for UTC or
    an offset [+HH:MM] or [-HH:MM] from UTC.  This is the publish time the
    specification speaks of; [process_data] never computes it. *)
Definition iso8601_instant (s : string) : option Z :=
  match parse_iso8601 (substring 0 19 s ++ "Z") with
  | Some wall =>
      match list_ascii_of_string (substring 19 (String.length s - 19) s) with
      | [z] => if is_char z "Z" then Some wall else None
      | [sign; h1; h2; c; m1; m2] =>
          match digits 0 [h1; h2], digits 0 [m1; m2] with
          | Some h, Some m =>
              if is_char c ":" && (h <? 24) && (m <? 60)
              then if is_char sign "+" then Some (wall - (h * 3600 + m * 60))
                   else if is_char sign "-" then Some (wall + (h * 3600 + m * 60))
                   else None
              else None
          | _, _ => None
          end
      | _ => None
      end
  | None => None
  end.

(** * Properties *)

(** ** Association lists *)

Lemma assoc_In {A} (k : string) (l : list (string * A)) (v : A) :
  assoc k l = Some v -> In (k, v) l.
Proof.
  induction l as [|[k' v'] l IH]; simpl; [discriminate|].
  destruct (String.eqb_spec k k') as [->|Hne].
  - intros [= ->]. now left.
  - intros H. right. now apply IH.
Qed.

Lemma assoc_not_In {A} (k : string) (l : list (string * A)) :
  ~ In k (map fst l) -> assoc k l = None.
Proof.
  induction l as [|[k' v'] l IH]; simpl; [reflexivity|].
  intros H. destruct (String.eqb_spec k k') as [->|Hne].
  - exfalso. apply H. now left.
  - apply IH. intros Hin. apply H. now right.
Qed.

Lemma str_mem_In (s : string) (l : list string) :
  str_mem s l = true <-> In s l.
Proof.
  unfold str_mem. rewrite existsb_exists. split.
  - intros (x & Hin & Heq). apply String.eqb_eq in Heq. now subst.
  - intros Hin. exists s. split; [assumption|apply String.eqb_refl].
Qed.

(** ** Categorisation *)

(** C2. Categorisation is a total function on strings: a code of the
    category map gets the category the map gives it, a code of the
    interconnector set gets Imports, every other string gets
    Coal/Oil/Other, and the result is always one of the seven categories. *)
Theorem categorise_total :
  (forall code cat, In (code, cat) category_map ->
                    _categorise_fuel_types code = cat) /\
  (forall code, In code interconnectors ->
                _categorise_fuel_types code = "Imports") /\
  (forall code, ~ In code (map fst category_map) ->
                ~ In code interconnectors ->
                _categorise_fuel_types code = "Coal/Oil/Other") /\
  (forall code, In (_categorise_fuel_types code) categories).
Proof.
  repeat split.
  - intros code cat Hin. simpl in Hin.
    repeat (destruct Hin as [[= <- <-]|Hin]; [reflexivity|]).
    contradiction.
  - intros code Hin. simpl in Hin.
    repeat (destruct Hin as [<-|Hin]; [reflexivity|]).
    contradiction.
  - intros code Hmap Hic. unfold _categorise_fuel_types.
    rewrite (assoc_not_In _ _ Hmap).
    destruct (str_mem code interconnectors) eqn:E; [|reflexivity].
    apply str_mem_In in E. contradiction.
  - intros code. unfold _categorise_fuel_types.
    destruct (assoc code category_map) as [cat|] eqn:E.
    + apply assoc_In in E. simpl in E.
      repeat (destruct E as [[= <- <-]|E]; [simpl; tauto|]).
      contradiction.
    + destruct (str_mem code interconnectors); simpl; tauto.
Qed.

Lemma categorise_total_witness :
  _categorise_fuel_types "PS" = "Hydro" /\
  _categorise_fuel_types "INTNED" = "Imports" /\
  _categorise_fuel_types "SOLAR" = "Coal/Oil/Other" /\
  In (_categorise_fuel_types "SOLAR") categories.
Proof.
  destruct categorise_total as (Hmap & Hic & Helse & Hcat).
  split; [apply Hmap; simpl; tauto|].
  split; [apply Hic; simpl; tauto|].
  split; [|apply Hcat].
  apply Helse; simpl; intros H;
    repeat (destruct H as [H|H]; [discriminate H|]); exact H.
Defined.

(** ** Results and frames *)

Lemma Ok_inj {A} (a b : A) : Ok a = Ok b -> a = b.
Proof. now intros [= ->]. Qed.

Lemma mapM_length {A B} (f : A -> result B) (l : list A) (l' : list B) :
  mapM f l = Ok l' -> List.length l' = List.length l.
Proof.
  revert l'. induction l as [|a l IH]; simpl; intros l' H.
  - now inversion H.
  - destruct (f a); [|discriminate]. simpl in H.
    destruct (mapM f l); [|discriminate]. simpl in H.
    inversion H. simpl. now rewrite (IH _ eq_refl).
Qed.

Lemma mapM_Forall2 {A B} (f : A -> result B) (l : list A) (l' : list B) :
  mapM f l = Ok l' -> Forall2 (fun a b => f a = Ok b) l l'.
Proof.
  revert l'. induction l as [|a l IH]; simpl; intros l' H.
  - inversion H. constructor.
  - destruct (f a) eqn:E; [|discriminate]. simpl in H.
    destruct (mapM f l); [|discriminate]. simpl in H.
    inversion H. constructor; auto.
Qed.

Lemma RangeIndex_length n : List.length (RangeIndex n) = n.
Proof. unfold RangeIndex. now rewrite length_map, length_seq. Qed.

Lemma assoc_assoc_set {A} (n m : string) (c : A) (l : list (string * A)) :
  assoc m (assoc_set n c l) = if String.eqb m n then Some c else assoc m l.
Proof.
  induction l as [|[k v] l IH]; simpl.
  - destruct (String.eqb_spec m n); reflexivity.
  - destruct (String.eqb_spec n k) as [->|Hnk]; simpl.
    + destruct (String.eqb_spec m k); reflexivity.
    + destruct (String.eqb_spec m k) as [->|Hmk].
      * destruct (String.eqb_spec k n); [congruence|reflexivity].
      * exact IH.
Qed.

Lemma getitem_setitem (df : DataFrame) (n m : string) (c : column) :
  getitem (setitem df n c) m = if String.eqb m n then Ok c else getitem df m.
Proof.
  unfold getitem, setitem. simpl. rewrite assoc_assoc_set.
  destruct (String.eqb m n); reflexivity.
Qed.

(** A successful run of the pipeline, read step by step. *)
Ltac run_step H :=
  match type of H with
  | (match ?X with Ok _ => _ | Raise _ => _ end) = (Ok _, _) =>
      let E := fresh "E" in
      destruct X eqn:E; [ | discriminate H ]; cbv beta iota zeta in H
  end.

Ltac run_steps H :=
  cbv beta iota zeta delta
    [process_data bind lift fuel_get fuel_set tsdf_get tsdf_set
     get_fuel get_tsdf ret fuel_df tsdf_df] in H;
  repeat run_step H.

Ltac simpl_getitem :=
  repeat match goal with
    | H : context [getitem (setitem _ _ _) _] |- _ =>
        rewrite getitem_setitem in H; cbn [String.eqb Ascii.eqb Bool.eqb] in H
    end.

Lemma clip_lower0_nonneg (g gc : column) (vs : list (option Q)) :
  clip_lower0 g = Ok gc -> as_nums gc = Ok vs -> Forall nonneg_opt vs.
Proof.
  intros Hg Hv. apply mapM_Forall2 in Hg. apply mapM_Forall2 in Hv.
  revert vs Hv. induction Hg as [|a b g gc Hab Hg IH]; intros vs Hv.
  - inversion Hv. constructor.
  - inversion Hv as [|? o ? vs' Hbo Hv']; subst. constructor; [|now apply IH].
    destruct a; try discriminate; simpl in Hab; inversion Hab; subst;
      simpl in Hbo; inversion Hbo; simpl; [|exact I].
    destruct (Qle_bool 0 q) eqn:E.
    + now apply Qle_bool_iff.
    + apply Qle_refl.
Qed.

Lemma process_data_pivot argsort f t pivot area merge s' :
  process_data argsort (mkFrames f t) = (Ok (pivot, area, merge), s') ->
  exists ts cs vs tz sel total num ci sel',
    Forall nonneg_opt vs /\
    select (ensure_columns (df_fillna0 (pivot_frame "LocalTime" tz (zip3 ts cs vs))))
           categories = Ok sel /\
    sum_axis1 sel = Ok total /\
    ci_numerator
      (setitem (ensure_columns (df_fillna0 (pivot_frame "LocalTime" tz (zip3 ts cs vs))))
               "TotalGeneration" total) = Ok num /\
    series_div num (replace0_NA total) = Ok ci /\
    pivot = setitem
              (setitem (ensure_columns
                          (df_fillna0 (pivot_frame "LocalTime" tz (zip3 ts cs vs))))
                       "TotalGeneration" total)
              "CarbonIntensity" ci /\
    select pivot categories = Ok sel' /\
    melt (reset_index sel') "LocalTime" "Category" "Generation" = Ok area.
Proof.
  intros H. run_steps H. simpl_getitem.
  unfold pivot_table_sum in E6. rewrite !getitem_setitem in E6.
  cbn [String.eqb Ascii.eqb Bool.eqb rbind] in E6.
  destruct (as_times a2) as [ts|] eqn:Ets; [|discriminate]. cbn [rbind] in E6.
  destruct (as_strs (apply_categorise a5)) as [cs|] eqn:Ecs; [|discriminate].
  cbn [rbind] in E6.
  destruct (as_nums a4) as [vs|] eqn:Evs; [|discriminate]. cbn [rbind] in E6.
  inversion E6; subst a6. inversion E10; subst a10.
  inversion H; subst.
  exists ts, cs, vs, (column_tz a2), a7, a8, a9, a11, a12.
  repeat split; try assumption.
  eapply clip_lower0_nonneg; eassumption.
Qed.

(** ** Pointwise reading of the column operations *)

Lemma mapM_nth {A B} (f : A -> result B) (l : list A) (l' : list B) (da : A) (db : B) :
  mapM f l = Ok l' ->
  forall i, (i < List.length l)%nat -> f (nth i l da) = Ok (nth i l' db).
Proof.
  intros H. apply mapM_Forall2 in H.
  induction H as [|a b l l' Hab _ IH]; intros i Hi; simpl in Hi; [lia|].
  destruct i; simpl; [assumption|]. apply IH. lia.
Qed.

Lemma map2M_length {A B C} (f : A -> B -> result C) l1 l2 l :
  map2M f l1 l2 = Ok l ->
  List.length l = Nat.min (List.length l1) (List.length l2).
Proof.
  revert l2 l. induction l1 as [|a l1 IH]; intros [|b l2] l H; simpl in H;
    try (inversion H; reflexivity).
  destruct (f a b); [|discriminate]. simpl in H.
  destruct (map2M f l1 l2) eqn:E; [|discriminate]. simpl in H.
  inversion H. simpl. now rewrite (IH _ _ E).
Qed.

Lemma map2M_nth {A B C} (f : A -> B -> result C) l1 l2 l da db dc :
  map2M f l1 l2 = Ok l ->
  forall i, (i < List.length l)%nat ->
            f (nth i l1 da) (nth i l2 db) = Ok (nth i l dc).
Proof.
  revert l2 l. induction l1 as [|a l1 IH]; intros [|b l2] l H i Hi; simpl in H;
    try (inversion H; subst; simpl in Hi; lia).
  destruct (f a b) eqn:Eab; [|discriminate]. simpl in H.
  destruct (map2M f l1 l2) eqn:E; [|discriminate]. simpl in H.
  inversion H; subst. destruct i; simpl; [assumption|].
  apply (IH _ _ E). simpl in Hi. lia.
Qed.

(** ** The wide table *)

Lemma sum_skipna_nonneg (l : list (option Q)) :
  Forall nonneg_opt l -> (0 <= sum_skipna l)%Q.
Proof.
  induction 1 as [|o l Ho _ IH]; simpl; [apply Qle_refl|].
  destruct o as [q|]; [|assumption].
  simpl in Ho. rewrite <- (Qplus_0_l 0). now apply Qplus_le_compat.
Qed.

Lemma zip3_values_nonneg ts cs vs :
  Forall nonneg_opt vs -> Forall nonneg_opt (map snd (zip3 ts cs vs)).
Proof.
  intros H. revert ts cs.
  induction H as [|v vs Hv _ IH]; intros [|t ts] [|c cs]; simpl; try constructor;
    auto.
Qed.

Lemma pivot_cell_nonneg rows t c :
  Forall nonneg_opt (map snd rows) ->
  nonneg_cell (fillna0_cell (pivot_cell rows t c)).
Proof.
  intros H. unfold fillna0_cell, pivot_cell.
  assert (Hf : Forall nonneg_opt (map snd (filter (obs_in t c) rows))).
  { rewrite Forall_forall in *. intros o Ho. apply H.
    rewrite in_map_iff in *. destruct Ho as (x & <- & Hx).
    apply filter_In in Hx. exists x. tauto. }
  destruct (filter (obs_in t c) rows) as [|o g].
  - exists 0%Q. split; [reflexivity|apply Qle_refl].
  - eexists. split; [reflexivity|]. now apply sum_skipna_nonneg.
Qed.

Lemma pivot_frame_good name tz rows :
  Forall nonneg_opt (map snd rows) ->
  good_frame (df_fillna0 (pivot_frame name tz rows)).
Proof.
  intros H. unfold good_frame, df_fillna0, pivot_frame, df_len. simpl.
  rewrite Forall_forall. intros [k c] Hin.
  rewrite map_map in Hin. apply in_map_iff in Hin.
  destruct Hin as (cl & [= <- <-] & _). simpl. split.
  - unfold fillna0. now rewrite !length_map.
  - unfold fillna0. rewrite Forall_forall. intros v Hv.
    rewrite map_map in Hv. apply in_map_iff in Hv. destruct Hv as (t & <- & _).
    now apply pivot_cell_nonneg.
Qed.

Lemma has_column_setitem df n c m :
  has_column (setitem df n c) m = String.eqb m n || has_column df m.
Proof.
  unfold has_column, setitem. simpl. rewrite assoc_assoc_set.
  destruct (String.eqb m n); reflexivity.
Qed.

Lemma good_frame_getitem df name c :
  good_frame df -> getitem df name = Ok c -> good_col (df_len df) c.
Proof.
  unfold good_frame, getitem. intros Hg H.
  destruct (assoc name (df_columns df)) as [c'|] eqn:E; [|discriminate].
  inversion H; subst. apply assoc_In in E.
  rewrite Forall_forall in Hg. exact (Hg _ E).
Qed.

Lemma assoc_set_In {A} k (v : A) l kc :
  In kc (assoc_set k v l) -> kc = (k, v) \/ In kc l.
Proof.
  induction l as [|[k' v'] l IH]; simpl.
  - intros [<-|[]]. now left.
  - destruct (String.eqb k k').
    + intros [<-|H]; [now left|right; now right].
    + intros [<-|H]; [right; now left|].
      destruct (IH H); [now left|right; now right].
Qed.

Lemma good_frame_setitem df name c :
  good_frame df -> good_col (df_len df) c -> good_frame (setitem df name c).
Proof.
  unfold good_frame, setitem, df_len. simpl. intros Hg Hc.
  rewrite Forall_forall in *. intros kc Hin.
  apply assoc_set_In in Hin. destruct Hin as [->|Hin]; [exact Hc|now apply Hg].
Qed.

Lemma ensure_columns_fold (l : list string) (df : DataFrame) :
  let r := fold_left
             (fun p col => if has_column p col then p
                           else setitem_scalar p col (VNum 0%Q)) l df in
  df_index r = df_index df /\
  df_index_name r = df_index_name df /\
  (good_frame df -> good_frame r) /\
  (forall c, has_column df c = true -> has_column r c = true) /\
  (forall c, In c l -> has_column r c = true).
Proof.
  revert df. induction l as [|a l IH]; intros df; simpl.
  - repeat split; auto.
  - set (df' := if has_column df a then df else setitem_scalar df a (VNum 0%Q)).
    destruct (IH df') as (Hi & Hn & Hg & Hk & Hl).
    assert (Hi' : df_index df' = df_index df)
      by (unfold df'; destruct (has_column df a); reflexivity).
    assert (Hn' : df_index_name df' = df_index_name df)
      by (unfold df'; destruct (has_column df a); reflexivity).
    assert (Ha : has_column df' a = true).
    { unfold df'. destruct (has_column df a) eqn:E; [assumption|].
      unfold setitem_scalar. rewrite has_column_setitem, String.eqb_refl.
      reflexivity. }
    assert (Hk' : forall c, has_column df c = true -> has_column df' c = true).
    { intros c Hc. unfold df'. destruct (has_column df a); [assumption|].
      unfold setitem_scalar. rewrite has_column_setitem, Hc. apply orb_true_r. }
    repeat split.
    + congruence.
    + congruence.
    + intros G. apply Hg. unfold df'. destruct (has_column df a); [assumption|].
      apply good_frame_setitem; [assumption|]. split.
      * apply repeat_length.
      * rewrite Forall_forall. intros v Hv. apply repeat_spec in Hv. subst.
        exists 0%Q. split; [reflexivity|apply Qle_refl].
    + intros c Hc. auto.
    + intros c [<-|Hc]; auto.
Qed.

Lemma ensure_columns_good name tz rows :
  Forall nonneg_opt (map snd rows) ->
  let p1 := ensure_columns (df_fillna0 (pivot_frame name tz rows)) in
  good_frame p1 /\
  forall c, In c categories ->
            exists col, getitem p1 c = Ok col /\ good_col (df_len p1) col.
Proof.
  intros H p1.
  destruct (ensure_columns_fold categories (df_fillna0 (pivot_frame name tz rows)))
    as (_ & _ & Hg & _ & Hl).
  fold (ensure_columns (df_fillna0 (pivot_frame name tz rows))) in Hg, Hl.
  fold p1 in Hg, Hl.
  assert (G : good_frame p1) by (apply Hg; now apply pivot_frame_good).
  split; [exact G|]. intros c Hc. specialize (Hl c Hc).
  unfold has_column in Hl. destruct (assoc c (df_columns p1)) as [col|] eqn:E;
    [|discriminate].
  exists col. assert (Hget : getitem p1 c = Ok col) by (unfold getitem; now rewrite E).
  split; [exact Hget|]. eapply good_frame_getitem; eassumption.
Qed.

(** A column of non-negative numbers is the image of a list of rationals. *)
Lemma good_col_nums n c :
  good_col n c ->
  exists qs, c = map VNum qs /\ List.length qs = n /\ Forall (fun q => (0 <= q)%Q) qs.
Proof.
  intros [Hlen Hall]. subst n. induction Hall as [|v c (q & -> & Hq) _ IH].
  - exists []. repeat split; constructor.
  - destruct IH as (qs & -> & Hl & Hqs). exists (q :: qs). simpl.
    rewrite length_map in *. repeat split; auto.
Qed.

Lemma as_nums_nums qs : as_nums (map VNum qs) = Ok (map Some qs).
Proof.
  unfold as_nums. induction qs as [|q qs IH]; simpl; [reflexivity|].
  now rewrite IH.
Qed.

Lemma series_scale_nums qs ef :
  series_scale (map VNum qs) ef = Ok (map VNum (map (fun q => (q * ef)%Q) qs)).
Proof.
  unfold series_scale. induction qs as [|q qs IH]; simpl; [reflexivity|].
  now rewrite IH.
Qed.

Lemma series_add_nums a b :
  series_add (map VNum a) (map VNum b) = Ok (map VNum (zipQ Qplus a b)).
Proof.
  unfold series_add, zipQ. revert b.
  induction a as [|x a IH]; intros [|y b]; simpl; try reflexivity.
  now rewrite IH.
Qed.

Lemma repeat_nums q n : repeat (VNum q) n = map VNum (repeat q n).
Proof. induction n; simpl; congruence. Qed.

Lemma zipQ_length f a b :
  List.length (zipQ f a b) = Nat.min (List.length a) (List.length b).
Proof. unfold zipQ. now rewrite length_map, length_combine. Qed.

Lemma zipQ_nth f a b i :
  (i < List.length a)%nat -> (i < List.length b)%nat ->
  nth i (zipQ f a b) 0%Q = f (nth i a 0%Q) (nth i b 0%Q).
Proof.
  revert b i. induction a as [|x a IH]; intros [|y b] [|i] Ha Hb; simpl in *;
    try lia; [reflexivity|].
  apply IH; lia.
Qed.

Lemma nth_map_VNum qs i :
  (i < List.length qs)%nat -> nth i (map VNum qs) VNA = VNum (nth i qs 0%Q).
Proof.
  intros Hi. rewrite (nth_indep _ VNA (VNum 0%Q)) by now rewrite length_map.
  apply (map_nth VNum).
Qed.

Lemma nth_scaled (qs : list Q) (ef : Q) i :
  (i < List.length qs)%nat ->
  nth i (map (fun q => (q * ef)%Q) qs) 0%Q = (nth i qs 0 * ef)%Q.
Proof.
  intros Hi.
  rewrite (nth_indep _ 0%Q ((fun q => (q * ef)%Q) 0%Q)) by now rewrite length_map.
  apply (map_nth (fun q => (q * ef)%Q)).
Qed.

Lemma nth_map_Some (qs : list Q) i :
  (i < List.length qs)%nat -> nth i (map Some qs) None = Some (nth i qs 0%Q).
Proof.
  intros Hi. rewrite (nth_indep _ None (Some 0%Q)) by now rewrite length_map.
  apply (map_nth Some).
Qed.

Lemma nth_map_seq {A} (f : nat -> A) n i d :
  (i < n)%nat -> nth i (map f (seq 0 n)) d = f i.
Proof.
  intros Hi. rewrite (nth_indep _ d (f 0%nat)) by now rewrite length_map, length_seq.
  rewrite (map_nth f). now rewrite seq_nth.
Qed.

Lemma nth_nonneg qs i :
  Forall (fun q => (0 <= q)%Q) qs -> (0 <= nth i qs 0%Q)%Q.
Proof.
  intros H. destruct (Nat.lt_ge_cases i (List.length qs)) as [Hi|Hi].
  - rewrite Forall_forall in H. apply H. now apply nth_In.
  - rewrite nth_overflow by assumption. apply Qle_refl.
Qed.

Lemma nth_replace0_NA c i :
  nth i (replace0_NA c) VNA = replace0_NA_cell (nth i c VNA).
Proof. exact (map_nth replace0_NA_cell c VNA i). Qed.

Lemma df_len_setitem df n c : df_len (setitem df n c) = df_len df.
Proof. reflexivity. Qed.

Lemma cell_setitem df n c m i :
  cell (setitem df n c) m i = if String.eqb m n then nth i c VNA else cell df m i.
Proof.
  unfold cell. rewrite getitem_setitem. now destruct (String.eqb m n).
Qed.

(** Every row of the wide table of a successful run. *)
Lemma process_data_wide argsort f t pivot area merge s' :
  process_data argsort (mkFrames f t) = (Ok (pivot, area, merge), s') ->
  forall i, (i < df_len pivot)%nat ->
  exists gas bio nuc wind hyd imp oth tot,
    cell pivot "Gas" i = VNum gas /\
    cell pivot "Biomass" i = VNum bio /\
    cell pivot "Nuclear" i = VNum nuc /\
    cell pivot "Wind" i = VNum wind /\
    cell pivot "Hydro" i = VNum hyd /\
    cell pivot "Imports" i = VNum imp /\
    cell pivot "Coal/Oil/Other" i = VNum oth /\
    (0 <= gas /\ 0 <= bio /\ 0 <= nuc /\ 0 <= wind /\ 0 <= hyd /\ 0 <= imp
     /\ 0 <= oth)%Q /\
    cell pivot "TotalGeneration" i = VNum tot /\
    tot = (gas + (bio + (nuc + (wind + (hyd + (imp + (oth + 0)))))))%Q /\
    cell pivot "CarbonIntensity" i =
      (if Qeq_bool tot 0 then VNA
       else VNum (ci_row gas bio nuc wind hyd imp oth / tot)%Q).
Proof.
  intros H i Hi.
  destruct (process_data_pivot _ _ _ _ _ _ _ H)
    as (ts & cs & vs & tz & sel & total & nm & ci & sel' & Hvs & Hsel & Htot
        & Hnum & Hci & -> & _ & _).
  pose proof (zip3_values_nonneg ts cs vs Hvs) as Hrows.
  destruct (ensure_columns_good "LocalTime" tz _ Hrows) as (_ & Hcols).
  set (p1 := ensure_columns
               (df_fillna0 (pivot_frame "LocalTime" tz (zip3 ts cs vs)))) in *.
  clearbody p1. clear Hrows Hvs H.
  rewrite !df_len_setitem in Hi.
  destruct (Hcols "Gas") as (cG & HG & GG); [simpl; tauto|].
  destruct (Hcols "Biomass") as (cB & HB & GB); [simpl; tauto|].
  destruct (Hcols "Nuclear") as (cN & HN & GN); [simpl; tauto|].
  destruct (Hcols "Wind") as (cW & HW & GW); [simpl; tauto|].
  destruct (Hcols "Hydro") as (cH & HH & GH); [simpl; tauto|].
  destruct (Hcols "Imports") as (cI & HI & GI); [simpl; tauto|].
  destruct (Hcols "Coal/Oil/Other") as (cO & HO & GO); [simpl; tauto|].
  clear Hcols.
  destruct (good_col_nums _ _ GG) as (qG & -> & LG & PG).
  destruct (good_col_nums _ _ GB) as (qB & -> & LB & PB).
  destruct (good_col_nums _ _ GN) as (qN & -> & LN & PN).
  destruct (good_col_nums _ _ GW) as (qW & -> & LW & PW).
  destruct (good_col_nums _ _ GH) as (qH & -> & LH & PH).
  destruct (good_col_nums _ _ GI) as (qI & -> & LI & PI).
  destruct (good_col_nums _ _ GO) as (qO & -> & LO & PO).
  clear GG GB GN GW GH GI GO.
  (* the total *)
  unfold select, categories in Hsel. cbn [mapM] in Hsel.
  rewrite HG, HB, HN, HW, HH, HI, HO in Hsel. cbn [rbind] in Hsel.
  apply Ok_inj in Hsel; subst sel.
  unfold sum_axis1 in Htot. cbn [df_columns mapM snd] in Htot.
  rewrite !as_nums_nums in Htot. cbn [rbind] in Htot.
  apply Ok_inj in Htot; subst total.
  (* the numerator *)
  unfold ci_numerator, emission_factors in Hnum. cbn [fold_left] in Hnum.
  rewrite !getitem_setitem in Hnum.
  cbn [String.eqb Ascii.eqb Bool.eqb] in Hnum.
  rewrite HG, HB, HN, HW, HH, HI, HO in Hnum. rewrite df_len_setitem in Hnum.
  rewrite repeat_nums in Hnum. cbn [rbind] in Hnum.
  repeat (rewrite series_scale_nums in Hnum; cbn [rbind] in Hnum;
          rewrite series_add_nums in Hnum; cbn [rbind] in Hnum).
  apply Ok_inj in Hnum; subst nm.
  (* the quotient *)
  assert (Lci : List.length ci = df_len p1).
  { rewrite (map2M_length _ _ _ _ Hci). unfold replace0_NA.
    rewrite !length_map, length_seq.
    rewrite !zipQ_length, !length_map, repeat_length.
    unfold df_len in *. cbn [df_index] in *. lia. }
  pose proof (map2M_nth _ _ _ _ VNA VNA VNA Hci i ltac:(lia)) as Hdiv.
  clear Hci.
  exists (nth i qG 0%Q), (nth i qB 0%Q), (nth i qN 0%Q), (nth i qW 0%Q),
         (nth i qH 0%Q), (nth i qI 0%Q), (nth i qO 0%Q).
  eexists.
  rewrite !cell_setitem. cbn [String.eqb Ascii.eqb Bool.eqb].
  unfold cell. rewrite HG, HB, HN, HW, HH, HI, HO.
  rewrite !nth_map_VNum by lia.
  repeat (split; [reflexivity|]).
  split; [repeat split; now apply nth_nonneg|].
  unfold df_len at 1. cbn [df_index].
  rewrite nth_map_seq by exact Hi.
  split; [reflexivity|]. cbn [map sum_skipna].
  rewrite !nth_map_Some by lia. cbn [sum_skipna].
  split; [reflexivity|].
  (* the cell of the quotient *)
  rewrite nth_replace0_NA, nth_map_seq in Hdiv by exact Hi.
  cbn [map] in Hdiv. rewrite !nth_map_Some in Hdiv by lia.
  cbn [sum_skipna replace0_NA_cell] in Hdiv.
  rewrite nth_map_VNum in Hdiv
    by (rewrite !zipQ_length, !length_map, repeat_length; lia).
  repeat (rewrite zipQ_nth in Hdiv
            by (rewrite ?zipQ_length, ?length_map, ?repeat_length; lia)).
  rewrite nth_repeat in Hdiv.
  rewrite !nth_scaled in Hdiv by lia.
  destruct (Qeq_bool
              (nth i qG 0 + (nth i qB 0 + (nth i qN 0 + (nth i qW 0
                 + (nth i qH 0 + (nth i qI 0 + (nth i qO 0 + 0)))))))%Q 0) eqn:E.
  - cbn [value_div] in Hdiv. now apply Ok_inj in Hdiv.
  - cbn [value_div] in Hdiv. rewrite E in Hdiv. now apply Ok_inj in Hdiv.
Qed.

(** ** The long table *)

Lemma ensure_columns_index df :
  df_index (ensure_columns df) = df_index df /\
  df_index_name (ensure_columns df) = df_index_name df.
Proof.
  destruct (ensure_columns_fold categories df) as (Hi & Hn & _). now split.
Qed.

(** The long table of a successful run, column by column. *)
Lemma process_data_long argsort f t pivot area merge s' :
  process_data argsort (mkFrames f t) = (Ok (pivot, area, merge), s') ->
  exists tz (keys : list Z) qG qB qN qW qH qI qO,
    let idx := map (fun t => VTime t tz) (unique_times keys) in
    let n := List.length (unique_times keys) in
    df_index pivot = idx /\
    getitem pivot "Gas" = Ok (map VNum qG) /\
    getitem pivot "Biomass" = Ok (map VNum qB) /\
    getitem pivot "Nuclear" = Ok (map VNum qN) /\
    getitem pivot "Wind" = Ok (map VNum qW) /\
    getitem pivot "Hydro" = Ok (map VNum qH) /\
    getitem pivot "Imports" = Ok (map VNum qI) /\
    getitem pivot "Coal/Oil/Other" = Ok (map VNum qO) /\
    Forall (fun qs => List.length qs = n /\ Forall (fun q => (0 <= q)%Q) qs)
           [qG; qB; qN; qW; qH; qI; qO] /\
    area = mkDataFrame None (RangeIndex (7 * n))
             [ ("LocalTime", (idx ++ idx ++ idx ++ idx ++ idx ++ idx ++ idx ++ [])%list);
               ("Category",
                (repeat (VStr "Gas") n ++ repeat (VStr "Biomass") n
                 ++ repeat (VStr "Nuclear") n ++ repeat (VStr "Wind") n
                 ++ repeat (VStr "Hydro") n ++ repeat (VStr "Imports") n
                 ++ repeat (VStr "Coal/Oil/Other") n ++ [])%list);
               ("Generation",
                (map VNum qG ++ map VNum qB ++ map VNum qN ++ map VNum qW
                 ++ map VNum qH ++ map VNum qI ++ map VNum qO ++ [])%list) ].
Proof.
  intros H.
  destruct (process_data_pivot _ _ _ _ _ _ _ H)
    as (ts & cs & vs & tz & sel & total & nm & ci & sel' & Hvs & _ & _
        & _ & _ & -> & Hsel & Hmelt).
  pose proof (zip3_values_nonneg ts cs vs Hvs) as Hrows.
  destruct (ensure_columns_good "LocalTime" tz _ Hrows) as (_ & Hcols).
  destruct (ensure_columns_index
              (df_fillna0 (pivot_frame "LocalTime" tz (zip3 ts cs vs))))
    as (Hidx & Hname).
  cbn [df_fillna0 pivot_frame df_index df_index_name] in Hidx, Hname.
  set (p1 := ensure_columns
               (df_fillna0 (pivot_frame "LocalTime" tz (zip3 ts cs vs)))) in *.
  match type of Hidx with _ = map _ (unique_times ?k) => set (keys := k) in * end.
  clearbody p1 keys. clear Hrows Hvs H.
  assert (Hlen : df_len p1 = List.length (unique_times keys))
    by (unfold df_len; now rewrite Hidx, length_map).
  destruct (Hcols "Gas") as (cG & HG & GG); [simpl; tauto|].
  destruct (Hcols "Biomass") as (cB & HB & GB); [simpl; tauto|].
  destruct (Hcols "Nuclear") as (cN & HN & GN); [simpl; tauto|].
  destruct (Hcols "Wind") as (cW & HW & GW); [simpl; tauto|].
  destruct (Hcols "Hydro") as (cH & HH & GH); [simpl; tauto|].
  destruct (Hcols "Imports") as (cI & HI & GI); [simpl; tauto|].
  destruct (Hcols "Coal/Oil/Other") as (cO & HO & GO); [simpl; tauto|].
  clear Hcols.
  destruct (good_col_nums _ _ GG) as (qG & -> & LG & PG).
  destruct (good_col_nums _ _ GB) as (qB & -> & LB & PB).
  destruct (good_col_nums _ _ GN) as (qN & -> & LN & PN).
  destruct (good_col_nums _ _ GW) as (qW & -> & LW & PW).
  destruct (good_col_nums _ _ GH) as (qH & -> & LH & PH).
  destruct (good_col_nums _ _ GI) as (qI & -> & LI & PI).
  destruct (good_col_nums _ _ GO) as (qO & -> & LO & PO).
  clear GG GB GN GW GH GI GO.
  exists tz, keys, qG, qB, qN, qW, qH, qI, qO. cbv zeta.
  rewrite !getitem_setitem. cbn [String.eqb Ascii.eqb Bool.eqb].
  split; [exact Hidx|]. repeat (split; [assumption|]).
  split; [repeat constructor; congruence|].
  unfold select, categories in Hsel. cbn [mapM] in Hsel.
  rewrite !getitem_setitem in Hsel. cbn [String.eqb Ascii.eqb Bool.eqb] in Hsel.
  rewrite HG, HB, HN, HW, HH, HI, HO in Hsel. cbn [rbind] in Hsel.
  apply Ok_inj in Hsel. subst sel'.
  cbn [setitem df_index_name df_index] in Hmelt. rewrite Hname, Hidx in Hmelt.
  unfold melt, reset_index in Hmelt.
  cbn [df_index_name df_columns df_index getitem assoc String.eqb Ascii.eqb
       Bool.eqb rbind filter fst snd negb flat_map List.length df_len] in Hmelt.
  apply Ok_inj in Hmelt. subst area.
  rewrite !RangeIndex_length, length_map. reflexivity.
Qed.

(** ** Distinct sorted keys *)

Lemma insert_uniq_In (x y : Z) (l : list Z) :
  In y (insert_uniq Z.ltb Z.eqb x l) <-> y = x \/ In y l.
Proof.
  induction l as [|a l IH]; simpl.
  - intuition.
  - destruct (Z.ltb_spec x a).
    + simpl. intuition.
    + destruct (Z.eqb_spec x a).
      * subst. simpl. intuition.
      * simpl. rewrite IH. intuition.
Qed.

Lemma unique_times_In (y : Z) (l : list Z) : In y (unique_times l) <-> In y l.
Proof.
  unfold unique_times, sort_uniq. induction l as [|a l IH]; simpl.
  - tauto.
  - rewrite insert_uniq_In, IH. intuition.
Qed.

Lemma insert_uniq_sorted (x : Z) (l : list Z) :
  StronglySorted Z.lt l -> StronglySorted Z.lt (insert_uniq Z.ltb Z.eqb x l).
Proof.
  induction 1 as [|a l Hl IH Ha]; simpl.
  - repeat constructor.
  - destruct (Z.ltb_spec x a).
    + constructor; [now constructor|]. constructor; [assumption|].
      rewrite Forall_forall in *. intros y Hy. specialize (Ha y Hy). lia.
    + destruct (Z.eqb_spec x a).
      * now constructor.
      * constructor; [assumption|]. rewrite Forall_forall in *.
        intros y Hy. apply insert_uniq_In in Hy. destruct Hy as [->|Hy].
        -- lia.
        -- now apply Ha.
Qed.

Lemma unique_times_sorted (l : list Z) : StronglySorted Z.lt (unique_times l).
Proof.
  unfold unique_times, sort_uniq. induction l as [|a l IH]; simpl.
  - constructor.
  - now apply insert_uniq_sorted.
Qed.

Lemma sorted_NoDup (l : list Z) : StronglySorted Z.lt l -> NoDup l.
Proof.
  induction 1 as [|a l _ IH Ha]; constructor; [|assumption].
  intros Hin. rewrite Forall_forall in Ha. specialize (Ha a Hin). lia.
Qed.

Lemma sorted_same_elements (l1 l2 : list Z) :
  StronglySorted Z.lt l1 -> StronglySorted Z.lt l2 ->
  (forall x, In x l1 <-> In x l2) -> l1 = l2.
Proof.
  intros H1. revert l2.
  induction H1 as [|a l1 Hl1 IH Ha]; intros l2 H2 Heq.
  - destruct l2 as [|b l2]; [reflexivity|].
    exfalso. apply (Heq b). now left.
  - destruct H2 as [|b l2 Hl2 Hb].
    + exfalso. apply (Heq a). now left.
    + rewrite Forall_forall in Ha, Hb.
      assert (a = b).
      { destruct (proj1 (Heq a) (or_introl eq_refl)) as [->|Hab]; [reflexivity|].
        destruct (proj2 (Heq b) (or_introl eq_refl)) as [->|Hba]; [reflexivity|].
        specialize (Ha _ Hba). specialize (Hb _ Hab). lia. }
      subst b. f_equal. apply IH; [assumption|].
      intros x. split; intros Hx.
      * destruct (proj1 (Heq x) (or_intror Hx)) as [->|]; [|assumption].
        specialize (Ha _ Hx). lia.
      * destruct (proj2 (Heq x) (or_intror Hx)) as [->|]; [|assumption].
        specialize (Hb _ Hx). lia.
Qed.

Lemma unique_times_NoDup (l : list Z) : NoDup (unique_times l).
Proof. apply sorted_NoDup, unique_times_sorted. Qed.

Lemma as_times_times tz (l : list Z) :
  as_times (map (fun t => VTime t tz) l) = Ok l.
Proof.
  unfold as_times. induction l as [|a l IH]; simpl; [reflexivity|].
  now rewrite IH.
Qed.

(** ** Sums by key *)

Lemma group_sum_app k ks1 ks2 (qs1 qs2 : list Q) :
  List.length ks1 = List.length qs1 ->
  (group_sum k (ks1 ++ ks2) (map Some (qs1 ++ qs2))
   == group_sum k ks1 (map Some qs1) + group_sum k ks2 (map Some qs2))%Q.
Proof.
  revert qs1. induction ks1 as [|a ks1 IH]; intros [|q qs1] Hlen;
    simpl in Hlen; try discriminate.
  - simpl. destruct ks2; simpl; now rewrite Qplus_0_l.
  - simpl. destruct (a =? k).
    + rewrite IH by congruence. now rewrite Qplus_assoc.
    + apply IH. congruence.
Qed.

Lemma group_sum_absent k ks (vs : list (option Q)) :
  ~ In k ks -> group_sum k ks vs = 0%Q.
Proof.
  revert vs. induction ks as [|a ks IH]; intros vs Hk; [now destruct vs|].
  destruct vs as [|v vs]; [reflexivity|]. simpl.
  destruct (Z.eqb_spec a k) as [->|Hne].
  - exfalso. apply Hk. now left.
  - apply IH. intros Hin. apply Hk. now right.
Qed.

Lemma group_sum_nth (ks : list Z) (qs : list Q) i :
  NoDup ks -> List.length ks = List.length qs -> (i < List.length ks)%nat ->
  (group_sum (nth i ks 0%Z) ks (map Some qs) == nth i qs 0)%Q.
Proof.
  intros Hnd. revert qs i.
  induction Hnd as [|a ks Ha Hnd IH]; intros [|q qs] i Hlen Hi; simpl in *;
    try lia.
  destruct i as [|i].
  - rewrite Z.eqb_refl. rewrite group_sum_absent by assumption.
    apply Qplus_0_r.
  - destruct (Z.eqb_spec a (nth i ks 0)) as [Heq|Hne].
    + exfalso. apply Ha. rewrite Heq. apply nth_In. lia.
    + apply IH; lia.
Qed.

Lemma group_sum_nonneg k ks vs :
  Forall nonneg_opt vs -> (0 <= group_sum k ks vs)%Q.
Proof.
  intros H. revert ks. induction H as [|v vs Hv _ IH]; intros [|a ks]; simpl;
    try apply Qle_refl.
  destruct (a =? k); [|apply IH].
  rewrite <- (Qplus_0_l 0). apply Qplus_le_compat; [|apply IH].
  destruct v; [exact Hv|apply Qle_refl].
Qed.

(** ** The wide table: totals and carbon intensity *)

Lemma ci_row_weighted gas bio nuc wind hyd imp oth :
  (ci_row gas bio nuc wind hyd imp oth
   == gas * emission_factor "Gas" + (bio * emission_factor "Biomass"
      + (nuc * emission_factor "Nuclear" + (wind * emission_factor "Wind"
      + (hyd * emission_factor "Hydro" + (imp * emission_factor "Imports"
      + (oth * emission_factor "Coal/Oil/Other" + 0)))))))%Q.
Proof.
  unfold ci_row, emission_factor. cbn [assoc emission_factors String.eqb Ascii.eqb Bool.eqb].
  ring.
Qed.

(** ** The long table against the wide table *)

Lemma nth_concat_blocks {A} (bs : list (list A)) (n k i : nat) (d : A) :
  Forall (fun b => List.length b = n) bs -> (i < n)%nat ->
  nth (k * n + i) (List.concat bs) d = nth i (nth k bs []) d.
Proof.
  intros Hbs Hi. revert k.
  assert (Hnil : forall m, nth m (@nil A) d = d) by (intros [|?]; reflexivity).
  induction Hbs as [|b bs Hb _ IH]; intros k.
  - cbn [List.concat]. rewrite Hnil. destruct k, i; reflexivity.
  - destruct k as [|k]; simpl.
    + apply app_nth1. lia.
    + rewrite <- Hb at 1. rewrite <- Nat.add_assoc, app_nth2_plus. apply IH.
Qed.

Lemma nth_repeat_lt {A} (a d : A) (n i : nat) :
  (i < n)%nat -> nth i (repeat a n) d = a.
Proof.
  intros Hi. rewrite (nth_indep _ d a) by now rewrite repeat_length.
  apply nth_repeat.
Qed.

Lemma nth_map_default {A B} (f : A -> B) (l : list A) (i : nat) (da : A) (db : B) :
  (i < List.length l)%nat -> nth i (map f l) db = f (nth i l da).
Proof.
  intros Hi. rewrite (nth_indep _ db (f da)) by now rewrite length_map.
  apply map_nth.
Qed.

Lemma NoDup_times tz (l : list Z) :
  NoDup l -> NoDup (map (fun t => VTime t tz) l).
Proof.
  induction 1 as [|a l Ha _ IH]; simpl; constructor; [|assumption].
  intros Hin. apply in_map_iff in Hin. destruct Hin as (b & [= ->] & Hb).
  contradiction.
Qed.

Lemma column_tz_times tz (l : list Z) :
  l <> [] -> column_tz (map (fun t => VTime t tz) l) = tz.
Proof. destruct l; [congruence|reflexivity]. Qed.

(** C6. The long table has seven rows per row of the wide table, whose
    intervals are distinct: for the k-th category and the i-th interval,
    row k*n+i holds that interval, that category and the wide table's cell.
    Summing its Generation column by LocalTime gives back the intervals of
    the wide table, each with its TotalGeneration. *)
Theorem long_table_shape argsort f t pivot area merge s' :
  process_data argsort (mkFrames f t) = (Ok (pivot, area, merge), s') ->
  NoDup (df_index pivot) /\
  df_len area = (7 * df_len pivot)%nat /\
  (forall k i c,
      nth_error categories k = Some c -> (i < df_len pivot)%nat ->
      cell area "LocalTime" (k * df_len pivot + i) = nth i (df_index pivot) VNA /\
      cell area "Category" (k * df_len pivot + i) = VStr c /\
      cell area "Generation" (k * df_len pivot + i) = cell pivot c i) /\
  exists sums,
    groupby_sum area "LocalTime" "Generation" = Ok sums /\
    getitem sums "LocalTime" = Ok (df_index pivot) /\
    forall i, (i < df_len pivot)%nat ->
      exists s tot,
        cell sums "Generation" i = VNum s /\
        cell pivot "TotalGeneration" i = VNum tot /\
        (s == tot)%Q.
Proof.
  intros H.
  destruct (process_data_long _ _ _ _ _ _ _ H)
    as (tz & keys & qG & qB & qN & qW & qH & qI & qO & Hidx & HG & HB & HN
        & HW & HH & HI & HO & Hq & ->).
  cbv zeta in *.
  pose proof (unique_times_NoDup keys) as Hnd.
  pose proof (unique_times_sorted keys) as Hsorted.
  assert (Hn : df_len pivot = List.length (unique_times keys))
    by (unfold df_len; now rewrite Hidx, length_map).
  set (L := unique_times keys) in *. clearbody L.
  set (n := List.length L) in *.
  inversion Hq as [|? ? [LG PG] Hq1]; subst; clear Hq.
  inversion Hq1 as [|? ? [LB PB] Hq2]; subst; clear Hq1.
  inversion Hq2 as [|? ? [LN PN] Hq3]; subst; clear Hq2.
  inversion Hq3 as [|? ? [LW PW] Hq4]; subst; clear Hq3.
  inversion Hq4 as [|? ? [LH PH] Hq5]; subst; clear Hq4.
  inversion Hq5 as [|? ? [LI PI] Hq6]; subst; clear Hq5.
  inversion Hq6 as [|? ? [LO PO] _]; subst; clear Hq6.
  split; [rewrite Hidx; now apply NoDup_times|].
  split; [unfold df_len at 1; cbn [df_index]; now rewrite RangeIndex_length, Hn|].
  split.
  - intros k i c Hk Hi. rewrite Hn in *. unfold cell at 1 2 3.
    cbn [getitem df_columns assoc String.eqb Ascii.eqb Bool.eqb].
    rewrite Hidx.
    set (idx := map (fun t0 => VTime t0 tz) L).
    change (idx ++ idx ++ idx ++ idx ++ idx ++ idx ++ idx ++ [])%list
      with (List.concat [idx; idx; idx; idx; idx; idx; idx]).
    change (repeat (VStr "Gas") n ++ repeat (VStr "Biomass") n
            ++ repeat (VStr "Nuclear") n ++ repeat (VStr "Wind") n
            ++ repeat (VStr "Hydro") n ++ repeat (VStr "Imports") n
            ++ repeat (VStr "Coal/Oil/Other") n ++ [])%list
      with (List.concat [repeat (VStr "Gas") n; repeat (VStr "Biomass") n;
                    repeat (VStr "Nuclear") n; repeat (VStr "Wind") n;
                    repeat (VStr "Hydro") n; repeat (VStr "Imports") n;
                    repeat (VStr "Coal/Oil/Other") n]).
    change (map VNum qG ++ map VNum qB ++ map VNum qN ++ map VNum qW
            ++ map VNum qH ++ map VNum qI ++ map VNum qO ++ [])%list
      with (List.concat [map VNum qG; map VNum qB; map VNum qN; map VNum qW;
                    map VNum qH; map VNum qI; map VNum qO]).
    assert (Lidx : List.length idx = n) by (unfold idx; now rewrite length_map).
    rewrite !(nth_concat_blocks _ n k i VNA);
      try assumption;
      try (repeat (apply Forall_cons; [|]); try apply Forall_nil;
           rewrite ?repeat_length, ?length_map; first [reflexivity|assumption]).
    unfold cell.
    do 7 (destruct k as [|k];
          [ injection Hk as <-;
            rewrite ?HG, ?HB, ?HN, ?HW, ?HH, ?HI, ?HO;
            cbn [nth]; repeat split; now apply nth_repeat_lt
          | ]).
    destruct k; discriminate Hk.
  - unfold groupby_sum.
    cbn [getitem df_columns assoc String.eqb Ascii.eqb Bool.eqb rbind].
    rewrite !app_nil_r.
    rewrite <- !map_app, as_times_times, as_nums_nums. cbn [rbind].
    eexists. split; [reflexivity|].
    assert (HU : unique_times (L ++ L ++ L ++ L ++ L ++ L ++ L) = L).
    { apply sorted_same_elements; [apply unique_times_sorted|assumption|].
      intros x. rewrite unique_times_In, !in_app_iff. tauto. }
    unfold group_sums_frame. rewrite HU.
    cbn [getitem df_columns assoc String.eqb Ascii.eqb Bool.eqb].
    split.
    + rewrite Hidx. destruct L as [|a L]; [reflexivity|].
      now rewrite column_tz_times by (cbn; discriminate).
    + intros i Hi. rewrite Hn in Hi.
      destruct (process_data_wide _ _ _ _ _ _ _ H i ltac:(now rewrite Hn))
        as (gas & bio & nuc & wind & hyd & imp & oth & tot & CG & CB & CN & CW
            & CH & CI & CO & _ & HT & -> & _).
      unfold cell in CG, CB, CN, CW, CH, CI, CO.
      rewrite ?HG, ?HB, ?HN, ?HW, ?HH, ?HI, ?HO in *.
      rewrite nth_map_VNum in CG, CB, CN, CW, CH, CI, CO by lia.
      injection CG as <-. injection CB as <-. injection CN as <-.
      injection CW as <-. injection CH as <-. injection CI as <-.
      injection CO as <-.
      eexists. eexists. split; [|split; [exact HT|]].
      * unfold cell.
        cbn [getitem df_columns assoc String.eqb Ascii.eqb Bool.eqb].
        rewrite (nth_map_default _ _ _ 0%Z) by exact Hi. reflexivity.
      * rewrite !group_sum_app by (fold n; lia).
        rewrite !group_sum_nth by (try assumption; fold n; lia).
        ring.
Qed.

(** ** The reconciliation table *)

Lemma assoc_map_snd {A B} (g : A -> B) (k : string) (l : list (string * A)) :
  assoc k (map (fun '(k', c) => (k', g c)) l) = option_map g (assoc k l).
Proof.
  induction l as [|[k' c] l IH]; simpl; [reflexivity|].
  destruct (String.eqb k k'); [reflexivity|exact IH].
Qed.

Lemma getitem_df_take positions df name :
  getitem (df_take positions df) name
  = rbind (getitem df name) (fun c => Ok (take VNA positions c)).
Proof.
  unfold getitem, df_take. cbn [df_columns].
  induction (df_columns df) as [|[k c] l IH]; simpl; [reflexivity|].
  destruct (String.eqb name k); [reflexivity|exact IH].
Qed.

(** The reconciliation table of a successful run, column by column. *)
Lemma process_data_merge argsort f t pivot area merge s' :
  process_data argsort (mkFrames f t) = (Ok (pivot, area, merge), s') ->
  exists fts lt hh gc gks gvs tst tts tlt thh pcol pks dcol ws' lk smd,
    dt_tz_convert Europe_London fts = Ok lt /\
    getitem (fuel_df s') "LocalHalfHour" = Ok hh /\
    getitem (fuel_df s') "Generation_clipped" = Ok gc /\
    dt_floor_30min lt = Ok hh /\
    as_times hh = Ok gks /\
    as_nums gc = Ok gvs /\
    Forall nonneg_opt gvs /\
    getitem t "StartTime" = Ok tst /\
    to_datetime_utc tst = Ok tts /\
    dt_tz_convert Europe_London tts = Ok tlt /\
    dt_floor_30min tlt = Ok thh /\
    tsdf_df s' = setitem (setitem (setitem t "StartTime" tts) "LocalTime" tlt)
                         "LocalHalfHour" thh /\
    getitem t "PublishTime" = Ok pcol /\
    as_strs pcol = Ok pks /\
    getitem t "demand" = Ok dcol /\
    as_times (take VNA (argsort pks) thh) = Ok ws' /\
    as_times (take VNA (last_of_group 0 ws') (take VNA (argsort pks) thh)) = Ok lk /\
    let p := argsort pks in
    let q := last_of_group 0 ws' in
    let ps := join_positions lk (unique_times gks) in
    series_sub (take VNA (map snd ps) (window_sums gks gvs))
               (take VNA (map fst ps) (take VNA q (take VNA p dcol))) = Ok smd /\
    merge = mkDataFrame None (RangeIndex (List.length ps))
              [ ("LocalHalfHour", take VNA (map fst ps) (take VNA q (take VNA p thh)));
                ("DemandForecast", take VNA (map fst ps) (take VNA q (take VNA p dcol)));
                ("TotalGeneration", take VNA (map snd ps) (window_sums gks gvs));
                ("SupplyMinusDemand", smd) ].
Proof.
  intros H. run_steps H. simpl_getitem.
  apply Ok_inj in E1, E10, E14, E19, E21. subst a1 a10 a14 a19 a21.
  (* the generation side *)
  unfold groupby_sum in E16. rewrite !getitem_setitem in E16.
  cbn [String.eqb Ascii.eqb Bool.eqb rbind] in E16.
  destruct (as_times a15) as [gks|] eqn:Egks; [|discriminate].
  cbn [rbind] in E16.
  destruct (as_nums a4) as [gvs|] eqn:Egvs; [|discriminate].
  cbn [rbind] in E16. apply Ok_inj in E16. subst a16.
  (* the demand side *)
  unfold sort_values in E23. rewrite !getitem_setitem in E23.
  cbn [String.eqb Ascii.eqb Bool.eqb rbind] in E23.
  destruct (getitem t "PublishTime") as [pcol|] eqn:Epcol; [|discriminate].
  cbn [rbind] in E23.
  destruct (as_strs pcol) as [pks|] eqn:Epks; [|discriminate].
  cbn [rbind] in E23. apply Ok_inj in E23. subst a23.
  unfold groupby_tail1 in E24. rewrite getitem_df_take, !getitem_setitem in E24.
  cbn [String.eqb Ascii.eqb Bool.eqb rbind] in E24.
  destruct (as_times (take VNA (argsort pks) a22)) as [ws'|] eqn:Ews;
    [|discriminate].
  cbn [rbind] in E24. apply Ok_inj in E24. subst a24.
  unfold select in E25. cbn [mapM] in E25.
  rewrite !getitem_df_take, !getitem_setitem in E25.
  cbn [String.eqb Ascii.eqb Bool.eqb rbind] in E25.
  destruct (getitem t "demand") as [dcol|] eqn:Edcol; [|discriminate].
  cbn [rbind] in E25. apply Ok_inj in E25. subst a25.
  unfold merge_inner, group_sums_frame in E26.
  cbn [getitem df_columns assoc String.eqb Ascii.eqb Bool.eqb rbind] in E26.
  destruct (as_times (take VNA (last_of_group 0 ws') (take VNA (argsort pks) a22)))
    as [lk|] eqn:Elk; [|discriminate].
  cbn [rbind] in E26. rewrite as_times_times in E26.
  cbn [rbind filter fst snd negb String.eqb Ascii.eqb Bool.eqb map app] in E26.
  apply Ok_inj in E26. subst a26.
  cbn [rename_columns df_columns df_index df_index_name map assoc String.eqb
       Ascii.eqb Bool.eqb getitem] in E27, E28, H.
  apply Ok_inj in E27, E28. subst a27 a28.
  injection H as <- <- <- <-.
  exists a0, a2, a15, a4, gks, gvs, a17, a18, a20, a22, pcol, pks, dcol, ws', lk, a29.
  cbn [fuel_df tsdf_df]. rewrite !getitem_setitem.
  cbn [String.eqb Ascii.eqb Bool.eqb].
  repeat (split; [first [reflexivity | assumption
                        | eapply clip_lower0_nonneg; eassumption]|]).
  reflexivity.
Qed.

(** ** Timestamp columns *)

Lemma dt_tz_convert_times tz c c' :
  dt_tz_convert tz c = Ok c' ->
  exists ts, c' = times tz ts /\ List.length ts = List.length c.
Proof.
  unfold dt_tz_convert. revert c'.
  induction c as [|v c IH]; simpl; intros c' H.
  - apply Ok_inj in H. subst. now exists [].
  - destruct v; try discriminate. simpl in H.
    destruct (mapM _ c) as [c0|] eqn:E; [|discriminate]. simpl in H.
    apply Ok_inj in H. subst. destruct (IH _ eq_refl) as (ts & -> & Hl).
    exists (t :: ts). simpl. now rewrite Hl.
Qed.

Lemma dt_floor_30min_times tz ts c :
  dt_floor_30min (times tz ts) = Ok c ->
  exists ws, c = times tz ws /\ List.length ws = List.length ts /\
             Forall2 (fun t w => floor_30min t tz = Ok w) ts ws.
Proof.
  unfold dt_floor_30min, times. revert c.
  induction ts as [|t ts IH]; simpl; intros c H.
  - apply Ok_inj in H. subst. exists []. repeat split. constructor.
  - destruct (floor_30min t tz) as [w|] eqn:Ew; [|discriminate]. simpl in H.
    destruct (mapM _ (map _ ts)) as [c0|] eqn:E; [|discriminate]. simpl in H.
    apply Ok_inj in H. subst. destruct (IH _ eq_refl) as (ws & -> & Hl & Hf).
    exists (w :: ws). simpl. rewrite Hl. repeat split. now constructor.
Qed.

(** ** Taking rows *)

Lemma take_times tz (positions : list nat) (ws : list Z) :
  Forall (fun x => (x < List.length ws)%nat) positions ->
  take VNA positions (times tz ws) = times tz (map (fun x => nth x ws 0) positions).
Proof.
  unfold take, times. intros H. rewrite map_map. apply map_ext_in.
  intros x Hx. rewrite Forall_forall in H.
  apply (nth_map_default (fun t => VTime t tz)). now apply H.
Qed.

Lemma take_take {A} (d : A) (q p : list nat) (c : list A) :
  Forall (fun a => (a < List.length p)%nat) q ->
  take d q (take d p c) = take d (map (fun a => nth a p 0%nat) q) c.
Proof.
  unfold take. intros H. rewrite map_map. apply map_ext_in.
  intros a Ha. rewrite Forall_forall in H.
  apply (nth_map_default (fun i => nth i c d)). now apply H.
Qed.

Lemma take_length {A} (d : A) positions (c : list A) :
  List.length (take d positions c) = List.length positions.
Proof. apply length_map. Qed.

(** ** The last row of every group *)

Lemma last_of_group_bounds pos keys x :
  In x (last_of_group pos keys) -> (pos <= x < pos + List.length keys)%nat.
Proof.
  revert pos. induction keys as [|k keys IH]; intros pos Hx; simpl in *;
    [contradiction|].
  destruct (existsb (Z.eqb k) keys).
  - apply IH in Hx. lia.
  - destruct Hx as [<-|Hx]; [lia|]. apply IH in Hx. lia.
Qed.

Lemma existsb_Zeqb_In k (keys : list Z) :
  existsb (Z.eqb k) keys = true <-> In k keys.
Proof.
  rewrite existsb_exists. split.
  - intros (y & Hy & E). apply Z.eqb_eq in E. now subst.
  - intros Hk. exists k. split; [assumption|apply Z.eqb_refl].
Qed.

(** A selected row is the last one with its key. *)
Lemma last_of_group_last pos keys x y :
  In x (last_of_group pos keys) ->
  (x < y < pos + List.length keys)%nat ->
  nth (y - pos) keys 0 <> nth (x - pos) keys 0.
Proof.
  revert pos. induction keys as [|k keys IH]; intros pos Hx Hy; simpl in Hx;
    [contradiction|].
  simpl in Hy.
  destruct (existsb (Z.eqb k) keys) eqn:E.
  - pose proof (last_of_group_bounds _ _ _ Hx) as Hb.
    specialize (IH (S pos) Hx ltac:(lia)).
    replace (y - pos)%nat with (S (y - S pos)) by lia.
    replace (x - pos)%nat with (S (x - S pos)) by lia. exact IH.
  - destruct Hx as [<-|Hx].
    + rewrite Nat.sub_diag. replace (y - pos)%nat with (S (y - S pos)) by lia.
      simpl. intros Heq.
      assert (Hin : In k keys) by (rewrite <- Heq; apply nth_In; lia).
      apply existsb_Zeqb_In in Hin. congruence.
    + pose proof (last_of_group_bounds _ _ _ Hx) as Hb.
      specialize (IH (S pos) Hx ltac:(lia)).
      replace (y - pos)%nat with (S (y - S pos)) by lia.
      replace (x - pos)%nat with (S (x - S pos)) by lia. exact IH.
Qed.

(** The keys of the selected rows are the distinct keys. *)
Lemma last_of_group_keys pos keys :
  let sel := map (fun x => nth (x - pos) keys 0) (last_of_group pos keys) in
  NoDup sel /\ forall k, In k sel <-> In k keys.
Proof.
  revert pos. induction keys as [|k keys IH]; intros pos; cbv zeta;
    cbn [last_of_group].
  - simpl. split; [constructor|tauto].
  - destruct (IH (S pos)) as (Hnd & Hin). cbv zeta in Hnd, Hin.
    assert (Hshift :
      map (fun x => nth (x - pos) (k :: keys) 0) (last_of_group (S pos) keys)
      = map (fun x => nth (x - S pos) keys 0) (last_of_group (S pos) keys)).
    { apply map_ext_in. intros x Hx. apply last_of_group_bounds in Hx.
      replace (x - pos)%nat with (S (x - S pos)) by lia. reflexivity. }
    destruct (existsb (Z.eqb k) keys) eqn:E.
    + rewrite Hshift. split; [exact Hnd|].
      intros k'. rewrite Hin. apply existsb_Zeqb_In in E.
      split; [intros ?; now right|]. intros [<-|H]; assumption.
    + cbn [map]. rewrite Nat.sub_diag, Hshift. cbn [nth]. split.
      * constructor; [|exact Hnd]. rewrite Hin. intros Hk.
        apply existsb_Zeqb_In in Hk. congruence.
      * intros k'. cbn [In]. rewrite Hin. tauto.
Qed.

(** ** Joining on the key *)

Lemma combine_seq_In {A} (s : nat) (l : list A) (i : nat) (a : A) (d : A) :
  In (i, a) (combine (seq s (List.length l)) l) <->
  (s <= i < s + List.length l)%nat /\ nth (i - s) l d = a.
Proof.
  revert s. induction l as [|b l IH]; intros s; simpl.
  - split; [contradiction|lia].
  - rewrite IH. split.
    + intros [[= <- <-]|[Hb Hn]].
      * rewrite Nat.sub_diag. split; [lia|reflexivity].
      * split; [lia|]. replace (i - s)%nat with (S (i - S s)) by lia. exact Hn.
    + intros [Hb Hn]. destruct (Nat.eq_dec i s) as [->|Hne].
      * left. rewrite Nat.sub_diag in Hn. now subst.
      * right. split; [lia|].
        replace (i - s)%nat with (S (i - S s)) in Hn by lia. exact Hn.
Qed.

Lemma join_positions_In lk rk i j :
  In (i, j) (join_positions lk rk) <->
  (i < List.length lk)%nat /\ (j < List.length rk)%nat /\ nth j rk 0 = nth i lk 0.
Proof.
  unfold join_positions. rewrite in_flat_map. split.
  - intros ([i' k] & Hik & Hin). apply in_map_iff in Hin.
    destruct Hin as ([j' k'] & [= <- <-] & Hf). apply filter_In in Hf.
    destruct Hf as (Hjk & E). apply Z.eqb_eq in E. subst k'.
    apply (combine_seq_In 0 lk i' k 0) in Hik.
    apply (combine_seq_In 0 rk j' k 0) in Hjk.
    rewrite Nat.sub_0_r in *. destruct Hik as (? & <-), Hjk as (? & Hj).
    repeat split; first [lia | exact Hj].
  - intros (Hi & Hj & E). exists (i, nth i lk 0). split.
    + apply (combine_seq_In 0 lk i _ 0). rewrite Nat.sub_0_r. split; [lia|reflexivity].
    + apply in_map_iff. exists (j, nth j rk 0). split; [reflexivity|].
      apply filter_In. split.
      * apply (combine_seq_In 0 rk j _ 0). rewrite Nat.sub_0_r.
        split; [lia|reflexivity].
      * now apply Z.eqb_eq.
Qed.

Lemma matches_length s k (rk : list Z) :
  NoDup rk ->
  List.length (filter (fun jk : nat * Z => snd jk =? k)
                      (combine (seq s (List.length rk)) rk))
  = if existsb (Z.eqb k) rk then 1%nat else 0%nat.
Proof.
  intros Hnd. revert s. induction Hnd as [|a rk Ha _ IH]; intros s; simpl;
    [reflexivity|].
  rewrite (Z.eqb_sym k a). destruct (Z.eqb_spec a k) as [->|Hne]; simpl.
  - rewrite IH.
    destruct (existsb (Z.eqb k) rk) eqn:E; [|reflexivity].
    apply existsb_Zeqb_In in E. contradiction.
  - apply IH.
Qed.

(** With distinct keys on the right, the joined rows carry the keys of the
    left rows that also occur on the right, in the order of the left. *)
Lemma join_positions_keys lk rk :
  NoDup rk ->
  map (fun ij => nth (fst ij) lk 0) (join_positions lk rk)
  = filter (fun k => existsb (Z.eqb k) rk) lk.
Proof.
  intros Hnd. unfold join_positions.
  assert (G : forall s l,
    (forall i k, In (i, k) l -> nth i lk 0 = k) ->
    map (fun ij => nth (fst ij) lk 0)
        (flat_map (fun '(i, k) =>
                     map (fun '(j, _) => (i, j))
                         (filter (fun '(_, k') => k' =? k)
                                 (combine (seq s (List.length rk)) rk))) l)
    = filter (fun k => existsb (Z.eqb k) rk) (map snd l)).
  { intros s l. induction l as [|[i k] l IH]; intros Hl; simpl; [reflexivity|].
    rewrite map_app, IH by (intros; apply Hl; now right).
    pose proof (matches_length s k rk Hnd) as Hm.
    replace (filter (fun jk : nat * Z => snd jk =? k)
                    (combine (seq s (List.length rk)) rk))
      with (filter (fun '(_, k') => k' =? k)
                   (combine (seq s (List.length rk)) rk)) in Hm
      by (apply filter_ext; now intros [? ?]).
    destruct (existsb (Z.eqb k) rk).
    - destruct (filter _ (combine _ _)) as [|[j k'] rest]; simpl in Hm;
        [discriminate|].
      destruct rest; simpl in Hm; [|discriminate].
      simpl. now rewrite (Hl i k (or_introl eq_refl)).
    - destruct (filter _ (combine _ _)); simpl in Hm; [reflexivity|discriminate]. }
  rewrite (G 0%nat).
  - f_equal. clear. generalize 0%nat. induction lk as [|a lk IH]; intros s;
      simpl; [reflexivity|]. now rewrite IH.
  - intros i k Hik. apply (combine_seq_In 0 lk i k 0) in Hik.
    rewrite Nat.sub_0_r in Hik. tauto.
Qed.

(** ** Sorted positions *)

Lemma StronglySorted_nth {A} (R : A -> A -> Prop) (l : list A) (d : A) :
  StronglySorted R l ->
  forall b a, (b < a < List.length l)%nat -> R (nth b l d) (nth a l d).
Proof.
  induction 1 as [|x l _ IH Hx]; intros b a Hba; simpl in Hba; [lia|].
  destruct a as [|a]; [lia|]. destruct b as [|b]; simpl.
  - rewrite Forall_forall in Hx. apply Hx, nth_In. lia.
  - apply IH. lia.
Qed.

Lemma string_compare_refl (s : string) : String.compare s s = Eq.
Proof.
  induction s as [|c s IH]; simpl; [reflexivity|].
  unfold Ascii.compare. now rewrite N.compare_refl.
Qed.

Lemma string_leb_refl (s : string) : String.leb s s = true.
Proof. unfold String.leb. now rewrite string_compare_refl. Qed.

Lemma sorts_positions argsort ks :
  sorts argsort ->
  List.length (argsort ks) = List.length ks /\
  Forall (fun x => (x < List.length ks)%nat) (argsort ks) /\
  forall r, (r < List.length ks)%nat ->
            exists b, (b < List.length ks)%nat /\ nth b (argsort ks) 0%nat = r.
Proof.
  intros Hs. destruct (Hs ks) as (Hp & _).
  assert (Hl : List.length (argsort ks) = List.length ks)
    by (rewrite (Permutation_length Hp); apply length_seq).
  split; [exact Hl|]. split.
  - rewrite Forall_forall. intros x Hx.
    apply (Permutation_in _ Hp), in_seq in Hx. lia.
  - intros r Hr.
    assert (Hin : In r (argsort ks)).
    { apply (Permutation_in _ (Permutation_sym Hp)), in_seq. lia. }
    destruct (In_nth _ _ 0%nat Hin) as (b & Hb & Hnth).
    exists b. split; [lia|exact Hnth].
Qed.

(** ** The order of strings *)

Lemma string_leb_trans (a b c : string) :
  String.leb a b = true -> String.leb b c = true -> String.leb a c = true.
Proof.
  unfold String.leb. revert b c.
  induction a as [|ca a IH]; intros [|cb b] [|cc c]; simpl; try congruence.
  unfold Ascii.compare.
  destruct (N.compare_spec (N_of_ascii ca) (N_of_ascii cb)) as [E1|L1|G1];
    destruct (N.compare_spec (N_of_ascii cb) (N_of_ascii cc)) as [E2|L2|G2];
    try congruence;
    destruct (N.compare_spec (N_of_ascii ca) (N_of_ascii cc)) as [E3|L3|G3];
    try congruence; try lia.
  apply IH.
Qed.

Lemma string_ltb_leb (a b : string) : String.ltb a b = true -> String.leb a b = true.
Proof. unfold String.ltb, String.leb. now destruct (String.compare a b). Qed.

Lemma string_ltb_false_leb (a b : string) :
  String.ltb a b = false -> String.leb b a = true.
Proof.
  unfold String.ltb, String.leb. rewrite (String.compare_antisym a b).
  now destruct (String.compare b a).
Qed.

(** ** The stable argsort *)

Lemma stable_insert_perm ks i l : Permutation (stable_insert ks i l) (i :: l).
Proof.
  induction l as [|j l IH]; simpl; [reflexivity|].
  destruct (String.ltb _ _); [reflexivity|].
  rewrite IH. apply perm_swap.
Qed.

Lemma stable_insert_sorted ks i l :
  StronglySorted (fun a b => String.leb (nth a ks "") (nth b ks "") = true) l ->
  StronglySorted (fun a b => String.leb (nth a ks "") (nth b ks "") = true)
                 (stable_insert ks i l).
Proof.
  induction 1 as [|j l Hl IH Hj]; simpl.
  - repeat constructor.
  - destruct (String.ltb (nth i ks "") (nth j ks "")) eqn:E.
    + constructor; [now constructor|]. apply string_ltb_leb in E.
      constructor; [exact E|]. rewrite Forall_forall in *.
      intros x Hx. eapply string_leb_trans; [exact E|now apply Hj].
    + constructor; [exact IH|]. apply string_ltb_false_leb in E.
      rewrite Forall_forall in *. intros x Hx.
      apply (Permutation_in _ (stable_insert_perm ks i l)) in Hx.
      destruct Hx as [<-|Hx]; [exact E|now apply Hj].
Qed.

Lemma stable_argsort_sorts : sorts stable_argsort.
Proof.
  intros ks. unfold stable_argsort.
  assert (G : forall l acc,
    StronglySorted (fun a b => String.leb (nth a ks "") (nth b ks "") = true) acc ->
    Permutation (fold_left (fun acc i => stable_insert ks i acc) l acc)
                (l ++ acc) /\
    StronglySorted (fun a b => String.leb (nth a ks "") (nth b ks "") = true)
                   (fold_left (fun acc i => stable_insert ks i acc) l acc)).
  { induction l as [|i l IH]; intros acc Hacc; simpl.
    - split; [reflexivity|assumption].
    - destruct (IH (stable_insert ks i acc) (stable_insert_sorted _ _ _ Hacc))
        as (Hp & Hs).
      split; [|exact Hs]. rewrite Hp, stable_insert_perm.
      symmetry. apply Permutation_middle. }
  destruct (G (seq 0 (List.length ks)) [] (SSorted_nil _)) as (Hp & Hs).
  rewrite app_nil_r in Hp. now split.
Qed.

Lemma as_strs_strs c ks :
  as_strs c = Ok ks -> c = map VStr ks /\ List.length ks = List.length c.
Proof.
  unfold as_strs. revert ks. induction c as [|v c IH]; simpl; intros ks H.
  - apply Ok_inj in H. now subst.
  - destruct v; try discriminate. simpl in H.
    destruct (mapM as_str c) as [ks'|]; [|discriminate]. simpl in H.
    apply Ok_inj in H. subst. destruct (IH _ eq_refl) as (-> & Hl).
    simpl. now rewrite Hl, length_map.
Qed.

Lemma wf_frame_getitem df name c :
  wf_frame df -> getitem df name = Ok c -> List.length c = df_len df.
Proof.
  unfold wf_frame, getitem. intros Hwf H.
  destruct (assoc name (df_columns df)) as [c'|] eqn:E; [|discriminate].
  apply Ok_inj in H. subst. apply assoc_In in E.
  rewrite Forall_forall in Hwf. exact (Hwf _ E).
Qed.

(** The rows of the reconciliation table of a successful run: each comes
    from one demand record [r] and carries one window [w]. *)
Lemma reconciliation_rows argsort f t pivot area merge s' :
  process_data argsort (mkFrames f t) = (Ok (pivot, area, merge), s') ->
  sorts argsort -> wf_frame t ->
  exists gc gks gvs ws pks dcol smd (rows : list (nat * Z)),
    getitem (fuel_df s') "LocalHalfHour" = Ok (times Europe_London gks) /\
    getitem (fuel_df s') "Generation_clipped" = Ok gc /\
    as_nums gc = Ok gvs /\
    Forall nonneg_opt gvs /\
    getitem (tsdf_df s') "LocalHalfHour" = Ok (times Europe_London ws) /\
    getitem (tsdf_df s') "PublishTime" = Ok (map VStr pks) /\
    getitem (tsdf_df s') "demand" = Ok dcol /\
    List.length ws = df_len t /\
    List.length pks = df_len t /\
    List.length dcol = df_len t /\
    NoDup (map snd rows) /\
    (forall w, In w (map snd rows) <-> In w ws /\ In w gks) /\
    (forall r w, In (r, w) rows ->
       (r < df_len t)%nat /\ nth r ws 0 = w /\
       (forall r', (r' < df_len t)%nat -> nth r' ws 0 = w ->
                   String.leb (nth r' pks "") (nth r pks "") = true) /\
       (stable argsort ->
        forall r', (r' < df_len t)%nat -> nth r' ws 0 = w ->
                   nth r' pks "" = nth r pks "" -> (r' <= r)%nat)) /\
    merge = mkDataFrame None (RangeIndex (List.length rows))
              [ ("LocalHalfHour", times Europe_London (map snd rows));
                ("DemandForecast", map (fun rw => nth (fst rw) dcol VNA) rows);
                ("TotalGeneration",
                 map (fun rw => VNum (group_sum (snd rw) gks gvs)) rows);
                ("SupplyMinusDemand", smd) ] /\
    series_sub (map (fun rw => VNum (group_sum (snd rw) gks gvs)) rows)
               (map (fun rw => nth (fst rw) dcol VNA) rows) = Ok smd.
Proof.
  intros H Hs Hwf.
  destruct (process_data_merge _ _ _ _ _ _ _ H)
    as (fts & lt & hh & gc & gks & gvs & tst & tts & tlt & thh & pcol & pks
        & dcol & ws' & lk & smd & Hlt & Hhh & Hgc & Hfl & Hgks & Hgvs & Hnn
        & Htst & Htts & Htlt & Hthh & Hs' & Hpcol & Hpks & Hdcol & Hws' & Hlk
        & Hsub & Hmerge).
  cbv zeta in Hsub, Hmerge. clear H.
  (* shapes *)
  destruct (dt_tz_convert_times _ _ _ Hlt) as (fl & -> & _).
  destruct (dt_floor_30min_times _ _ _ Hfl) as (gks0 & -> & _ & _).
  fold (times Europe_London gks0) in Hgks. unfold times in Hgks.
  rewrite as_times_times in Hgks. apply Ok_inj in Hgks. subst gks0.
  destruct (dt_tz_convert_times _ _ _ Htlt) as (tl & -> & Ltl).
  destruct (dt_floor_30min_times _ _ _ Hthh) as (ws & -> & Lws & _).
  destruct (as_strs_strs _ _ Hpks) as (-> & Lpks).
  pose proof (wf_frame_getitem _ _ _ Hwf Htst) as Ltst.
  pose proof (wf_frame_getitem _ _ _ Hwf Hpcol) as Lpcol.
  pose proof (wf_frame_getitem _ _ _ Hwf Hdcol) as Ldcol.
  pose proof (mapM_length _ _ _ Htts) as Ltts.
  rewrite length_map in Lpcol.
  assert (Ln : List.length ws = df_len t) by congruence.
  set (n := df_len t) in *.
  (* the sorted rows *)
  destruct (sorts_positions argsort pks Hs) as (Lp & Hp & Hsurj).
  destruct (Hs pks) as (_ & Hsorted).
  set (p := argsort pks) in *.
  rewrite Lpcol in Lp, Hp, Hsurj.
  rewrite take_times in Hws' by (now rewrite Ln).
  unfold times in Hws'. rewrite as_times_times in Hws'.
  apply Ok_inj in Hws'. subst ws'.
  set (ws' := map (fun x => nth x ws 0) p) in *.
  assert (Lws' : List.length ws' = n) by (unfold ws'; now rewrite length_map).
  set (q := last_of_group 0 ws') in *.
  assert (Hq : Forall (fun a => (a < n)%nat) q).
  { rewrite Forall_forall. intros a Ha. apply last_of_group_bounds in Ha. lia. }
  rewrite take_times in Hlk, Hmerge by (now rewrite Ln).
  fold ws' in Hlk, Hmerge.
  rewrite take_times in Hlk, Hmerge by (now rewrite Lws').
  unfold times in Hlk. rewrite as_times_times in Hlk.
  apply Ok_inj in Hlk. subst lk.
  set (lk := map (fun x => nth x ws' 0) q) in *.
  pose proof (last_of_group_keys 0 ws') as Hkeys. cbv zeta in Hkeys.
  assert (Hlk_eq : map (fun x => nth (x - 0) ws' 0) (last_of_group 0 ws') = lk).
  { unfold lk, q. apply map_ext. intros x. now rewrite Nat.sub_0_r. }
  rewrite Hlk_eq in Hkeys. destruct Hkeys as (Hnd_lk & Hin_lk).
  set (rk := unique_times gks) in *.
  pose proof (unique_times_NoDup gks) as Hnd_rk. fold rk in Hnd_rk.
  set (ps := join_positions lk rk) in *.
  assert (Llk : List.length lk = List.length q) by (unfold lk; apply length_map).
  assert (Hps : forall ij, In ij ps ->
            (fst ij < List.length q)%nat /\ (snd ij < List.length rk)%nat /\
            nth (snd ij) rk 0 = nth (fst ij) lk 0).
  { intros [i j] Hij. apply join_positions_In in Hij. rewrite Llk in Hij.
    exact Hij. }
  assert (Hq_nth : forall i, (i < List.length q)%nat -> (nth i q 0 < n)%nat).
  { intros i Hi. rewrite Forall_forall in Hq. apply Hq, nth_In, Hi. }
  assert (Hp_nth : forall a, (a < n)%nat -> (nth a p 0 < n)%nat).
  { intros a Ha. rewrite Forall_forall in Hp. apply Hp, nth_In. lia. }
  assert (Hws'_nth : forall a, (a < n)%nat -> nth a ws' 0 = nth (nth a p 0%nat) ws 0).
  { intros a Ha. unfold ws'.
    apply (nth_map_default (fun x => nth x ws 0)). lia. }
  assert (Hlk_nth : forall i, (i < List.length q)%nat ->
                              nth i lk 0 = nth (nth i q 0%nat) ws' 0).
  { intros i Hi. unfold lk. now apply (nth_map_default (fun x => nth x ws' 0)). }
  set (rows := map (fun ij : nat * nat =>
                      (nth (nth (fst ij) q 0%nat) p 0%nat, nth (fst ij) lk 0)) ps).
  assert (Hsnd : map snd rows = map (fun ij => nth (fst ij) lk 0) ps)
    by (unfold rows; now rewrite map_map).
  assert (Hin_ws : forall w, In w ws' <-> In w ws).
  { intros w. split.
    - unfold ws'. intros Hw. apply in_map_iff in Hw. destruct Hw as (x & <- & Hx).
      rewrite Forall_forall in Hp. apply nth_In. rewrite Ln. now apply Hp.
    - intros Hw. destruct (In_nth _ _ 0 Hw) as (r & Hr & <-).
      destruct (Hsurj r ltac:(lia)) as (b & Hb & <-).
      rewrite <- Hws'_nth by exact Hb. apply nth_In. lia. }
  exists gc, gks, gvs, ws, pks, dcol, smd, rows.
  rewrite Hs', !getitem_setitem. cbn [String.eqb Ascii.eqb Bool.eqb].
  repeat (split; [assumption|]).
  split; [reflexivity|]. repeat (split; [assumption|]).
  split.
  { rewrite Hsnd. unfold ps. rewrite join_positions_keys by exact Hnd_rk.
    now apply NoDup_filter. }
  split.
  { intros w. rewrite Hsnd. unfold ps.
    rewrite join_positions_keys by exact Hnd_rk.
    rewrite filter_In, existsb_Zeqb_In, Hin_lk, Hin_ws. unfold rk.
    now rewrite unique_times_In. }
  split.
  { intros r w Hrw. unfold rows in Hrw. apply in_map_iff in Hrw.
    destruct Hrw as ([i j] & [= <- <-] & Hij).
    destruct (Hps _ Hij) as (Hi & Hj & _). cbn [fst snd] in *.
    pose proof (Hq_nth i Hi) as Ha. set (a := nth i q 0%nat) in *.
    split; [now apply Hp_nth|].
    split; [rewrite Hlk_nth by exact Hi; fold a; symmetry; now apply Hws'_nth|].
    assert (Hpos : forall r', (r' < n)%nat -> nth r' ws 0 = nth i lk 0 ->
              exists b, (b <= a)%nat /\ nth b p 0%nat = r').
    { intros r' Hr' Hw. destruct (Hsurj r' Hr') as (b & Hb & <-).
      exists b. split; [|reflexivity].
      rewrite Hlk_nth in Hw by exact Hi. fold a in Hw.
      rewrite <- Hws'_nth in Hw by exact Hb.
      destruct (Nat.le_gt_cases b a) as [Hle|Hgt]; [exact Hle|]. exfalso.
      assert (Hina : In a q) by (apply nth_In; exact Hi).
      apply (last_of_group_last 0 ws' a b Hina); [lia|].
      now rewrite !Nat.sub_0_r. }
    split.
    - intros r' Hr' Hw. destruct (Hpos r' Hr' Hw) as (b & Hb & <-).
      destruct (proj1 (Nat.lt_eq_cases b a) Hb) as [Hlt'| ->].
      + apply (StronglySorted_nth _ _ 0%nat Hsorted b a). lia.
      + apply string_leb_refl.
    - intros Hst r' Hr' Hw Hkey. destruct (Hpos r' Hr' Hw) as (b & Hb & <-).
      destruct (proj1 (Nat.lt_eq_cases b a) Hb) as [Hlt'| ->]; [|lia].
      destruct (Hst pks) as (_ & Hsorted'). fold p in Hsorted'.
      destruct (StronglySorted_nth _ _ 0%nat Hsorted' b a ltac:(lia))
        as [Hstrict|[_ Hidx]]; [|lia].
      rewrite Hkey in Hstrict. unfold String.ltb in Hstrict.
      rewrite string_compare_refl in Hstrict. discriminate. }
  assert (C1 : take VNA (map fst ps) (times Europe_London lk)
               = times Europe_London (map snd rows)).
  { rewrite take_times.
    - now rewrite Hsnd, map_map.
    - rewrite Forall_forall. intros x Hx. apply in_map_iff in Hx.
      destruct Hx as (ij & <- & Hij). rewrite Llk. now apply Hps. }
  assert (C2 : take VNA (map fst ps) (take VNA q (take VNA p dcol))
               = map (fun rw : nat * Z => nth (fst rw) dcol VNA) rows).
  { unfold rows, take. rewrite !map_map. apply map_ext_in.
    intros ij Hij. destruct (Hps _ Hij) as (Hi & _). cbn [fst].
    rewrite (nth_map_default
               (fun i0 => nth i0 (map (fun i1 => nth i1 dcol VNA) p) VNA)
               q (fst ij) 0%nat VNA) by exact Hi.
    apply (nth_map_default (fun i1 => nth i1 dcol VNA)).
    rewrite Lp. now apply Hq_nth. }
  assert (C3 : take VNA (map snd ps) (window_sums gks gvs)
               = map (fun rw : nat * Z => VNum (group_sum (snd rw) gks gvs)) rows).
  { unfold rows, take, window_sums. rewrite !map_map. apply map_ext_in.
    intros ij Hij. destruct (Hps _ Hij) as (_ & Hj & E). cbn [snd].
    rewrite (nth_map_default (fun t0 => VNum (group_sum t0 gks gvs))
               (unique_times gks) (snd ij) 0 VNA) by exact Hj.
    fold rk. now rewrite E. }
  rewrite C1, C2, C3 in Hmerge. rewrite C2, C3 in Hsub.
  split; [|exact Hsub].
  rewrite Hmerge. unfold rows. now rewrite length_map.
Qed.

(** ** Clipping *)

(** C5. No aggregate of a successful run is negative, whatever the signs of
    the raw readings: not a category cell or a total of the wide table, not
    a cell of the long table, not a half-hourly total of the reconciliation
    table. *)
Theorem aggregates_nonneg argsort f t pivot area merge s' :
  process_data argsort (mkFrames f t) = (Ok (pivot, area, merge), s') ->
  (forall i c, (i < df_len pivot)%nat ->
               In c ("TotalGeneration" :: categories) ->
               exists q, cell pivot c i = VNum q /\ (0 <= q)%Q) /\
  (forall j, (j < df_len area)%nat ->
             exists q, cell area "Generation" j = VNum q /\ (0 <= q)%Q) /\
  (forall j, (j < df_len merge)%nat ->
             exists q, cell merge "TotalGeneration" j = VNum q /\ (0 <= q)%Q).
Proof.
  intros H. split; [|split].
  - intros i c Hi Hc.
    destruct (process_data_wide _ _ _ _ _ _ _ H i Hi)
      as (gas & bio & nuc & wind & hyd & imp & oth & tot & HG & HB & HN & HW
          & HH & HI & HO & Hpos & HT & Htot & _).
    destruct Hpos as (? & ? & ? & ? & ? & ? & ?).
    simpl in Hc.
    destruct Hc as [<-|Hc].
    { exists tot. split; [exact HT|]. subst tot.
      repeat (rewrite <- (Qplus_0_l 0); apply Qplus_le_compat; [assumption|]).
      apply Qle_refl. }
    repeat (destruct Hc as [<-|Hc]; [eexists; split; eassumption|]).
    contradiction.
  - intros j Hj.
    destruct (process_data_long _ _ _ _ _ _ _ H)
      as (tz & keys & qG & qB & qN & qW & qH & qI & qO & _ & _ & _ & _ & _
          & _ & _ & _ & Hq & ->).
    cbv zeta in *. unfold df_len in Hj. cbn [df_index] in Hj.
    rewrite RangeIndex_length in Hj.
    unfold cell. cbn [getitem df_columns assoc String.eqb Ascii.eqb Bool.eqb].
    rewrite app_nil_r, <- !map_app.
    assert (Hall : Forall (fun q => (0 <= q)%Q)
                          (qG ++ qB ++ qN ++ qW ++ qH ++ qI ++ qO)).
    { repeat (apply Forall_app; split);
        rewrite Forall_forall in Hq;
        match goal with
        | |- Forall _ ?l =>
            apply (Hq l); simpl; tauto
        end. }
    assert (Hlen : List.length (qG ++ qB ++ qN ++ qW ++ qH ++ qI ++ qO)
                   = (7 * List.length (unique_times keys))%nat).
    { rewrite !length_app.
      rewrite Forall_forall in Hq.
      rewrite (proj1 (Hq qG ltac:(simpl; tauto))),
              (proj1 (Hq qB ltac:(simpl; tauto))),
              (proj1 (Hq qN ltac:(simpl; tauto))),
              (proj1 (Hq qW ltac:(simpl; tauto))),
              (proj1 (Hq qH ltac:(simpl; tauto))),
              (proj1 (Hq qI ltac:(simpl; tauto))),
              (proj1 (Hq qO ltac:(simpl; tauto))). lia. }
    rewrite nth_map_VNum by lia.
    eexists. split; [reflexivity|]. now apply nth_nonneg.
  - intros j Hj.
    destruct (process_data_merge _ _ _ _ _ _ _ H)
      as (fts & lt & hh & gc & gks & gvs & tst & tts & tlt & thh & pcol & pks
          & dcol & ws' & lk & smd & _ & _ & _ & _ & _ & _ & Hnn & _ & _ & _
          & _ & _ & _ & _ & _ & _ & _ & _ & ->).
    cbv zeta in *. unfold df_len in Hj. cbn [df_index] in Hj.
    rewrite RangeIndex_length in Hj.
    unfold cell. cbn [getitem df_columns assoc String.eqb Ascii.eqb Bool.eqb].
    set (ps := join_positions lk (unique_times gks)) in *.
    unfold take.
    rewrite (nth_map_default (fun i => nth i (window_sums gks gvs) VNA)
               (map snd ps) j 0%nat VNA) by (now rewrite length_map).
    assert (Hin : In (nth j ps (0%nat, 0%nat)) ps) by (now apply nth_In).
    destruct (nth j ps (0%nat, 0%nat)) as [i0 j0] eqn:E.
    apply join_positions_In in Hin. destruct Hin as (_ & Hj0 & _).
    rewrite (nth_map_default snd ps j (0%nat, 0%nat) 0%nat) by exact Hj.
    rewrite E. cbn [snd]. unfold window_sums.
    rewrite (nth_map_default (fun t0 => VNum (group_sum t0 gks gvs))
               (unique_times gks) j0 0 VNA) by exact Hj0.
    eexists. split; [reflexivity|]. now apply group_sum_nonneg.
Qed.

Lemma aggregates_nonneg_witness :
  process_data stable_argsort (mkFrames pumping_fuel revisions_tsdf)
    = (Ok (pumping_pivot, pumping_area, pumping_merge), pumping_frames) /\
  cell pumping_fuel "Generation" 0 = VNum (-300) /\
  (forall i c, (i < df_len pumping_pivot)%nat ->
               In c ("TotalGeneration" :: categories) ->
               exists q, cell pumping_pivot c i = VNum q /\ (0 <= q)%Q) /\
  (forall j, (j < df_len pumping_area)%nat ->
             exists q, cell pumping_area "Generation" j = VNum q /\ (0 <= q)%Q) /\
  (forall j, (j < df_len pumping_merge)%nat ->
             exists q, cell pumping_merge "TotalGeneration" j = VNum q /\ (0 <= q)%Q).
Proof.
  assert (H : process_data stable_argsort (mkFrames pumping_fuel revisions_tsdf)
              = (Ok (pumping_pivot, pumping_area, pumping_merge), pumping_frames))
    by (vm_compute; reflexivity).
  split; [exact H|]. split; [reflexivity|].
  exact (aggregates_nonneg _ _ _ _ _ _ _ H).
Defined.

Lemma long_table_shape_witness :
  process_data stable_argsort (mkFrames pumping_fuel revisions_tsdf)
    = (Ok (pumping_pivot, pumping_area, pumping_merge), pumping_frames) /\
  df_len pumping_pivot = 2%nat /\
  NoDup (df_index pumping_pivot) /\
  df_len pumping_area = (7 * df_len pumping_pivot)%nat /\
  (forall k i c,
      nth_error categories k = Some c -> (i < df_len pumping_pivot)%nat ->
      cell pumping_area "LocalTime" (k * df_len pumping_pivot + i)
        = nth i (df_index pumping_pivot) VNA /\
      cell pumping_area "Category" (k * df_len pumping_pivot + i) = VStr c /\
      cell pumping_area "Generation" (k * df_len pumping_pivot + i)
        = cell pumping_pivot c i) /\
  exists sums,
    groupby_sum pumping_area "LocalTime" "Generation" = Ok sums /\
    getitem sums "LocalTime" = Ok (df_index pumping_pivot) /\
    forall i, (i < df_len pumping_pivot)%nat ->
      exists s tot,
        cell sums "Generation" i = VNum s /\
        cell pumping_pivot "TotalGeneration" i = VNum tot /\
        (s == tot)%Q.
Proof.
  assert (H : process_data stable_argsort (mkFrames pumping_fuel revisions_tsdf)
              = (Ok (pumping_pivot, pumping_area, pumping_merge), pumping_frames))
    by (vm_compute; reflexivity).
  split; [exact H|]. split; [reflexivity|].
  exact (long_table_shape _ _ _ _ _ _ _ H).
Defined.

(** ** What a sorting routine must return on short columns *)

Lemma sorts_one argsort k : sorts argsort -> argsort [k] = [0%nat].
Proof.
  intros Hs. destruct (Hs [k]) as (Hp & _). simpl in Hp.
  apply Permutation_sym, Permutation_length_1_inv in Hp. exact Hp.
Qed.

Lemma sorts_two argsort k1 k2 :
  sorts argsort -> String.ltb k1 k2 = true -> argsort [k1; k2] = [0%nat; 1%nat].
Proof.
  intros Hs Hlt. destruct (Hs [k1; k2]) as (Hp & Hsorted). simpl in Hp.
  apply Permutation_sym, Permutation_length_2_inv in Hp.
  destruct Hp as [Hp|Hp]; [exact Hp|]. exfalso.
  rewrite Hp in Hsorted. inversion Hsorted as [|? ? _ Hf]; subst.
  inversion Hf as [|? ? Hle _]; subst. simpl in Hle.
  unfold String.ltb in Hlt. unfold String.leb in Hle.
  rewrite (String.compare_antisym k2 k1) in Hle.
  destruct (String.compare k1 k2); simpl in *; discriminate.
Qed.

Lemma times_In tz (w : Z) (l : list Z) :
  In (VTime w tz) (times tz l) <-> In w l.
Proof.
  unfold times. rewrite in_map_iff. split.
  - intros (x & [= ->] & Hx). exact Hx.
  - intros Hw. now exists w.
Qed.

Lemma times_In_inv tz v (l : list Z) :
  In v (times tz l) -> exists w, v = VTime w tz /\ In w l.
Proof.
  unfold times. rewrite in_map_iff. intros (x & <- & Hx). now exists x.
Qed.

(** ** Stability *)

Lemma string_ltb_leb_trans (a b c : string) :
  String.ltb a b = true -> String.leb b c = true -> String.ltb a c = true.
Proof.
  intros Hab Hbc.
  destruct (String.ltb a c) eqn:E; [reflexivity|].
  apply string_ltb_false_leb in E.
  pose proof (string_leb_trans _ _ _ Hbc E) as Hba.
  unfold String.ltb in Hab. unfold String.leb in Hba.
  rewrite (String.compare_antisym b a) in Hba.
  destruct (String.compare a b); simpl in *; discriminate.
Qed.

Lemma stable_insert_stable ks i l :
  Forall (fun j => (j < i)%nat) l ->
  StronglySorted
    (fun a b => String.ltb (nth a ks "") (nth b ks "") = true
                \/ (nth a ks "" = nth b ks "" /\ (a < b)%nat)) l ->
  StronglySorted
    (fun a b => String.ltb (nth a ks "") (nth b ks "") = true
                \/ (nth a ks "" = nth b ks "" /\ (a < b)%nat))
    (stable_insert ks i l).
Proof.
  intros Hlt Hs. induction Hs as [|j l Hl IH Hj]; simpl.
  - repeat constructor.
  - inversion Hlt as [|? ? Hji Hlt']; subst.
    destruct (String.ltb (nth i ks "") (nth j ks "")) eqn:E.
    + constructor; [now constructor|].
      constructor; [now left|]. rewrite Forall_forall in *.
      intros x Hx. left. eapply string_ltb_leb_trans; [exact E|].
      destruct (Hj x Hx) as [Hjx|[Hjx _]].
      * now apply string_ltb_leb.
      * rewrite Hjx. apply string_leb_refl.
    + constructor; [now apply IH|].
      rewrite Forall_forall in *. intros x Hx.
      apply (Permutation_in _ (stable_insert_perm ks i l)) in Hx.
      destruct Hx as [<-|Hx]; [|now apply Hj].
      destruct (String.ltb (nth j ks "") (nth i ks "")) eqn:E'; [now left|].
      right. split; [|exact Hji].
      apply String.leb_antisym; now apply string_ltb_false_leb.
Qed.

Lemma stable_argsort_stable : stable stable_argsort.
Proof.
  intros ks. split; [apply stable_argsort_sorts|]. unfold stable_argsort.
  assert (G : forall n s acc,
    Forall (fun j => (j < s)%nat) acc ->
    StronglySorted
      (fun a b => String.ltb (nth a ks "") (nth b ks "") = true
                  \/ (nth a ks "" = nth b ks "" /\ (a < b)%nat)) acc ->
    StronglySorted
      (fun a b => String.ltb (nth a ks "") (nth b ks "") = true
                  \/ (nth a ks "" = nth b ks "" /\ (a < b)%nat))
      (fold_left (fun acc i => stable_insert ks i acc) (seq s n) acc)).
  { induction n as [|n IH]; intros s acc Hacc Hsorted; simpl; [assumption|].
    apply IH.
    - rewrite Forall_forall in *. intros x Hx.
      apply (Permutation_in _ (stable_insert_perm ks s acc)) in Hx.
      destruct Hx as [<-|Hx]; [lia|]. specialize (Hacc x Hx). lia.
    - now apply stable_insert_stable. }
  apply G; constructor.
Qed.

(** ** The latest revision *)

(** C10, as the code has it.  For a sorting routine and a well-formed
    demand table, the record behind the DemandForecast of a window is one
    whose raw PublishTime string no record of the window exceeds in the
    order of strings; when the routine is stable it is, among the records
    of the window with that string, the last in input order.  The strings
    are never parsed: of two forecasts published at 08:30 UTC and, written
    with a one-hour offset, at 08:00 UTC, the second is kept. *)
Theorem latest_revision_by_string argsort :
  sorts argsort ->
  (forall f t pivot area merge s',
     process_data argsort (mkFrames f t) = (Ok (pivot, area, merge), s') ->
     wf_frame t ->
     forall j, (j < df_len merge)%nat ->
       exists r,
         (r < df_len (tsdf_df s'))%nat /\
         cell (tsdf_df s') "LocalHalfHour" r = cell merge "LocalHalfHour" j /\
         cell merge "DemandForecast" j = cell (tsdf_df s') "demand" r /\
         (forall r', (r' < df_len (tsdf_df s'))%nat ->
            cell (tsdf_df s') "LocalHalfHour" r' = cell merge "LocalHalfHour" j ->
            String.leb (str (cell (tsdf_df s') "PublishTime" r'))
                       (str (cell (tsdf_df s') "PublishTime" r)) = true) /\
         (stable argsort ->
          forall r', (r' < df_len (tsdf_df s'))%nat ->
            cell (tsdf_df s') "LocalHalfHour" r' = cell merge "LocalHalfHour" j ->
            str (cell (tsdf_df s') "PublishTime" r')
              = str (cell (tsdf_df s') "PublishTime" r) ->
            (r' <= r)%nat)) /\
  (exists pivot area merge s',
     process_data argsort (mkFrames scenario_fuel offsets_tsdf)
       = (Ok (pivot, area, merge), s') /\
     df_len merge = 1%nat /\
     cell merge "DemandForecast" 0 = VNum 520).
Proof.
  intros Hs. split.
  - intros f t pivot area merge s' H Hwf j Hj.
    destruct (reconciliation_rows _ _ _ _ _ _ _ H Hs Hwf)
      as (gc & gks & gvs & ws & pks & dcol & smd & rows & HF & _ & _ & _ & HT
          & HP & HD & Lws & Lpks & Ldcol & Hnd & Hin & Hrows & -> & Hsub).
    assert (HlenT : df_len (tsdf_df s') = df_len t).
    { destruct (process_data_merge _ _ _ _ _ _ _ H)
        as (? & ? & ? & ? & ? & ? & ? & ? & ? & ? & ? & ? & ? & ? & ? & ?
            & _ & _ & _ & _ & _ & _ & _ & _ & _ & _ & _ & -> & _).
      reflexivity. }
    unfold df_len in Hj. cbn [df_index] in Hj.
    rewrite RangeIndex_length in Hj. rewrite HlenT.
    assert (Hrow : In (nth j rows (0%nat, 0)) rows) by (now apply nth_In).
    destruct (nth j rows (0%nat, 0)) as [r w] eqn:E.
    destruct (Hrows r w Hrow) as (Hr & Hw & Hmax & Hlast).
    assert (CT : forall x, (x < df_len t)%nat ->
                 cell (tsdf_df s') "LocalHalfHour" x = VTime (nth x ws 0) Europe_London).
    { intros x Hx. unfold cell. rewrite HT. unfold times.
      apply (nth_map_default (fun t0 => VTime t0 Europe_London)). lia. }
    assert (CP : forall x, (x < df_len t)%nat ->
                 str (cell (tsdf_df s') "PublishTime" x) = nth x pks "").
    { intros x Hx. unfold cell. rewrite HP.
      now rewrite (nth_map_default VStr pks _ "" VNA) by lia. }
    match goal with |- context [cell ?M "DemandForecast" j] => set (mg := M) end.
    assert (CW : cell mg "LocalHalfHour" j = VTime w Europe_London).
    { unfold cell, mg, times.
      cbn [getitem df_columns assoc String.eqb Ascii.eqb Bool.eqb].
      rewrite map_map.
      rewrite (nth_map_default (fun x : nat * Z => VTime (snd x) Europe_London)
                 rows j (0%nat, 0) VNA) by exact Hj.
      now rewrite E. }
    assert (CD : cell mg "DemandForecast" j = nth r dcol VNA).
    { unfold cell, mg.
      cbn [getitem df_columns assoc String.eqb Ascii.eqb Bool.eqb].
      rewrite (nth_map_default (fun rw : nat * Z => nth (fst rw) dcol VNA)
                 rows j (0%nat, 0) VNA) by exact Hj.
      now rewrite E. }
    rewrite CW, CD.
    exists r. split; [exact Hr|]. split; [rewrite CT by exact Hr; now rewrite Hw|].
    split; [unfold cell; now rewrite HD|].
    split.
    + intros r' Hr' Hsame. rewrite CT in Hsame by exact Hr'.
      injection Hsame as Hsame. rewrite !CP by assumption. now apply Hmax.
    + intros Hst r' Hr' Hsame Hkey. rewrite CT in Hsame by exact Hr'.
      injection Hsame as Hsame. rewrite !CP in Hkey by assumption.
      now apply Hlast.
  - pose proof (sorts_two argsort "2024-01-01T08:30:00Z"
                  "2024-01-01T09:00:00+01:00" Hs eq_refl) as Hsort.
    eexists _, _, _, _. split.
    + vm_compute. rewrite Hsort. vm_compute. reflexivity.
    + repeat split; reflexivity.
Qed.

Lemma latest_revision_by_string_witness :
  sorts stable_argsort /\
  stable stable_argsort /\
  process_data stable_argsort (mkFrames pumping_fuel revisions_tsdf)
    = (Ok (pumping_pivot, pumping_area, pumping_merge), pumping_frames) /\
  wf_frame revisions_tsdf /\
  (0 < df_len pumping_merge)%nat /\
  exists r,
    (r < df_len (tsdf_df pumping_frames))%nat /\
    cell (tsdf_df pumping_frames) "LocalHalfHour" r
      = cell pumping_merge "LocalHalfHour" 0 /\
    cell pumping_merge "DemandForecast" 0
      = cell (tsdf_df pumping_frames) "demand" r /\
    (forall r', (r' < df_len (tsdf_df pumping_frames))%nat ->
       cell (tsdf_df pumping_frames) "LocalHalfHour" r'
         = cell pumping_merge "LocalHalfHour" 0 ->
       String.leb (str (cell (tsdf_df pumping_frames) "PublishTime" r'))
                  (str (cell (tsdf_df pumping_frames) "PublishTime" r)) = true) /\
    (forall r', (r' < df_len (tsdf_df pumping_frames))%nat ->
       cell (tsdf_df pumping_frames) "LocalHalfHour" r'
         = cell pumping_merge "LocalHalfHour" 0 ->
       str (cell (tsdf_df pumping_frames) "PublishTime" r')
         = str (cell (tsdf_df pumping_frames) "PublishTime" r) ->
       (r' <= r)%nat).
Proof.
  assert (H : process_data stable_argsort (mkFrames pumping_fuel revisions_tsdf)
              = (Ok (pumping_pivot, pumping_area, pumping_merge), pumping_frames))
    by (vm_compute; reflexivity).
  assert (Hwf : wf_frame revisions_tsdf) by (repeat constructor).
  assert (Hj : (0 < df_len pumping_merge)%nat) by (vm_compute; lia).
  split; [exact stable_argsort_sorts|]. split; [exact stable_argsort_stable|].
  split; [exact H|]. split; [exact Hwf|]. split; [exact Hj|].
  destruct (proj1 (latest_revision_by_string stable_argsort stable_argsort_sorts)
              _ _ _ _ _ _ H Hwf 0%nat Hj)
    as (r & Hr & Hw & Hd & Hmax & Hlast).
  exists r. repeat split; try assumption.
  exact (Hlast stable_argsort_stable).
Defined.

(** With NumPy's default sorting routine the tie is not broken by input
    order: of eighteen forecasts for one window, records 0 and 5 carry the
    same, latest, publish time, and the forecast kept is that of record 0. *)
Lemma tie_keeps_earlier_record :
  Npy.argsort
    ("2024-01-01T10:05:00Z" :: repeat "2024-01-01T10:00:00Z" 4
       ++ "2024-01-01T10:05:00Z" :: repeat "2024-01-01T10:00:00Z" 12)%list
    = [8; 15; 14; 13; 12; 11; 10; 9; 17; 7; 6; 4; 3; 2; 1; 16; 5; 0]%nat /\
  exists pivot area merge s',
    process_data Npy.argsort (mkFrames scenario_fuel ties_tsdf)
      = (Ok (pivot, area, merge), s') /\
    df_len merge = 1%nat /\
    cell (tsdf_df s') "LocalHalfHour" 0 = cell merge "LocalHalfHour" 0 /\
    cell (tsdf_df s') "LocalHalfHour" 5 = cell merge "LocalHalfHour" 0 /\
    str (cell (tsdf_df s') "PublishTime" 0) = str (cell (tsdf_df s') "PublishTime" 5) /\
    (forall r, (r < 18)%nat ->
       String.leb (str (cell (tsdf_df s') "PublishTime" r))
                  (str (cell (tsdf_df s') "PublishTime" 5)) = true) /\
    cell merge "DemandForecast" 0 = cell (tsdf_df s') "demand" 0 /\
    cell merge "DemandForecast" 0 <> cell (tsdf_df s') "demand" 5.
Proof.
  split; [vm_compute; reflexivity|].
  eexists _, _, _, _. split; [vm_compute; reflexivity|].
  split; [reflexivity|]. split; [reflexivity|]. split; [reflexivity|].
  split; [reflexivity|]. split.
  - intros r Hr. do 18 (destruct r as [|r]; [reflexivity|]). lia.
  - split; [reflexivity|]. vm_compute. discriminate.
Qed.

(** ** End to end *)

(** C9. Gas 100, wind 50 and nuclear 0 at one interval against a forecast
    of 140 for the half hour: TotalGeneration is 150, CarbonIntensity is
    (100*329.4 + 50*0 + 0*0)/150 = 219.6, SupplyMinusDemand is 10. *)
Theorem end_to_end_scenario argsort :
  sorts argsort ->
  exists pivot area merge s',
    process_data argsort (mkFrames scenario_fuel scenario_tsdf)
      = (Ok (pivot, area, merge), s') /\
    df_len pivot = 1%nat /\
    cell pivot "Gas" 0 = VNum 100 /\
    cell pivot "Wind" 0 = VNum 50 /\
    cell pivot "Nuclear" 0 = VNum 0 /\
    cell pivot "TotalGeneration" 0 = VNum 150 /\
    (exists ci,
       cell pivot "CarbonIntensity" 0 = VNum ci /\
       (ci == (100 * (3294 # 10) + 50 * 0 + 0 * 0) / 150)%Q /\
       (ci == 2196 # 10)%Q) /\
    df_len merge = 1%nat /\
    cell merge "TotalGeneration" 0 = VNum 150 /\
    cell merge "DemandForecast" 0 = VNum 140 /\
    cell merge "SupplyMinusDemand" 0 = VNum 10.
Proof.
  intros Hs.
  pose proof (sorts_one argsort "2024-01-01T09:00:00Z" Hs) as Hsort.
  eexists _, _, _, _. split.
  - vm_compute. rewrite Hsort. vm_compute. reflexivity.
  - repeat split; try reflexivity.
    eexists. split; [reflexivity|]. split; reflexivity.
Qed.

Lemma end_to_end_scenario_witness :
  sorts stable_argsort /\
  exists pivot area merge s',
    process_data stable_argsort (mkFrames scenario_fuel scenario_tsdf)
      = (Ok (pivot, area, merge), s') /\
    df_len pivot = 1%nat /\
    cell pivot "Gas" 0 = VNum 100 /\
    cell pivot "Wind" 0 = VNum 50 /\
    cell pivot "Nuclear" 0 = VNum 0 /\
    cell pivot "TotalGeneration" 0 = VNum 150 /\
    (exists ci,
       cell pivot "CarbonIntensity" 0 = VNum ci /\
       (ci == (100 * (3294 # 10) + 50 * 0 + 0 * 0) / 150)%Q /\
       (ci == 2196 # 10)%Q) /\
    df_len merge = 1%nat /\
    cell merge "TotalGeneration" 0 = VNum 150 /\
    cell merge "DemandForecast" 0 = VNum 140 /\
    cell merge "SupplyMinusDemand" 0 = VNum 10.
Proof.
  split; [exact stable_argsort_sorts|].
  exact (end_to_end_scenario stable_argsort stable_argsort_sorts).
Defined.

(** ** What a run does to the frames it is given *)

Lemma to_datetime_utc_cells c c' :
  to_datetime_utc c = Ok c' ->
  List.length c' = List.length c /\
  Forall (fun v => exists t, v = VTime t UTC) c'.
Proof.
  intros H. split; [exact (mapM_length _ _ _ H)|].
  apply mapM_Forall2 in H. induction H as [|a b c c' Hab _ IH]; constructor;
    [|exact IH].
  destruct a; simpl in Hab; try discriminate.
  - destruct (parse_iso8601 s); [|discriminate]. apply Ok_inj in Hab. subst.
    now eexists.
  - apply Ok_inj in Hab. subst. now eexists.
Qed.

(** The frames after a successful run. *)
Lemma process_data_frames argsort f t pivot area merge s' :
  process_data argsort (mkFrames f t) = (Ok (pivot, area, merge), s') ->
  exists st ts lt gc ft hh tst tts tlt thh,
    getitem f "StartTime" = Ok st /\
    to_datetime_utc st = Ok ts /\
    getitem f "FuelType" = Ok ft /\
    getitem t "StartTime" = Ok tst /\
    to_datetime_utc tst = Ok tts /\
    s' = mkFrames
           (setitem (setitem (setitem (setitem (setitem f "StartTime" ts)
                                               "LocalTime" lt)
                                      "Generation_clipped" gc)
                             "Category" (apply_categorise ft))
                    "LocalHalfHour" hh)
           (setitem (setitem (setitem t "StartTime" tts) "LocalTime" tlt)
                    "LocalHalfHour" thh).
Proof.
  intros H. run_steps H. simpl_getitem.
  injection H as _ _ _ <-.
  exists a, a0, a2, a4, a5, a15, a17, a18, a20, a22.
  repeat split; assumption.
Qed.

Lemma not_In_eqb (c : string) (l : list string) :
  ~ In c l -> Forall (fun n => String.eqb c n = false) l.
Proof.
  intros H. rewrite Forall_forall. intros n Hn.
  apply String.eqb_neq. intros ->. contradiction.
Qed.

(** C1, as the code has it.  A successful run works on the caller's two
    frames in place: in the generation frame it overwrites StartTime with
    UTC timestamps and sets LocalTime, Generation_clipped, Category and
    LocalHalfHour; in the demand frame it overwrites StartTime and sets
    LocalTime and LocalHalfHour.  The row index and every other column of
    both frames are left as they were. *)
Theorem process_data_writes_columns argsort f t pivot area merge s' :
  process_data argsort (mkFrames f t) = (Ok (pivot, area, merge), s') ->
  df_index (fuel_df s') = df_index f /\
  df_index_name (fuel_df s') = df_index_name f /\
  df_index (tsdf_df s') = df_index t /\
  df_index_name (tsdf_df s') = df_index_name t /\
  (forall c, ~ In c fuel_columns_written ->
             getitem (fuel_df s') c = getitem f c) /\
  (forall c, ~ In c tsdf_columns_written ->
             getitem (tsdf_df s') c = getitem t c) /\
  (forall c, In c fuel_columns_written -> has_column (fuel_df s') c = true) /\
  (forall c, In c tsdf_columns_written -> has_column (tsdf_df s') c = true) /\
  (exists ts, getitem (fuel_df s') "StartTime" = Ok ts /\
              Forall (fun v => exists x, v = VTime x UTC) ts) /\
  (exists ts, getitem (tsdf_df s') "StartTime" = Ok ts /\
              Forall (fun v => exists x, v = VTime x UTC) ts).
Proof.
  intros H.
  destruct (process_data_frames _ _ _ _ _ _ _ H)
    as (st & ts & lt & gc & ft & hh & tst & tts & tlt & thh & _ & Hts & _ & _
        & Htts & ->).
  cbn [fuel_df tsdf_df].
  repeat (split; [reflexivity|]).
  split.
  { intros c Hc. apply not_In_eqb in Hc. unfold fuel_columns_written in Hc.
    repeat match goal with
           | Hf : Forall _ (_ :: _) |- _ =>
               let E := fresh "E" in
               inversion Hf as [|? ? E ?]; subst; clear Hf
           end.
    rewrite !getitem_setitem.
    repeat match goal with E : String.eqb c _ = false |- _ => rewrite E; clear E end.
    reflexivity. }
  split.
  { intros c Hc. apply not_In_eqb in Hc. unfold tsdf_columns_written in Hc.
    repeat match goal with
           | Hf : Forall _ (_ :: _) |- _ =>
               let E := fresh "E" in
               inversion Hf as [|? ? E ?]; subst; clear Hf
           end.
    rewrite !getitem_setitem.
    repeat match goal with E : String.eqb c _ = false |- _ => rewrite E; clear E end.
    reflexivity. }
  split.
  { intros c Hc. simpl in Hc. rewrite !has_column_setitem.
    repeat (destruct Hc as [<-|Hc]; [reflexivity|]). contradiction. }
  split.
  { intros c Hc. simpl in Hc. rewrite !has_column_setitem.
    repeat (destruct Hc as [<-|Hc]; [reflexivity|]). contradiction. }
  split.
  - exists ts. rewrite !getitem_setitem. cbn [String.eqb Ascii.eqb Bool.eqb].
    split; [reflexivity|]. exact (proj2 (to_datetime_utc_cells _ _ Hts)).
  - exists tts. rewrite !getitem_setitem. cbn [String.eqb Ascii.eqb Bool.eqb].
    split; [reflexivity|]. exact (proj2 (to_datetime_utc_cells _ _ Htts)).
Qed.

Lemma process_data_writes_columns_witness :
  process_data stable_argsort (mkFrames scenario_fuel scenario_tsdf)
    = (Ok (scenario_pivot, scenario_area, scenario_merge), scenario_frames) /\
  getitem (fuel_df scenario_frames) "Generation" = getitem scenario_fuel "Generation" /\
  getitem (tsdf_df scenario_frames) "demand" = getitem scenario_tsdf "demand" /\
  has_column (fuel_df scenario_frames) "Category" = true /\
  has_column (tsdf_df scenario_frames) "LocalHalfHour" = true.
Proof.
  assert (H : process_data stable_argsort (mkFrames scenario_fuel scenario_tsdf)
              = (Ok (scenario_pivot, scenario_area, scenario_merge),
                 scenario_frames)) by (vm_compute; reflexivity).
  destruct (process_data_writes_columns _ _ _ _ _ _ _ H)
    as (_ & _ & _ & _ & Hf & Ht & Hfc & Htc & _).
  split; [exact H|].
  split; [apply Hf; simpl; intros C;
          repeat (destruct C as [C|C]; [discriminate C|]); exact C|].
  split; [apply Ht; simpl; intros C;
          repeat (destruct C as [C|C]; [discriminate C|]); exact C|].
  split; [apply Hfc; simpl; tauto|apply Htc; simpl; tauto].
Defined.

(** The frames the caller passed are not what the caller gets back: after
    the run of the end-to-end scenario the generation frame has a Category
    column it did not have and timestamps where it had strings, and the
    demand frame has a LocalHalfHour column. *)
Lemma process_data_mutates_inputs :
  process_data stable_argsort (mkFrames scenario_fuel scenario_tsdf)
    = (Ok (scenario_pivot, scenario_area, scenario_merge), scenario_frames) /\
  scenario_frames <> mkFrames scenario_fuel scenario_tsdf /\
  has_column scenario_fuel "Category" = false /\
  has_column (fuel_df scenario_frames) "Category" = true /\
  cell scenario_fuel "StartTime" 0 = VStr "2024-01-01T10:05:00Z" /\
  cell (fuel_df scenario_frames) "StartTime" 0 = VTime 1704103500 UTC /\
  has_column scenario_tsdf "LocalHalfHour" = false /\
  has_column (tsdf_df scenario_frames) "LocalHalfHour" = true.
Proof.
  split; [vm_compute; reflexivity|].
  split; [intros C; apply (f_equal (fun s => has_column (fuel_df s) "Category")) in C;
          vm_compute in C; discriminate C|].
  repeat split; reflexivity.
Qed.

(** ** The fetchers *)

Lemma df_len_rename mapping df : df_len (rename_columns mapping df) = df_len df.
Proof. reflexivity. Qed.

Lemma df_len_of_records rows :
  df_len (DataFrame_of_records rows) = List.length rows.
Proof. unfold df_len. simpl. apply RangeIndex_length. Qed.

(** What each fetcher does, case by case.  It makes one request.  When the
    server cannot be reached the transport's exception goes to the caller
    and the fallback file is not looked for.  On status 200 the records of
    the payload are returned, and a payload without records fails with the
    fetcher's no-data error.  On any other status the fallback file is
    looked for: when it is absent the fetcher fails with an error that names
    the dataset and the status, and that is not the no-data error; when it
    is there it is read. *)
Theorem fetcher_contract (env : environment) (dir : string) :
  (* fetch_fuelinst_data *)
  (net env fuelinst_url = Unreachable ->
   run env (fetch_fuelinst_data dir) = (Raise ConnectionError, [EvGet fuelinst_url])) /\
  (forall body rows,
     net env fuelinst_url = Response 200 body ->
     response_data body = Ok rows ->
     (rows = [] ->
      run env (fetch_fuelinst_data dir)
        = (Raise (ValueError (no_data_message "FUELINST")), [EvGet fuelinst_url])) /\
     (rows <> [] ->
      exists df,
        run env (fetch_fuelinst_data dir) = (Ok df, [EvGet fuelinst_url]) /\
        df_len df = List.length rows /\ (0 < df_len df)%nat)) /\
  (forall status body,
     net env fuelinst_url = Response status body -> status <> 200 ->
     (files env (path_join dir "FUELINST.csv") = None ->
      run env (fetch_fuelinst_data dir)
        = (Raise (ValueError (no_fallback_message "FUELINST" status)),
           [EvGet fuelinst_url; EvExists (path_join dir "FUELINST.csv")]) /\
      no_fallback_message "FUELINST" status <> no_data_message "FUELINST") /\
     (forall f,
        files env (path_join dir "FUELINST.csv") = Some f ->
        run env (fetch_fuelinst_data dir)
          = (rbind (read_csv (Some f))
                   (fun df => Ok (rename_columns fuelinst_columns df)),
             [EvGet fuelinst_url; EvExists (path_join dir "FUELINST.csv");
              EvRead (path_join dir "FUELINST.csv")]))) /\
  (* fetch_tsdf_data *)
  (net env tsdf_url = Unreachable ->
   run env (fetch_tsdf_data dir) = (Raise ConnectionError, [EvGet tsdf_url])) /\
  (forall body rows,
     net env tsdf_url = Response 200 body ->
     response_data body = Ok rows ->
     (rows = [] ->
      run env (fetch_tsdf_data dir)
        = (Raise (ValueError (no_data_message "TSDF")), [EvGet tsdf_url])) /\
     (rows <> [] ->
      exists df,
        run env (fetch_tsdf_data dir) = (Ok df, [EvGet tsdf_url]) /\
        df_len df = List.length rows /\ (0 < df_len df)%nat)) /\
  (forall status body,
     net env tsdf_url = Response status body -> status <> 200 ->
     (files env (path_join dir "TSDF.json") = None ->
      run env (fetch_tsdf_data dir)
        = (Raise (ValueError (no_fallback_message "TSDF" status)),
           [EvGet tsdf_url; EvExists (path_join dir "TSDF.json")]) /\
      no_fallback_message "TSDF" status <> no_data_message "TSDF") /\
     (forall f,
        files env (path_join dir "TSDF.json") = Some f ->
        exists r,
          run env (fetch_tsdf_data dir)
            = (r, [EvGet tsdf_url; EvExists (path_join dir "TSDF.json");
                   EvRead (path_join dir "TSDF.json")]) /\
          (forall rows, f = JsonFile (JArray rows) \/ f = JsonFile (JObject (Some rows)) ->
             r = Ok (rename_columns tsdf_columns (DataFrame_of_records rows))))).
Proof.
  repeat split.
  - intros H. unfold fetch_fuelinst_data. cbn [run]. now rewrite H.
  - intros ->. unfold fetch_fuelinst_data. cbn [run]. rewrite H.
    cbn [Z.eqb Pos.eqb]. rewrite H0. reflexivity.
  - intros Hne. unfold fetch_fuelinst_data. cbn [run]. rewrite H.
    cbn [Z.eqb Pos.eqb]. rewrite H0. destruct rows as [|r rows]; [congruence|].
    eexists. split; [reflexivity|].
    rewrite df_len_rename, df_len_of_records. split; [reflexivity|simpl; lia].
  - unfold fetch_fuelinst_data. cbn [run]. rewrite H.
    apply Z.eqb_neq in H0. rewrite H0. cbn [run]. rewrite H1. reflexivity.
  - discriminate.
  - intros f Hf. unfold fetch_fuelinst_data. cbn [run]. rewrite H.
    apply Z.eqb_neq in H0. rewrite H0. cbn [run]. rewrite Hf. cbn [run].
    rewrite Hf. reflexivity.
  - intros H. unfold fetch_tsdf_data. cbn [run]. now rewrite H.
  - intros ->. unfold fetch_tsdf_data. cbn [run]. rewrite H.
    cbn [Z.eqb Pos.eqb]. rewrite H0. reflexivity.
  - intros Hne. unfold fetch_tsdf_data. cbn [run]. rewrite H.
    cbn [Z.eqb Pos.eqb]. rewrite H0. destruct rows as [|r rows]; [congruence|].
    eexists. split; [reflexivity|].
    rewrite df_len_rename, df_len_of_records. split; [reflexivity|simpl; lia].
  - unfold fetch_tsdf_data. cbn [run]. rewrite H.
    apply Z.eqb_neq in H0. rewrite H0. cbn [run]. rewrite H1. reflexivity.
  - discriminate.
  - intros f Hf. unfold fetch_tsdf_data. cbn [run]. rewrite H.
    apply Z.eqb_neq in H0. rewrite H0. cbn [run]. rewrite Hf. cbn [run].
    rewrite Hf. eexists. split; [reflexivity|].
    intros rows [->| ->]; reflexivity.
Qed.

Lemma fetcher_contract_witness :
  net online_env fuelinst_url = Response 200 (Some (JObject (Some [one_reading]))) /\
  (exists df,
     run online_env (fetch_fuelinst_data "/app") = (Ok df, [EvGet fuelinst_url]) /\
     df_len df = 1%nat /\ (0 < df_len df)%nat) /\
  net empty_fallback_env tsdf_url = Response 503 None /\
  run offline_env (fetch_tsdf_data "/app") = (Raise ConnectionError, [EvGet tsdf_url]).
Proof.
  destruct (fetcher_contract online_env "/app") as (_ & Hok & _).
  destruct (Hok _ [one_reading] eq_refl eq_refl) as (_ & Hrows).
  destruct (fetcher_contract offline_env "/app") as (_ & _ & _ & Hoff & _).
  split; [reflexivity|]. split; [apply Hrows; discriminate|].
  split; [reflexivity|]. apply Hoff. reflexivity.
Defined.

(** C8.  The fetchers break the retrieval contract, and their own
    documentation, at two inputs.  With the server out of reach and both
    fallback files in place, each fetcher raises the transport's exception
    after its one request and never looks at its file, where the docstring
    promises a ValueError and the comment of the fallback branch a use of the
    local file.  With the server answering 503 and fallback files without
    records, each fetcher returns a table without rows, where the branch for
    status 200 raises on a payload without records. *)
Theorem fetchers_break_contract :
  files offline_env "/app/FUELINST.csv" <> None /\
  run offline_env (fetch_fuelinst_data "/app")
    = (Raise ConnectionError, [EvGet fuelinst_url]) /\
  files offline_env "/app/TSDF.json" <> None /\
  run offline_env (fetch_tsdf_data "/app")
    = (Raise ConnectionError, [EvGet tsdf_url]) /\
  (exists df tr,
     run empty_fallback_env (fetch_fuelinst_data "/app") = (Ok df, tr) /\
     df_len df = 0%nat) /\
  (exists df tr,
     run empty_fallback_env (fetch_tsdf_data "/app") = (Ok df, tr) /\
     df_len df = 0%nat).
Proof.
  split; [discriminate|]. split; [reflexivity|].
  split; [discriminate|]. split; [reflexivity|].
  split; eexists _, _; split; reflexivity.
Qed.

(** ** Half-hour buckets *)

Lemma floor_1800_day (t : Z) : (t - t mod 1800) / 86400 = t / 86400.
Proof.
  pose proof (Z.div_mod t 1800 ltac:(lia)) as Ht.
  replace (t - t mod 1800) with (1800 * (t / 1800)) by lia.
  change 86400 with (1800 * 48).
  rewrite <- !Z.div_div by lia.
  now rewrite (Z.mul_comm 1800), Z.div_mul by lia.
Qed.

Lemma london_utcoffset_values (t : Z) :
  london_utcoffset t = 0 \/ london_utcoffset t = 3600.
Proof.
  unfold london_utcoffset. destruct (_ && _); [now right|now left].
Qed.

(** The offset does not change inside a half hour of UTC. *)
Lemma london_utcoffset_floor (t : Z) :
  london_utcoffset (t - t mod 1800) = london_utcoffset t.
Proof.
  unfold london_utcoffset. rewrite floor_1800_day.
  set (y := year_of_days (t / 86400)).
  set (a := last_sunday y 3). set (b := last_sunday y 10).
  pose proof (Z.div_mod t 1800 ltac:(lia)) as Ht.
  pose proof (Z.mod_pos_bound t 1800 ltac:(lia)) as Hr.
  destruct (Z.leb_spec (a * 86400 + 3600) (t - t mod 1800)),
           (Z.leb_spec (a * 86400 + 3600) t),
           (Z.ltb_spec (t - t mod 1800) (b * 86400 + 3600)),
           (Z.ltb_spec t (b * 86400 + 3600)); simpl; try reflexivity; lia.
Qed.

(** The two outcomes of bucketing a timestamp. *)
Lemma floor_30min_cases (t : Z) (tz : tzinfo) :
  floor_30min t tz = Ok (t - t mod 1800)
  \/ (tz = Europe_London /\ floor_30min t tz = Raise AmbiguousTimeError).
Proof.
  destruct tz.
  - left. unfold floor_30min, utcoffset, tz_localize. now rewrite Z.add_0_r.
  - unfold floor_30min, utcoffset, tz_localize.
    pose proof (london_utcoffset_floor t) as Hfl.
    pose proof (Z.div_mod t 1800 ltac:(lia)) as Ht.
    destruct (london_utcoffset_values t) as [E|E]; rewrite E in *.
    + rewrite Z.add_0_r, Hfl. cbn [Z.eqb].
      destruct (london_utcoffset (t - t mod 1800 - 3600) =? 3600);
        [right; now split|now left].
    + assert (Hw : t + 3600 - (t + 3600) mod 1800 = t - t mod 1800 + 3600).
      { replace (t + 3600) with (t + 2 * 1800) by lia.
        rewrite Z.mod_add by lia. lia. }
      rewrite Hw.
      replace (t - t mod 1800 + 3600 - 3600) with (t - t mod 1800) by lia.
      rewrite Hfl. cbn [Z.eqb Pos.eqb].
      destruct (london_utcoffset (t - t mod 1800 + 3600) =? 0);
        [right; now split|now left].
Qed.

Lemma floor_30min_value (t w : Z) (tz : tzinfo) :
  floor_30min t tz = Ok w -> w = t - t mod 1800.
Proof.
  intros Hw. destruct (floor_30min_cases t tz) as [H|[_ H]]; rewrite H in Hw;
    [now apply Ok_inj in Hw|discriminate].
Qed.



(** ** Which codes reach which category *)

Ltac split_code s :=
  match goal with
  | |- context [String.eqb s ?k] =>
      destruct (String.eqb_spec s k) as [->|?]
  end.

(** X2. The codes behind each category: only CCGT and OCGT are Gas, only
    BIOMASS is Biomass, only NUCLEAR is Nuclear, only WIND is Wind, only
    NPSHYD and PS are Hydro, exactly the ten interconnector codes are
    Imports, and everything else (COAL, OIL, OTHER and any unknown or
    differently spelled code) is Coal/Oil/Other. *)
Theorem categorise_preimages (s : string) :
  (_categorise_fuel_types s = "Gas" <-> s = "CCGT" \/ s = "OCGT") /\
  (_categorise_fuel_types s = "Biomass" <-> s = "BIOMASS") /\
  (_categorise_fuel_types s = "Nuclear" <-> s = "NUCLEAR") /\
  (_categorise_fuel_types s = "Wind" <-> s = "WIND") /\
  (_categorise_fuel_types s = "Hydro" <-> s = "NPSHYD" \/ s = "PS") /\
  (_categorise_fuel_types s = "Imports" <-> In s interconnectors) /\
  (_categorise_fuel_types s = "Coal/Oil/Other" <->
   ~ In s ["CCGT"; "OCGT"; "BIOMASS"; "NUCLEAR"; "WIND"; "NPSHYD"; "PS"]
   /\ ~ In s interconnectors).
Proof.
  unfold _categorise_fuel_types, category_map, interconnectors, str_mem.
  cbn [assoc existsb In].
  repeat (split_code s;
          [ cbn [orb];
            repeat split; intros; try discriminate;
            repeat match goal with
                   | H : _ \/ _ |- _ => destruct H
                   | H : _ /\ _ |- _ => destruct H
                   | H : False |- _ => destruct H
                   | H : _ = _ |- _ => discriminate H
                   | H : ~ _ |- _ => exfalso; apply H; clear H; tauto
                   end; auto 20;
            try (intros C; repeat (destruct C as [C|C]; [discriminate C|]);
                 exact C)
          | ]).
  cbn [orb]. repeat split; intros; try discriminate; try reflexivity;
    repeat match goal with
           | H : _ \/ _ |- _ => destruct H
           | H : False |- _ => destruct H
           | H : ?a = ?b, N : ?b <> ?a |- _ => symmetry in H; contradiction
           | H : ?a = ?b, N : ?a <> ?b |- _ => contradiction
           end;
    try (intros C; repeat (destruct C as [C|C]; [congruence|]); exact C).
Qed.

(** ** What a cell of the wide table sums *)

Lemma insert_uniq_label_In (x y : string) (l : list string) :
  In y (insert_uniq String.ltb String.eqb x l) <-> y = x \/ In y l.
Proof.
  induction l as [|a l IH]; simpl.
  - intuition.
  - destruct (String.ltb x a).
    + simpl. intuition.
    + destruct (String.eqb_spec x a).
      * subst. simpl. intuition.
      * simpl. rewrite IH. intuition.
Qed.

Lemma unique_labels_In (y : string) (l : list string) :
  In y (unique_labels l) <-> In y l.
Proof.
  unfold unique_labels, sort_uniq. induction l as [|a l IH]; simpl.
  - tauto.
  - rewrite insert_uniq_label_In, IH. intuition.
Qed.

Lemma assoc_tabulate {A} (g : string -> A) (c : string) (labels : list string) :
  assoc c (map (fun cl => (cl, g cl)) labels)
  = if str_mem c labels then Some (g c) else None.
Proof.
  unfold str_mem. induction labels as [|a labels IH]; simpl; [reflexivity|].
  destruct (String.eqb_spec c a) as [->|Hne]; [reflexivity|exact IH].
Qed.

Lemma ensure_fold_keeps (l : list string) (df : DataFrame) (c : string) :
  has_column df c = true ->
  getitem (fold_left (fun p col => if has_column p col then p
                                   else setitem_scalar p col (VNum 0%Q)) l df) c
  = getitem df c.
Proof.
  revert df. induction l as [|a l IH]; intros df Hc; simpl; [reflexivity|].
  destruct (has_column df a) eqn:Ea; [now apply IH|].
  rewrite IH.
  - unfold setitem_scalar. rewrite getitem_setitem.
    destruct (String.eqb_spec c a) as [->|Hne]; [congruence|reflexivity].
  - unfold setitem_scalar. rewrite has_column_setitem, Hc. apply orb_true_r.
Qed.

Lemma ensure_fold_getitem (l : list string) (df : DataFrame) (c : string) :
  In c l ->
  getitem (fold_left (fun p col => if has_column p col then p
                                   else setitem_scalar p col (VNum 0%Q)) l df) c
  = if has_column df c then getitem df c
    else Ok (repeat (VNum 0%Q) (df_len df)).
Proof.
  revert df. induction l as [|a l IH]; intros df Hc; simpl; [contradiction|].
  destruct (String.eqb_spec c a) as [->|Hne].
  - destruct (has_column df a) eqn:Ea.
    + now apply ensure_fold_keeps.
    + rewrite ensure_fold_keeps.
      * unfold setitem_scalar. now rewrite getitem_setitem, String.eqb_refl.
      * unfold setitem_scalar.
        now rewrite has_column_setitem, String.eqb_refl.
  - destruct Hc as [Hc|Hc]; [congruence|].
    destruct (has_column df a) eqn:Ea; [now apply IH|].
    rewrite IH by exact Hc. unfold setitem_scalar.
    rewrite has_column_setitem, getitem_setitem.
    apply String.eqb_neq in Hne. rewrite Hne. reflexivity.
Qed.

Lemma filter_obs_absent rows t c :
  ~ In c (map (fun o : obs => snd (fst o)) rows) ->
  filter (obs_in t c) rows = [].
Proof.
  induction rows as [|[[t' c'] v] rows IH]; simpl; intros Hc; [reflexivity|].
  destruct (String.eqb_spec c' c) as [->|Hne].
  - exfalso. apply Hc. now left.
  - rewrite andb_false_r. apply IH. intros Hin. apply Hc. now right.
Qed.

(** The cell of a category in the table the totals are taken from. *)
Lemma wide_cell name tz rows c i :
  In c categories ->
  (i < List.length (unique_times (map (fun o : obs => fst (fst o)) rows)))%nat ->
  cell (ensure_columns (df_fillna0 (pivot_frame name tz rows))) c i
  = VNum (sum_skipna
            (map snd
               (filter (obs_in (nth i (unique_times
                                         (map (fun o : obs => fst (fst o)) rows)) 0) c)
                       rows))).
Proof.
  intros Hc Hi. unfold cell, ensure_columns.
  rewrite (ensure_fold_getitem categories _ c Hc).
  set (ilabels := unique_times (map (fun o : obs => fst (fst o)) rows)) in *.
  set (clabels := unique_labels (map (fun o : obs => snd (fst o)) rows)).
  assert (Hcols : df_columns (df_fillna0 (pivot_frame name tz rows))
                  = map (fun cl => (cl, fillna0 (map (fun t => pivot_cell rows t cl)
                                                     ilabels))) clabels).
  { unfold df_fillna0, pivot_frame. cbn [df_columns]. now rewrite map_map. }
  unfold has_column, getitem. rewrite Hcols.
  rewrite (assoc_tabulate
             (fun cl => fillna0 (map (fun t => pivot_cell rows t cl) ilabels))).
  destruct (str_mem c clabels) eqn:E.
  - unfold fillna0. rewrite map_map.
    rewrite (nth_map_default (fun t => fillna0_cell (pivot_cell rows t c))
               ilabels i 0 VNA) by exact Hi.
    unfold fillna0_cell, pivot_cell. now destruct (filter _ rows).
  - assert (Hnot : ~ In c (map (fun o : obs => snd (fst o)) rows)).
    { intros Hin. apply unique_labels_In in Hin. fold clabels in Hin.
      apply str_mem_In in Hin. congruence. }
    rewrite (filter_obs_absent _ _ _ Hnot). cbn [map sum_skipna].
    apply nth_repeat_lt. unfold df_len, df_fillna0, pivot_frame.
    cbn [df_index]. now rewrite length_map.
Qed.

(** The readings a successful run aggregates, as they stand in the
    generation frame after the run. *)
Lemma process_data_readings argsort f t pivot area merge s' :
  process_data argsort (mkFrames f t) = (Ok (pivot, area, merge), s') ->
  exists lt cat gc ts cs vs total ci,
    getitem (fuel_df s') "LocalTime" = Ok lt /\
    as_times lt = Ok ts /\
    getitem (fuel_df s') "Category" = Ok cat /\
    as_strs cat = Ok cs /\
    getitem (fuel_df s') "Generation_clipped" = Ok gc /\
    as_nums gc = Ok vs /\
    pivot = setitem
              (setitem
                 (ensure_columns
                    (df_fillna0 (pivot_frame "LocalTime" (column_tz lt)
                                             (zip3 ts cs vs))))
                 "TotalGeneration" total)
              "CarbonIntensity" ci.
Proof.
  intros H. run_steps H. simpl_getitem.
  unfold pivot_table_sum in E6. rewrite !getitem_setitem in E6.
  cbn [String.eqb Ascii.eqb Bool.eqb rbind] in E6.
  destruct (as_times a2) as [ts|] eqn:Ets; [|discriminate]. cbn [rbind] in E6.
  destruct (as_strs (apply_categorise a5)) as [cs|] eqn:Ecs; [|discriminate].
  cbn [rbind] in E6.
  destruct (as_nums a4) as [vs|] eqn:Evs; [|discriminate]. cbn [rbind] in E6.
  apply Ok_inj in E6. subst a6.
  injection H as <- _ _ <-.
  exists a2, (apply_categorise a5), a4, ts, cs, vs, a8, a11.
  cbn [fuel_df]. rewrite !getitem_setitem. cbn [String.eqb Ascii.eqb Bool.eqb].
  repeat split; assumption.
Qed.

(** X3. The rows of the wide table are the distinct local times of the
    readings in increasing order, and the cell of a category in a row is
    the sum of the clipped generation of the readings of that category at
    that time (0 when there is none). *)
Theorem wide_cell_is_sum_of_readings argsort f t pivot area merge s' :
  process_data argsort (mkFrames f t) = (Ok (pivot, area, merge), s') ->
  exists lt cat gc ts cs vs,
    getitem (fuel_df s') "LocalTime" = Ok lt /\
    as_times lt = Ok ts /\
    getitem (fuel_df s') "Category" = Ok cat /\
    as_strs cat = Ok cs /\
    getitem (fuel_df s') "Generation_clipped" = Ok gc /\
    as_nums gc = Ok vs /\
    let readings := zip3 ts cs vs in
    let intervals := unique_times (map (fun o : obs => fst (fst o)) readings) in
    as_times (df_index pivot) = Ok intervals /\
    StronglySorted Z.lt intervals /\
    (forall x, In x intervals <-> exists c v, In (x, c, v) readings) /\
    forall i c, (i < df_len pivot)%nat -> In c categories ->
      cell pivot c i
      = VNum (sum_skipna
                (map snd (filter (obs_in (nth i intervals 0) c) readings))).
Proof.
  intros H.
  destruct (process_data_readings _ _ _ _ _ _ _ H)
    as (lt & cat & gc & ts & cs & vs & total & ci & Hlt & Hts & Hcat & Hcs
        & Hgc & Hvs & ->).
  exists lt, cat, gc, ts, cs, vs.
  repeat (split; [assumption|]). cbv zeta.
  set (readings := zip3 ts cs vs).
  set (intervals := unique_times (map (fun o : obs => fst (fst o)) readings)).
  assert (Hidx : df_index (ensure_columns
                   (df_fillna0 (pivot_frame "LocalTime" (column_tz lt) readings)))
                 = map (fun x => VTime x (column_tz lt)) intervals).
  { destruct (ensure_columns_index
                (df_fillna0 (pivot_frame "LocalTime" (column_tz lt) readings)))
      as (Hi & _). rewrite Hi. reflexivity. }
  split.
  { cbn [setitem df_index]. rewrite Hidx. apply as_times_times. }
  split; [apply unique_times_sorted|].
  split.
  { intros x. unfold intervals. rewrite unique_times_In, in_map_iff. split.
    - intros ([[x' c] v] & <- & Hin). now exists c, v.
    - intros (c & v & Hin). now exists (x, c, v). }
  intros i c Hi Hc.
  rewrite !cell_setitem.
  assert (Hne1 : String.eqb c "CarbonIntensity" = false).
  { simpl in Hc. repeat (destruct Hc as [<-|Hc]; [reflexivity|]). contradiction. }
  assert (Hne2 : String.eqb c "TotalGeneration" = false).
  { simpl in Hc. repeat (destruct Hc as [<-|Hc]; [reflexivity|]). contradiction. }
  rewrite Hne1, Hne2.
  apply wide_cell; [exact Hc|].
  unfold df_len in Hi. cbn [setitem df_index] in Hi. rewrite Hidx in Hi.
  now rewrite length_map in Hi.
Qed.

Lemma wide_cell_is_sum_of_readings_witness :
  process_data stable_argsort (mkFrames pumping_fuel revisions_tsdf)
    = (Ok (pumping_pivot, pumping_area, pumping_merge), pumping_frames) /\
  exists lt cat gc ts cs vs,
    getitem (fuel_df pumping_frames) "LocalTime" = Ok lt /\
    as_times lt = Ok ts /\
    getitem (fuel_df pumping_frames) "Category" = Ok cat /\
    as_strs cat = Ok cs /\
    getitem (fuel_df pumping_frames) "Generation_clipped" = Ok gc /\
    as_nums gc = Ok vs /\
    let readings := zip3 ts cs vs in
    let intervals := unique_times (map (fun o : obs => fst (fst o)) readings) in
    as_times (df_index pumping_pivot) = Ok intervals /\
    StronglySorted Z.lt intervals /\
    (forall x, In x intervals <-> exists c v, In (x, c, v) readings) /\
    forall i c, (i < df_len pumping_pivot)%nat -> In c categories ->
      cell pumping_pivot c i
      = VNum (sum_skipna
                (map snd (filter (obs_in (nth i intervals 0) c) readings))).
Proof.
  assert (H : process_data stable_argsort (mkFrames pumping_fuel revisions_tsdf)
              = (Ok (pumping_pivot, pumping_area, pumping_merge),
                 pumping_frames)) by (vm_compute; reflexivity).
  split; [exact H|].
  exact (wide_cell_is_sum_of_readings _ _ _ _ _ _ _ H).
Defined.

(** ** The totals and the emptiness of the reconciliation table *)

(** X4. For a sorting routine and a well-formed demand table, the
    TotalGeneration of a reconciliation row is the sum of the clipped
    generation of all the readings whose half hour is the row's window. *)
Theorem window_total_is_bucket_sum argsort f t pivot area merge s' :
  process_data argsort (mkFrames f t) = (Ok (pivot, area, merge), s') ->
  sorts argsort -> wf_frame t ->
  exists hh gc gks gvs,
    getitem (fuel_df s') "LocalHalfHour" = Ok hh /\
    as_times hh = Ok gks /\
    getitem (fuel_df s') "Generation_clipped" = Ok gc /\
    as_nums gc = Ok gvs /\
    forall j, (j < df_len merge)%nat ->
      exists w,
        cell merge "LocalHalfHour" j = VTime w Europe_London /\
        In w gks /\
        cell merge "TotalGeneration" j = VNum (group_sum w gks gvs).
Proof.
  intros H Hs Hwf.
  destruct (reconciliation_rows _ _ _ _ _ _ _ H Hs Hwf)
    as (gc & gks & gvs & ws & pks & dcol & smd & rows & HF & HG & Hgvs & _ & _
        & _ & _ & _ & _ & _ & _ & Hin & _ & -> & _).
  exists (times Europe_London gks), gc, gks, gvs.
  split; [exact HF|]. split; [apply as_times_times|].
  split; [exact HG|]. split; [exact Hgvs|].
  intros j Hj. unfold df_len in Hj. cbn [df_index] in Hj.
  rewrite RangeIndex_length in Hj.
  exists (snd (nth j rows (0%nat, 0))).
  unfold cell, getitem. cbn [df_columns assoc String.eqb Ascii.eqb Bool.eqb].
  unfold times.
  rewrite (nth_map_default (fun x => VTime x Europe_London) (map snd rows) j 0 VNA)
    by (now rewrite length_map).
  rewrite (nth_map_default snd rows j (0%nat, 0) 0) by exact Hj.
  rewrite (nth_map_default (fun rw : nat * Z => VNum (group_sum (snd rw) gks gvs))
             rows j (0%nat, 0) VNA) by exact Hj.
  split; [reflexivity|]. split; [|reflexivity].
  apply (Hin (snd (nth j rows (0%nat, 0)))).
  apply in_map. now apply nth_In.
Qed.

Lemma window_total_is_bucket_sum_witness :
  process_data stable_argsort (mkFrames pumping_fuel revisions_tsdf)
    = (Ok (pumping_pivot, pumping_area, pumping_merge), pumping_frames) /\
  sorts stable_argsort /\ wf_frame revisions_tsdf /\
  exists hh gc gks gvs,
    getitem (fuel_df pumping_frames) "LocalHalfHour" = Ok hh /\
    as_times hh = Ok gks /\
    getitem (fuel_df pumping_frames) "Generation_clipped" = Ok gc /\
    as_nums gc = Ok gvs /\
    forall j, (j < df_len pumping_merge)%nat ->
      exists w,
        cell pumping_merge "LocalHalfHour" j = VTime w Europe_London /\
        In w gks /\
        cell pumping_merge "TotalGeneration" j = VNum (group_sum w gks gvs).
Proof.
  assert (H : process_data stable_argsort (mkFrames pumping_fuel revisions_tsdf)
              = (Ok (pumping_pivot, pumping_area, pumping_merge),
                 pumping_frames)) by (vm_compute; reflexivity).
  assert (Hwf : wf_frame revisions_tsdf)
    by (repeat constructor).
  split; [exact H|]. split; [exact stable_argsort_sorts|]. split; [exact Hwf|].
  exact (window_total_is_bucket_sum _ _ _ _ _ _ _ H stable_argsort_sorts Hwf).
Defined.

(** X5. For a sorting routine and a well-formed demand table, the
    reconciliation table has no row exactly when no half hour of the demand
    records is the half hour of a generation reading; it has at most one row
    per demand record. *)
Theorem reconciliation_empty_iff argsort f t pivot area merge s' :
  process_data argsort (mkFrames f t) = (Ok (pivot, area, merge), s') ->
  sorts argsort -> wf_frame t ->
  exists fw tw,
    getitem (fuel_df s') "LocalHalfHour" = Ok fw /\
    getitem (tsdf_df s') "LocalHalfHour" = Ok tw /\
    (df_len merge = 0%nat <-> forall v, In v tw -> ~ In v fw) /\
    (df_len merge <= df_len t)%nat /\
    Forall (fun kc => List.length (snd kc) = df_len merge) (df_columns merge).
Proof.
  intros H Hs Hwf.
  destruct (reconciliation_rows _ _ _ _ _ _ _ H Hs Hwf)
    as (gc & gks & gvs & ws & pks & dcol & smd & rows & HF & _ & _ & _ & HT
        & _ & _ & Lws & _ & _ & Hnd & Hin & Hrows & -> & Hsub).
  exists (times Europe_London gks), (times Europe_London ws).
  split; [exact HF|]. split; [exact HT|].
  unfold df_len at 1 2 4. cbn [df_index df_columns].
  rewrite RangeIndex_length.
  split; [|split].
  - split.
    + intros L v Hv Hf.
      destruct (times_In_inv _ _ _ Hv) as (w & -> & Hw).
      apply times_In in Hf.
      assert (Hm : In w (map snd rows)) by (apply Hin; now split).
      destruct rows; [exact Hm|discriminate L].
    + intros Hno. destruct rows as [|[r w] rows]; [reflexivity|exfalso].
      assert (Hw : In w ws /\ In w gks) by (apply Hin; now left).
      apply (Hno (VTime w Europe_London)); apply times_In; tauto.
  - rewrite <- Lws, <- (length_map snd rows).
    apply NoDup_incl_length; [exact Hnd|].
    intros w Hw. now apply Hin.
  - pose proof (map2M_length _ _ _ _ Hsub) as Ls. rewrite !length_map in Ls.
    repeat constructor; cbn [snd]; unfold times; rewrite ?length_map;
      try reflexivity. rewrite Ls. apply Nat.min_id.
Qed.

Lemma reconciliation_empty_iff_witness :
  process_data stable_argsort (mkFrames pumping_fuel revisions_tsdf)
    = (Ok (pumping_pivot, pumping_area, pumping_merge), pumping_frames) /\
  sorts stable_argsort /\ wf_frame revisions_tsdf /\
  exists fw tw,
    getitem (fuel_df pumping_frames) "LocalHalfHour" = Ok fw /\
    getitem (tsdf_df pumping_frames) "LocalHalfHour" = Ok tw /\
    (df_len pumping_merge = 0%nat <-> forall v, In v tw -> ~ In v fw) /\
    (df_len pumping_merge <= df_len revisions_tsdf)%nat /\
    Forall (fun kc => List.length (snd kc) = df_len pumping_merge)
           (df_columns pumping_merge).
Proof.
  assert (H : process_data stable_argsort (mkFrames pumping_fuel revisions_tsdf)
              = (Ok (pumping_pivot, pumping_area, pumping_merge),
                 pumping_frames)) by (vm_compute; reflexivity).
  assert (Hwf : wf_frame revisions_tsdf)
    by (repeat constructor).
  split; [exact H|]. split; [exact stable_argsort_sorts|]. split; [exact Hwf|].
  exact (reconciliation_empty_iff _ _ _ _ _ _ _ H stable_argsort_sorts Hwf).
Defined.

(** ** What the sorting routine can change *)

Ltac same_step :=
  match goal with
  | E : Ok ?a = Ok ?b |- _ => apply Ok_inj in E; first [subst b | subst a]
  | E1 : ?X = Ok ?a, E2 : ?X = Ok ?b |- _ => rewrite E1 in E2
  end.

(** X6. The sorting routine matters to the reconciliation table only: two
    successful runs on the same frames with different routines give the same
    wide table, the same long table and leave the same two frames. *)
Theorem sorting_routine_only_affects_reconciliation
  argsort1 argsort2 f t pivot1 area1 merge1 s1 pivot2 area2 merge2 s2 :
  process_data argsort1 (mkFrames f t) = (Ok (pivot1, area1, merge1), s1) ->
  process_data argsort2 (mkFrames f t) = (Ok (pivot2, area2, merge2), s2) ->
  pivot1 = pivot2 /\ area1 = area2 /\ s1 = s2.
Proof.
  intros H1 H2. run_steps H1. run_steps H2.
  repeat same_step.
  injection H1 as <- <- _ <-. injection H2 as <- <- _ <-.
  repeat split.
Qed.

Lemma sorting_routine_only_affects_reconciliation_witness :
  exists pivot1 area1 merge1 s1 pivot2 area2 merge2 s2,
    process_data stable_argsort (mkFrames scenario_fuel ties_tsdf)
      = (Ok (pivot1, area1, merge1), s1) /\
    process_data Npy.argsort (mkFrames scenario_fuel ties_tsdf)
      = (Ok (pivot2, area2, merge2), s2) /\
    (pivot1 = pivot2 /\ area1 = area2 /\ s1 = s2) /\
    merge1 <> merge2.
Proof.
  pose (r1 := process_data stable_argsort (mkFrames scenario_fuel ties_tsdf)).
  pose (r2 := process_data Npy.argsort (mkFrames scenario_fuel ties_tsdf)).
  exists (fst (fst (outputs_of r1))), (snd (fst (outputs_of r1))),
         (snd (outputs_of r1)), (snd r1),
         (fst (fst (outputs_of r2))), (snd (fst (outputs_of r2))),
         (snd (outputs_of r2)), (snd r2).
  assert (H1 : process_data stable_argsort (mkFrames scenario_fuel ties_tsdf)
               = (Ok (fst (fst (outputs_of r1)), snd (fst (outputs_of r1)),
                      snd (outputs_of r1)), snd r1))
    by (vm_compute; reflexivity).
  assert (H2 : process_data Npy.argsort (mkFrames scenario_fuel ties_tsdf)
               = (Ok (fst (fst (outputs_of r2)), snd (fst (outputs_of r2)),
                      snd (outputs_of r2)), snd r2))
    by (vm_compute; reflexivity).
  split; [exact H1|]. split; [exact H2|].
  split.
  - exact (sorting_routine_only_affects_reconciliation _ _ _ _ _ _ _ _ _ _ _ _
             H1 H2).
  - vm_compute. discriminate.
Defined.

(** ** Runs that raise *)

Ltac other_columns_kept :=
  let c := fresh "c" in
  let Hc := fresh "Hc" in
  intros c Hc; apply not_In_eqb in Hc;
  unfold fuel_columns_written, tsdf_columns_written in Hc;
  repeat match goal with
         | Hf : Forall _ (_ :: _) |- _ =>
             let E := fresh "E" in
             inversion Hf as [|? ? E ?]; subst; clear Hf
         end;
  rewrite ?getitem_setitem;
  repeat match goal with E : String.eqb c _ = false |- _ => rewrite E; clear E end;
  reflexivity.

Ltac written_so_far :=
  let Hne := fresh "Hne" in
  let c := fresh "c" in
  let Hc := fresh "Hc" in
  intros Hne;
  first [ exfalso; apply Hne; reflexivity
        | intros c Hc; simpl in Hc; rewrite !has_column_setitem;
          repeat (destruct Hc as [<-|Hc]; [reflexivity|]); contradiction ].

Ltac raised_here H :=
  apply pair_equal_spec in H; destruct H as [_ <-]; cbn [fuel_df tsdf_df];
  do 6 (split; [first [reflexivity | other_columns_kept]|]);
  written_so_far.

Ltac raise_step H :=
  match type of H with
  | (match ?X with Ok _ => _ | Raise _ => _ end) = (Raise _, _) =>
      let E := fresh "E" in
      destruct X eqn:E; cbv beta iota zeta in H; [ | raised_here H ]
  end.

(** X7. A run that raises is not rolled back, but what it leaves behind is
    bounded: the row index and every column outside the five (generation)
    and three (demand) the run writes are as they were, and the demand frame
    is touched only once the generation frame has all its five columns. *)
Theorem raising_run_leaves_other_columns argsort f t e s' :
  process_data argsort (mkFrames f t) = (Raise e, s') ->
  df_index (fuel_df s') = df_index f /\
  df_index_name (fuel_df s') = df_index_name f /\
  df_index (tsdf_df s') = df_index t /\
  df_index_name (tsdf_df s') = df_index_name t /\
  (forall c, ~ In c fuel_columns_written ->
             getitem (fuel_df s') c = getitem f c) /\
  (forall c, ~ In c tsdf_columns_written ->
             getitem (tsdf_df s') c = getitem t c) /\
  (tsdf_df s' <> t ->
   forall c, In c fuel_columns_written -> has_column (fuel_df s') c = true).
Proof.
  intros H.
  cbv beta iota zeta delta
    [process_data bind lift fuel_get fuel_set tsdf_get tsdf_set
     get_fuel get_tsdf ret fuel_df tsdf_df] in H.
  repeat raise_step H.
  discriminate H.
Qed.

Lemma raising_run_leaves_other_columns_witness :
  exists s',
    process_data stable_argsort (mkFrames scenario_fuel no_demand_tsdf)
      = (Raise (KeyError "demand"), s') /\
    (df_index (fuel_df s') = df_index scenario_fuel /\
     df_index_name (fuel_df s') = df_index_name scenario_fuel /\
     df_index (tsdf_df s') = df_index no_demand_tsdf /\
     df_index_name (tsdf_df s') = df_index_name no_demand_tsdf /\
     (forall c, ~ In c fuel_columns_written ->
                getitem (fuel_df s') c = getitem scenario_fuel c) /\
     (forall c, ~ In c tsdf_columns_written ->
                getitem (tsdf_df s') c = getitem no_demand_tsdf c) /\
     (tsdf_df s' <> no_demand_tsdf ->
      forall c, In c fuel_columns_written -> has_column (fuel_df s') c = true)) /\
    tsdf_df s' <> no_demand_tsdf /\
    has_column (tsdf_df s') "LocalHalfHour" = true.
Proof.
  exists (snd (process_data stable_argsort
                 (mkFrames scenario_fuel no_demand_tsdf))).
  assert (H : process_data stable_argsort (mkFrames scenario_fuel no_demand_tsdf)
              = (Raise (KeyError "demand"),
                 snd (process_data stable_argsort
                        (mkFrames scenario_fuel no_demand_tsdf))))
    by (vm_compute; reflexivity).
  split; [exact H|]. split.
  - exact (raising_run_leaves_other_columns _ _ _ _ _ H).
  - split; [vm_compute; discriminate|vm_compute; reflexivity].
Defined.

(** ** Running the pipeline again on the frames it has rewritten *)

Lemma assoc_set_same {A} (k : string) (v : A) (l : list (string * A)) :
  assoc k l = Some v -> assoc_set k v l = l.
Proof.
  induction l as [|[k' v'] l IH]; simpl; [discriminate|].
  destruct (String.eqb_spec k k') as [->|Hne].
  - now intros [= ->].
  - intros H. now rewrite IH.
Qed.

Lemma setitem_same (df : DataFrame) (n : string) (c : column) :
  getitem df n = Ok c -> setitem df n c = df.
Proof.
  unfold getitem, setitem. destruct df as [nm idx cols]. cbn [df_columns df_index df_index_name].
  destruct (assoc n cols) as [c'|] eqn:E; [|discriminate].
  intros H. apply Ok_inj in H. subst c'. now rewrite assoc_set_same.
Qed.

Lemma to_datetime_utc_again (c c' : column) :
  to_datetime_utc c = Ok c' -> to_datetime_utc c' = Ok c'.
Proof.
  intros H. destruct (to_datetime_utc_cells _ _ H) as (_ & Hc).
  clear H. unfold to_datetime_utc. induction Hc as [|v l (x & ->) Hl IH].
  - reflexivity.
  - cbn [mapM to_datetime_cell rbind]. cbn [mapM] in IH. rewrite IH. reflexivity.
Qed.

Lemma pivot_table_sum_setitem df n col i c v :
  String.eqb i n = false -> String.eqb c n = false -> String.eqb v n = false ->
  pivot_table_sum (setitem df n col) i c v = pivot_table_sum df i c v.
Proof.
  intros Hi Hc Hv. unfold pivot_table_sum.
  now rewrite !getitem_setitem, Hi, Hc, Hv.
Qed.

(** X8. Running the pipeline a second time, on the two frames as a
    successful first run left them, succeeds, returns the same three tables
    and changes the frames no further. *)
Theorem process_data_rerun argsort f t pivot area merge s' :
  process_data argsort (mkFrames f t) = (Ok (pivot, area, merge), s') ->
  process_data argsort s' = (Ok (pivot, area, merge), s').
Proof.
  intros H. run_steps H. simpl_getitem.
  repeat match goal with
         | E : Ok ?a = Ok ?b |- _ => apply Ok_inj in E; subst b
         end.
  apply pair_equal_spec in H. destruct H as [Hout <-].
  apply Ok_inj in Hout. rewrite <- Hout.
  apply to_datetime_utc_again in E0. apply to_datetime_utc_again in E18.
  rewrite <- (pivot_table_sum_setitem _ "LocalHalfHour" a15) in E6
    by reflexivity.
  set (F := setitem _ "LocalHalfHour" a15) in *.
  set (T := setitem _ "LocalHalfHour" a22) in *.
  assert (F_ST : getitem F "StartTime" = Ok a0)
    by (unfold F; rewrite !getitem_setitem; reflexivity).
  assert (F_LT : getitem F "LocalTime" = Ok a2)
    by (unfold F; rewrite !getitem_setitem; reflexivity).
  assert (F_G : getitem F "Generation" = Ok a3)
    by (unfold F; rewrite !getitem_setitem; exact E3).
  assert (F_GC : getitem F "Generation_clipped" = Ok a4)
    by (unfold F; rewrite !getitem_setitem; reflexivity).
  assert (F_FT : getitem F "FuelType" = Ok a5)
    by (unfold F; rewrite !getitem_setitem; exact E5).
  assert (F_C : getitem F "Category" = Ok (apply_categorise a5))
    by (unfold F; rewrite !getitem_setitem; reflexivity).
  assert (F_HH : getitem F "LocalHalfHour" = Ok a15)
    by (unfold F; rewrite !getitem_setitem; reflexivity).
  assert (T_ST : getitem T "StartTime" = Ok a18)
    by (unfold T; rewrite !getitem_setitem; reflexivity).
  assert (T_LT : getitem T "LocalTime" = Ok a20)
    by (unfold T; rewrite !getitem_setitem; reflexivity).
  assert (T_HH : getitem T "LocalHalfHour" = Ok a22)
    by (unfold T; rewrite !getitem_setitem; reflexivity).
  pose proof (setitem_same _ _ _ F_ST) as S1.
  pose proof (setitem_same _ _ _ F_LT) as S2.
  pose proof (setitem_same _ _ _ F_GC) as S3.
  pose proof (setitem_same _ _ _ F_C) as S4.
  pose proof (setitem_same _ _ _ F_HH) as S5.
  pose proof (setitem_same _ _ _ T_ST) as S6.
  pose proof (setitem_same _ _ _ T_LT) as S7.
  pose proof (setitem_same _ _ _ T_HH) as S8.
  clearbody F T.
  cbv beta iota zeta delta
    [process_data bind lift fuel_get fuel_set tsdf_get tsdf_set
     get_fuel get_tsdf ret fuel_df tsdf_df].
  rewrite F_ST. cbv beta iota zeta. rewrite E0. cbv beta iota zeta.
  rewrite S1, F_ST. cbv beta iota zeta. rewrite E2. cbv beta iota zeta.
  rewrite S2, F_G. cbv beta iota zeta. rewrite E4. cbv beta iota zeta.
  rewrite S3, F_FT. cbv beta iota zeta.
  rewrite S4, E6. cbv beta iota zeta.
  rewrite E7. cbv beta iota zeta. rewrite E8. cbv beta iota zeta.
  rewrite E9. cbv beta iota zeta.
  rewrite getitem_setitem. cbn [String.eqb Ascii.eqb Bool.eqb]. cbv beta iota zeta.
  rewrite E11. cbv beta iota zeta. rewrite E12. cbv beta iota zeta.
  rewrite E13. cbv beta iota zeta.
  rewrite F_LT. cbv beta iota zeta. rewrite E15. cbv beta iota zeta.
  rewrite S5, E16. cbv beta iota zeta.
  rewrite T_ST. cbv beta iota zeta. rewrite E18. cbv beta iota zeta.
  rewrite S6, T_ST. cbv beta iota zeta. rewrite E20. cbv beta iota zeta.
  rewrite S7, T_LT. cbv beta iota zeta. rewrite E22. cbv beta iota zeta.
  rewrite S8, E23. cbv beta iota zeta.
  rewrite E24. cbv beta iota zeta. rewrite E25. cbv beta iota zeta.
  rewrite E26. cbv beta iota zeta. rewrite E27. cbv beta iota zeta.
  rewrite E28. cbv beta iota zeta. rewrite E29. cbv beta iota zeta.
  reflexivity.
Qed.

Lemma process_data_rerun_witness :
  process_data stable_argsort (mkFrames scenario_fuel scenario_tsdf)
    = (Ok (scenario_pivot, scenario_area, scenario_merge), scenario_frames) /\
  process_data stable_argsort scenario_frames
    = (Ok (scenario_pivot, scenario_area, scenario_merge), scenario_frames).
Proof.
  assert (H : process_data stable_argsort (mkFrames scenario_fuel scenario_tsdf)
              = (Ok (scenario_pivot, scenario_area, scenario_merge),
                 scenario_frames)) by (vm_compute; reflexivity).
  split; [exact H|].
  exact (process_data_rerun _ _ _ _ _ _ _ H).
Defined.

(** ** The dashboard *)

Lemma series_div_numeric (a b c : column) :
  series_div a b = Ok c -> exists vs, as_nums c = Ok vs.
Proof.
  unfold series_div, as_nums. revert b c.
  induction a as [|x a IH]; intros [|y b] c H; simpl in H;
    try (apply Ok_inj in H; subst c; now exists []).
  destruct (value_div x y) as [z|] eqn:Ez; [|discriminate]. cbn [rbind] in H.
  destruct (map2M value_div a b) as [c'|] eqn:Ec; [|discriminate].
  cbn [rbind] in H. apply Ok_inj in H. subst c.
  destruct (IH _ _ Ec) as (vs & Hvs).
  assert (Hz : exists o, as_num z = Ok o).
  { destruct x, y; simpl in Ez; try discriminate;
      try (apply Ok_inj in Ez; subst z; now eexists).
    destruct (Qeq_bool q0 0); [discriminate|].
    apply Ok_inj in Ez. subst z. now eexists. }
  destruct Hz as (o & Ho). exists (o :: vs).
  cbn [mapM rbind]. rewrite Ho. cbn [rbind]. rewrite Hvs. reflexivity.
Qed.

Lemma max_skipna_from (l : list (option Q)) (acc : option Q) :
  match fold_left (fun acc v =>
                     match acc, v with
                     | _, None => acc
                     | None, Some q => Some q
                     | Some m, Some q => Some (Qmax m q)
                     end) l acc with
  | Some m =>
      (acc = Some m \/ In (Some m) l) /\
      (forall q, acc = Some q \/ In (Some q) l -> (q <= m)%Q)
  | None => acc = None /\ forall q, ~ In (Some q) l
  end.
Proof.
  revert acc. induction l as [|v l IH]; intros acc; cbn [fold_left].
  - destruct acc as [m|].
    + split; [now left|]. intros q [[= ->]|[]]. apply Qle_refl.
    + split; [reflexivity|]. intros q [].
  - specialize (IH (match acc, v with
                    | _, None => acc
                    | None, Some q => Some q
                    | Some m, Some q => Some (Qmax m q)
                    end)).
    destruct (fold_left _ l _) as [m|].
    + destruct IH as (Hin & Hmax). split.
      * destruct Hin as [Hacc|Hin]; [|right; now right].
        destruct acc as [a|], v as [q|]; try (left; exact Hacc);
          try discriminate.
        -- injection Hacc as <-.
           unfold Qmax, GenericMinMax.gmax.
           destruct (a ?= q)%Q; [now left|right; now left|now left].
        -- right. left. exact Hacc.
      * intros q [Hq|[Hq|Hq]].
        -- subst acc. destruct v as [q'|].
           ++ apply Qle_trans with (Qmax q q'); [apply Q.le_max_l|].
              apply Hmax. now left.
           ++ apply Hmax. now left.
        -- subst v. destruct acc as [a|].
           ++ apply Qle_trans with (Qmax a q); [apply Q.le_max_r|].
              apply Hmax. now left.
           ++ apply Hmax. now left.
        -- apply Hmax. now right.
    + destruct IH as (Hacc & Hno).
      destruct acc as [a|], v as [q|]; try discriminate.
      split; [reflexivity|]. intros q [Hq|Hq]; [discriminate|]. now apply (Hno q).
Qed.

(** The greatest cell is one of the cells and bounds them all; there is none
    exactly when every cell is NA. *)
Lemma max_skipna_spec (l : list (option Q)) :
  match max_skipna l with
  | Some m => In (Some m) l /\ forall q, In (Some q) l -> (q <= m)%Q
  | None => forall q, ~ In (Some q) l
  end.
Proof.
  unfold max_skipna. pose proof (max_skipna_from l None) as H.
  destruct (fold_left _ l None) as [m|].
  - destruct H as ([H|H] & Hmax); [discriminate|]. split; [exact H|].
    intros q Hq. apply Hmax. now right.
  - exact (proj2 H).
Qed.

Lemma fold_assoc_set_one {A} (k : string) (v : A) (l : list (string * A)) :
  assoc k (fold_left (fun l kv => assoc_set (fst kv) (snd kv) l) [(k, v)] l)
  = Some v.
Proof. cbn [fold_left fst snd]. now rewrite assoc_assoc_set, String.eqb_refl. Qed.

(** [create_dashboard] on the three tables of a successful run. *)
Lemma create_dashboard_on_outputs argsort f t pivot area merge s' :
  process_data argsort (mkFrames f t) = (Ok (pivot, area, merge), s') ->
  exists area_fig ci_fig sd_fig,
    fig_kind area_fig = AreaChart /\ fig_data area_fig = area /\
    fig_kind ci_fig = LineChart /\ fig_data ci_fig = reset_index pivot /\
    fig_kind sd_fig = LineChart /\ fig_data sd_fig = merge /\
    create_dashboard area pivot None
      = Ok (mkDash (html_Div [ html_H1 dashboard_title; html_P dashboard_text;
                          dcc_Graph area_fig; dcc_Graph ci_fig ])) /\
    create_dashboard area pivot (Some merge)
      = Ok (mkDash (html_Div ([ html_H1 dashboard_title; html_P dashboard_text;
                           dcc_Graph area_fig; dcc_Graph ci_fig ]
                         ++ if (df_len merge =? 0)%nat then []
                            else [ dcc_Graph sd_fig ]))).
Proof.
  intros H.
  destruct (process_data_long _ _ _ _ _ _ _ H)
    as (tz & keys & qG & qB & qN & qW & qH & qI & qO & _ & _ & _ & _ & _ & _
        & _ & _ & _ & Harea).
  destruct (process_data_pivot _ _ _ _ _ _ _ H)
    as (ts & cs & vs & tz' & sel & total & nm & ci & sel' & _ & _ & _ & _ & Hci
        & Hpivot & _ & _).
  destruct (process_data_merge _ _ _ _ _ _ _ H)
    as (fts & lt & hh & gc & gks & gvs & tst & tts & tlt & thh & pcol & pks
        & dcol & ws' & lk & smd & _ & _ & _ & _ & _ & _ & _ & _ & _ & _ & _ & _
        & _ & _ & _ & _ & _ & _ & Hmerge).
  cbv zeta in Harea, Hmerge. clear H.
  destruct (series_div_numeric _ _ _ Hci) as (cvs & Hcvs).
  set (p1 := ensure_columns _) in Hpivot.
  assert (Hname : df_index_name pivot = Some "LocalTime").
  { subst pivot. cbn [setitem df_index_name]. unfold p1.
    rewrite (proj2 (ensure_columns_index _)). reflexivity. }
  assert (HCI : getitem pivot "CarbonIntensity" = Ok ci).
  { subst pivot. now rewrite getitem_setitem. }
  assert (Hpx1 : exists fig, px_area area "LocalTime" "Generation" "Category"
                   "Generation Mix by Fuel Category"
                   [ ("LocalTime", time_label); ("Generation", "Generation (MW)") ]
                 = Ok fig /\ fig_kind fig = AreaChart /\ fig_data fig = area).
  { eexists. subst area. unfold px_area, px_chart, has_column.
    cbn [df_columns assoc String.eqb Ascii.eqb Bool.eqb andb].
    repeat split. }
  destruct Hpx1 as (fig1 & Hfig1 & K1 & D1).
  assert (Hpx2 : exists fig, px_line (reset_index pivot) "LocalTime" "CarbonIntensity"
                   "Estimated Carbon Intensity"
                   [ ("LocalTime", time_label);
                     ("CarbonIntensity", "Carbon Intensity (g/kWh)") ]
                 = Ok fig /\ fig_kind fig = LineChart
                 /\ fig_data fig = reset_index pivot).
  { eexists. unfold px_line, px_chart.
    assert (Hx : has_column (reset_index pivot) "LocalTime" = true).
    { unfold reset_index. rewrite Hname. reflexivity. }
    assert (Hy : has_column (reset_index pivot) "CarbonIntensity" = true).
    { unfold reset_index. rewrite Hname. unfold has_column.
      cbn [df_columns assoc String.eqb Ascii.eqb Bool.eqb].
      unfold getitem in HCI. now destruct (assoc "CarbonIntensity" (df_columns pivot)). }
    rewrite Hx, Hy. cbn [andb]. repeat split. }
  destruct Hpx2 as (fig2 & Hfig2 & K2 & D2).
  assert (Hpx3 : exists fig, px_line merge "LocalHalfHour" "SupplyMinusDemand"
                   "Supply Minus Demand (Half‑hourly)"
                   [ ("LocalHalfHour", time_label);
                     ("SupplyMinusDemand", "Supply − Demand (MW)") ]
                 = Ok fig /\ fig_kind fig = LineChart /\ fig_data fig = merge).
  { eexists. rewrite Hmerge at 1. unfold px_line, px_chart, has_column.
    cbn [df_columns assoc String.eqb Ascii.eqb Bool.eqb andb].
    rewrite <- Hmerge. repeat split. }
  destruct Hpx3 as (fig3 & Hfig3 & K3 & D3).
  assert (Hempty : df_empty merge = (df_len merge =? 0)%nat).
  { unfold df_empty. rewrite Hmerge at 2. cbn [df_columns List.length Nat.eqb].
    apply orb_false_r. }
  clear Hmerge Harea Hpivot.
  exists (update_layout fig1 [ ("legend_title_text", LText "Category") ]).
  exists (match max_skipna cvs with
          | Some m =>
              if negb (Qle_bool m 0)
              then update_layout fig2 [ ("yaxis_range", LRange 0 (m * (11 # 10))) ]
              else fig2
          | None => fig2
          end).
  exists (update_layout fig3 [ ("yaxis_title", LText "Supply − Demand (MW)");
                               ("xaxis_title", LText time_label) ]).
  split; [exact K1|]. split; [exact D1|].
  split; [destruct (max_skipna cvs) as [m|]; [destruct (negb _)|]; exact K2|].
  split; [destruct (max_skipna cvs) as [m|]; [destruct (negb _)|]; exact D2|].
  split; [exact K3|]. split; [exact D3|].
  unfold create_dashboard, series_max.
  rewrite Hfig1. cbn [rbind]. rewrite Hfig2. cbn [rbind].
  rewrite HCI. cbn [rbind]. rewrite Hcvs. cbn [rbind].
  split; [reflexivity|].
  rewrite Hempty. destruct (df_len merge =? 0)%nat; cbn [negb].
  - reflexivity.
  - rewrite Hfig3. reflexivity.
Qed.

(** X9. On the three tables of a successful run [create_dashboard] does not
    raise.  Its layout is the heading, the paragraph, the area chart of the
    long table and the line chart of the wide table; a third chart, of the
    reconciliation table, follows exactly when that table is passed and has
    at least one row. *)
Theorem dashboard_of_pipeline argsort f t pivot area merge s' :
  process_data argsort (mkFrames f t) = (Ok (pivot, area, merge), s') ->
  exists area_fig ci_fig sd_fig,
    fig_kind area_fig = AreaChart /\ fig_data area_fig = area /\
    fig_kind ci_fig = LineChart /\ fig_data ci_fig = reset_index pivot /\
    fig_kind sd_fig = LineChart /\ fig_data sd_fig = merge /\
    create_dashboard area pivot None
      = Ok (mkDash (html_Div [ html_H1 dashboard_title; html_P dashboard_text;
                          dcc_Graph area_fig; dcc_Graph ci_fig ])) /\
    create_dashboard area pivot (Some merge)
      = Ok (mkDash (html_Div ([ html_H1 dashboard_title; html_P dashboard_text;
                           dcc_Graph area_fig; dcc_Graph ci_fig ]
                         ++ if (df_len merge =? 0)%nat then []
                            else [ dcc_Graph sd_fig ]))).
Proof. exact (create_dashboard_on_outputs argsort f t pivot area merge s'). Qed.

(** X10. Whenever [create_dashboard] returns, its layout is the heading, the
    paragraph, two charts and at most one more.  The carbon-intensity chart
    is given a y-axis range exactly when some carbon intensity is positive:
    the range then runs from 0 to 1.1 times the greatest carbon intensity of
    the table; otherwise no layout property is set on the chart. *)
Theorem carbon_axis_headroom area pivot demand app :
  create_dashboard area pivot demand = Ok app ->
  exists ci vs area_fig ci_fig rest,
    getitem pivot "CarbonIntensity" = Ok ci /\
    as_nums ci = Ok vs /\
    layout app = html_Div (html_H1 dashboard_title :: html_P dashboard_text
                        :: dcc_Graph area_fig :: dcc_Graph ci_fig :: rest) /\
    (List.length rest <= 1)%nat /\
    ((forall q, In (Some q) vs -> (q <= 0)%Q) -> fig_layout ci_fig = []) /\
    (forall q, In (Some q) vs -> (0 < q)%Q ->
       exists m,
         In (Some m) vs /\ (0 < m)%Q /\
         (forall q', In (Some q') vs -> (q' <= m)%Q) /\
         fig_layout ci_fig = [ ("yaxis_range", LRange 0 (m * (11 # 10))) ]).
Proof.
  unfold create_dashboard, series_max. intros H.
  destruct (px_area area _ _ _ _ _) as [fig1|] eqn:E1; [|discriminate].
  cbn [rbind] in H.
  destruct (px_line (reset_index pivot) _ _ _ _) as [fig2|] eqn:E2; [|discriminate].
  cbn [rbind] in H.
  destruct (getitem pivot "CarbonIntensity") as [ci|] eqn:Eci; [|discriminate].
  cbn [rbind] in H.
  destruct (as_nums ci) as [vs|] eqn:Evs; [|discriminate]. cbn [rbind] in H.
  assert (L2 : fig_layout fig2 = []).
  { unfold px_line, px_chart in E2.
    destruct (_ && _ && _); [|discriminate]. apply Ok_inj in E2. now subst fig2. }
  set (ci_fig := match max_skipna vs with Some _ => _ | None => _ end) in H.
  assert (Hrest : exists rest, (List.length rest <= 1)%nat /\
            app = mkDash (html_Div (html_H1 dashboard_title :: html_P dashboard_text
                                 :: dcc_Graph (update_layout fig1
                                      [ ("legend_title_text", LText "Category") ])
                                 :: dcc_Graph ci_fig :: rest))).
  { destruct demand as [d|].
    - destruct (negb (df_empty d)).
      + destruct (px_line d _ _ _ _) as [fig3|]; [|discriminate].
        cbn [rbind] in H. apply Ok_inj in H. subst app.
        eexists [_]. split; [simpl; lia|reflexivity].
      + cbn [rbind] in H. apply Ok_inj in H. subst app.
        exists []. split; [simpl; lia|reflexivity].
    - cbn [rbind] in H. apply Ok_inj in H. subst app.
      exists []. split; [simpl; lia|reflexivity]. }
  destruct Hrest as (rest & Lrest & ->). clear H.
  exists ci, vs, (update_layout fig1 [ ("legend_title_text", LText "Category") ]),
         ci_fig, rest.
  split; [reflexivity|]. split; [exact Evs|]. split; [reflexivity|].
  split; [exact Lrest|].
  pose proof (max_skipna_spec vs) as Hmax. unfold ci_fig.
  destruct (max_skipna vs) as [m|].
  - destruct Hmax as (Hin & Hle).
    destruct (Qle_bool m 0) eqn:Em; cbn [negb].
    + apply Qle_bool_iff in Em. split; [intros _; exact L2|].
      intros q Hq Hpos. exfalso.
      apply (Qlt_irrefl 0). apply Qlt_le_trans with q; [exact Hpos|].
      apply Qle_trans with m; [now apply Hle|exact Em].
    + assert (Hm : (0 < m)%Q).
      { apply Qnot_le_lt. intros C. apply Qle_bool_iff in C. congruence. }
      split.
      * intros Hall. exfalso. apply (Qlt_irrefl 0).
        apply Qlt_le_trans with m; [exact Hm|now apply Hall].
      * intros q Hq Hpos. exists m. repeat split; try assumption.
        unfold update_layout. cbn [fig_layout fold_left fst snd].
        rewrite L2. reflexivity.
  - split; [intros _; exact L2|]. intros q Hq _. now destruct (Hmax q).
Qed.

Lemma carbon_axis_headroom_witness :
  exists app,
    create_dashboard pumping_area pumping_pivot (Some pumping_merge) = Ok app /\
    exists ci vs area_fig ci_fig rest,
      getitem pumping_pivot "CarbonIntensity" = Ok ci /\
      as_nums ci = Ok vs /\
      layout app = html_Div (html_H1 dashboard_title :: html_P dashboard_text
                          :: dcc_Graph area_fig :: dcc_Graph ci_fig :: rest) /\
      (List.length rest <= 1)%nat /\
      ((forall q, In (Some q) vs -> (q <= 0)%Q) -> fig_layout ci_fig = []) /\
      (forall q, In (Some q) vs -> (0 < q)%Q ->
         exists m,
           In (Some m) vs /\ (0 < m)%Q /\
           (forall q', In (Some q') vs -> (q' <= m)%Q) /\
           fig_layout ci_fig = [ ("yaxis_range", LRange 0 (m * (11 # 10))) ]).
Proof.
  pose (app := match create_dashboard pumping_area pumping_pivot
                       (Some pumping_merge) with
               | Ok a => a
               | Raise _ => mkDash (html_Div [])
               end).
  assert (H : create_dashboard pumping_area pumping_pivot (Some pumping_merge)
              = Ok app) by (vm_compute; reflexivity).
  exists app. split; [exact H|].
  exact (carbon_axis_headroom _ _ _ _ H).
Defined.

Lemma dashboard_of_pipeline_witness :
  process_data stable_argsort (mkFrames pumping_fuel revisions_tsdf)
    = (Ok (pumping_pivot, pumping_area, pumping_merge), pumping_frames) /\
  exists area_fig ci_fig sd_fig,
    fig_kind area_fig = AreaChart /\ fig_data area_fig = pumping_area /\
    fig_kind ci_fig = LineChart /\ fig_data ci_fig = reset_index pumping_pivot /\
    fig_kind sd_fig = LineChart /\ fig_data sd_fig = pumping_merge /\
    create_dashboard pumping_area pumping_pivot None
      = Ok (mkDash (html_Div [ html_H1 dashboard_title; html_P dashboard_text;
                          dcc_Graph area_fig; dcc_Graph ci_fig ])) /\
    create_dashboard pumping_area pumping_pivot (Some pumping_merge)
      = Ok (mkDash (html_Div ([ html_H1 dashboard_title; html_P dashboard_text;
                           dcc_Graph area_fig; dcc_Graph ci_fig ]
                         ++ if (df_len pumping_merge =? 0)%nat then []
                            else [ dcc_Graph sd_fig ]))).
Proof.
  assert (H : process_data stable_argsort (mkFrames pumping_fuel revisions_tsdf)
              = (Ok (pumping_pivot, pumping_area, pumping_merge),
                 pumping_frames)) by (vm_compute; reflexivity).
  split; [exact H|].
  exact (dashboard_of_pipeline _ _ _ _ _ _ _ H).
Defined.

(** ** The entry point *)

Lemma num_binop_numeric (op : Q -> Q -> Q) (a b c : column) :
  map2M (num_binop op) a b = Ok c -> exists vs, as_nums c = Ok vs.
Proof.
  unfold as_nums. revert b c.
  induction a as [|x a IH]; intros [|y b] c H; simpl in H;
    try (apply Ok_inj in H; subst c; now exists []).
  destruct (num_binop op x y) as [z|] eqn:Ez; [|discriminate]. cbn [rbind] in H.
  destruct (map2M (num_binop op) a b) as [c'|] eqn:Ec; [|discriminate].
  cbn [rbind] in H. apply Ok_inj in H. subst c.
  destruct (IH _ _ Ec) as (vs & Hvs).
  assert (Hz : exists o, as_num z = Ok o).
  { destruct x, y; simpl in Ez; try discriminate;
      apply Ok_inj in Ez; subst z; now eexists. }
  destruct Hz as (o & Ho). exists (o :: vs).
  cbn [mapM rbind]. rewrite Ho. cbn [rbind]. rewrite Hvs. reflexivity.
Qed.

(** What [main] reads of the reconciliation table of a successful run. *)
Lemma pipeline_report argsort f t pivot area merge s' :
  process_data argsort (mkFrames f t) = (Ok (pivot, area, merge), s') ->
  df_empty merge = (df_len merge =? 0)%nat /\
  exists smd avg_diff,
    getitem merge "SupplyMinusDemand" = Ok smd /\
    series_mean smd = Ok avg_diff.
Proof.
  intros H.
  destruct (process_data_merge _ _ _ _ _ _ _ H)
    as (fts & lt & hh & gc & gks & gvs & tst & tts & tlt & thh & pcol & pks
        & dcol & ws' & lk & smd & _ & _ & _ & _ & _ & _ & _ & _ & _ & _ & _ & _
        & _ & _ & _ & _ & _ & Hsub & Hmerge).
  cbv zeta in Hsub, Hmerge. split.
  - unfold df_empty. rewrite Hmerge at 2. cbn [df_columns List.length Nat.eqb].
    apply orb_false_r.
  - destruct (num_binop_numeric _ _ _ _ Hsub) as (vs & Hvs).
    exists smd. unfold series_mean. rewrite Hvs. cbn [rbind].
    destruct (dropna vs); eexists; (split; [|reflexivity]);
      rewrite Hmerge; reflexivity.
Qed.

Lemma charts_of_layout (l : list component) :
  charts_of (mkDash (html_Div l))
  = flat_map (fun c => match c with dcc_Graph fig => [fig] | _ => [] end) l.
Proof. reflexivity. Qed.

Lemma no_server_in_requests (tr : list event) (app : Dash) (dbg : bool) :
  ~ In (RunServer app dbg) (map Request tr).
Proof. rewrite in_map_iff. intros (e & He & _). discriminate. Qed.

(** X11. A run of [main] that ends without an exception has fetched both
    tables, processed them and built the dashboard from the three results.
    What it did, in order: the opening line, the requests of the two
    fetchers, the row counts, the processing line, one line about the
    reconciliation, the closing line and the start of the server (not in
    debug mode).  When the reconciliation table has no row that line is the
    warning and the dashboard has two charts; otherwise it is the average
    line and the dashboard has three charts, the third over the
    reconciliation table. *)
Theorem main_success argsort format_1f env dir out :
  main argsort format_1f env dir = (None, out) ->
  exists fuel tsdf tr1 tr2 pivot area merge s' line app,
    run env (fetch_fuelinst_data dir) = (Ok fuel, tr1) /\
    run env (fetch_tsdf_data dir) = (Ok tsdf, tr2) /\
    process_data argsort (mkFrames fuel tsdf) = (Ok (pivot, area, merge), s') /\
    create_dashboard area pivot
      (if (df_len merge =? 0)%nat then None else Some merge) = Ok app /\
    out = (PrintLine "Fetching data from Elexon…"
             :: map Request tr1 ++ map Request tr2
             ++ [ PrintLine (retrieved_message (df_len fuel) (df_len tsdf));
                  PrintLine "Processing data…";
                  PrintLine line;
                  PrintLine starting_message;
                  RunServer app false ])%list /\
    (df_len merge = 0%nat ->
     line = no_overlap_warning /\ List.length (charts_of app) = 2%nat) /\
    (df_len merge <> 0%nat ->
     (exists smd avg_diff,
        getitem merge "SupplyMinusDemand" = Ok smd /\
        series_mean smd = Ok avg_diff /\
        line = "Average supply minus forecast demand (MW) for overlap: "
               ++ format_1f avg_diff) /\
     List.length (charts_of app) = 3%nat /\
     exists fig, nth_error (charts_of app) 2 = Some fig /\ fig_data fig = merge).
Proof.
  unfold main. intros H.
  destruct (run env (fetch_fuelinst_data dir)) as [[fuel|e1] tr1] eqn:R1;
    [|discriminate].
  destruct (run env (fetch_tsdf_data dir)) as [[tsdf|e2] tr2] eqn:R2;
    [|discriminate].
  destruct (process_data argsort (mkFrames fuel tsdf))
    as [[[[pivot area] merge]|e3] s'] eqn:HP; cbn [fst] in H; [|discriminate].
  destruct (pipeline_report _ _ _ _ _ _ _ HP) as (Hempty & smd & avg & Hsmd & Havg).
  destruct (create_dashboard_on_outputs _ _ _ _ _ _ _ HP)
    as (fig1 & fig2 & fig3 & _ & _ & _ & _ & _ & D3 & Hnone & Hsome).
  rewrite Hempty, Hsmd in H. cbn [rbind] in H. rewrite Havg in H. cbn [rbind] in H.
  destruct (df_len merge =? 0)%nat eqn:El; cbn [negb] in H.
  - rewrite Hnone in H. injection H as <-.
    exists fuel, tsdf, tr1, tr2, pivot, area, merge, s', no_overlap_warning.
    eexists. split; [reflexivity|]. split; [reflexivity|]. split; [exact HP|].
    split; [rewrite El; exact Hnone|]. split.
    { cbn [app]. rewrite <- !app_assoc. reflexivity. }
    apply Nat.eqb_eq in El. split; [|intros C; contradiction].
    intros _. split; reflexivity.
  - rewrite Hsome in H. injection H as <-.
    exists fuel, tsdf, tr1, tr2, pivot, area, merge, s'.
    eexists. eexists. split; [reflexivity|]. split; [reflexivity|].
    split; [exact HP|]. split; [rewrite El; exact Hsome|]. split.
    { cbn [app]. rewrite <- !app_assoc. reflexivity. }
    apply Nat.eqb_neq in El. split; [intros C; contradiction|].
    intros _. split; [now exists smd, avg|].
    split; [reflexivity|]. exists fig3. split; [reflexivity|exact D3].
Qed.

(** X12. A run of [main] that ends with an exception never starts the
    server, and the exception is that of the first of three steps to raise:
    the generation fetch (then the demand fetch is not attempted), the
    demand fetch (then nothing is processed), or [process_data] (after the
    row counts have been printed).  Once [process_data] has returned, nothing
    raises any more. *)
Theorem main_failure argsort format_1f env dir e out :
  main argsort format_1f env dir = (Some e, out) ->
  (forall app dbg, ~ In (RunServer app dbg) out) /\
  ((exists tr1,
      run env (fetch_fuelinst_data dir) = (Raise e, tr1) /\
      out = PrintLine "Fetching data from Elexon…" :: map Request tr1)
   \/ (exists fuel tr1 tr2,
         run env (fetch_fuelinst_data dir) = (Ok fuel, tr1) /\
         run env (fetch_tsdf_data dir) = (Raise e, tr2) /\
         out = (PrintLine "Fetching data from Elexon…"
                  :: map Request tr1 ++ map Request tr2)%list)
   \/ (exists fuel tsdf tr1 tr2 s',
         run env (fetch_fuelinst_data dir) = (Ok fuel, tr1) /\
         run env (fetch_tsdf_data dir) = (Ok tsdf, tr2) /\
         process_data argsort (mkFrames fuel tsdf) = (Raise e, s') /\
         out = (PrintLine "Fetching data from Elexon…"
                  :: map Request tr1 ++ map Request tr2
                  ++ [ PrintLine (retrieved_message (df_len fuel) (df_len tsdf));
                       PrintLine "Processing data…" ])%list)).
Proof.
  unfold main. intros H.
  destruct (run env (fetch_fuelinst_data dir)) as [[fuel|e1] tr1] eqn:R1.
  2:{ injection H as <- <-. split.
      - intros app dbg [C|C]; [discriminate|]. now apply no_server_in_requests in C.
      - left. now exists tr1. }
  destruct (run env (fetch_tsdf_data dir)) as [[tsdf|e2] tr2] eqn:R2.
  2:{ injection H as <- <-. split.
      - intros app dbg [C|C]; [discriminate|].
        apply in_app_or in C. destruct C as [C|C];
          now apply no_server_in_requests in C.
      - right. left. exists fuel, tr1, tr2. repeat split. }
  destruct (process_data argsort (mkFrames fuel tsdf))
    as [[[[pivot area] merge]|e3] s'] eqn:HP; cbn [fst] in H.
  - exfalso.
    destruct (pipeline_report _ _ _ _ _ _ _ HP) as (Hempty & smd & avg & Hsmd & Havg).
    destruct (create_dashboard_on_outputs _ _ _ _ _ _ _ HP)
      as (fig1 & fig2 & fig3 & _ & _ & _ & _ & _ & _ & Hnone & Hsome).
    rewrite Hempty, Hsmd in H. cbn [rbind] in H. rewrite Havg in H.
    cbn [rbind] in H.
    destruct (df_len merge =? 0)%nat; cbn [negb] in H;
      [rewrite Hnone in H|rewrite Hsome in H]; discriminate.
  - injection H as <- <-. split.
    + intros a dbg C. cbn [app] in C. destruct C as [C|C]; [discriminate|].
      rewrite <- app_assoc in C.
      apply in_app_or in C. destruct C as [C|C];
        [now apply no_server_in_requests in C|].
      apply in_app_or in C. destruct C as [C|C];
        [now apply no_server_in_requests in C|].
      destruct C as [C|[C|[]]]; discriminate.
    + right. right. exists fuel, tsdf, tr1, tr2, s'.
      repeat split; [exact HP|]. now rewrite <- app_assoc.
Qed.

Lemma main_success_witness :
  exists out,
    main stable_argsort (fun _ => "-40.0") serving_env "/app" = (None, out) /\
    exists fuel tsdf tr1 tr2 pivot area merge s' line app,
      run serving_env (fetch_fuelinst_data "/app") = (Ok fuel, tr1) /\
      run serving_env (fetch_tsdf_data "/app") = (Ok tsdf, tr2) /\
      process_data stable_argsort (mkFrames fuel tsdf)
        = (Ok (pivot, area, merge), s') /\
      create_dashboard area pivot
        (if (df_len merge =? 0)%nat then None else Some merge) = Ok app /\
      out = (PrintLine "Fetching data from Elexon…"
               :: map Request tr1 ++ map Request tr2
               ++ [ PrintLine (retrieved_message (df_len fuel) (df_len tsdf));
                    PrintLine "Processing data…";
                    PrintLine line;
                    PrintLine starting_message;
                    RunServer app false ])%list /\
      (df_len merge = 0%nat ->
       line = no_overlap_warning /\ List.length (charts_of app) = 2%nat) /\
      (df_len merge <> 0%nat ->
       (exists smd avg_diff,
          getitem merge "SupplyMinusDemand" = Ok smd /\
          series_mean smd = Ok avg_diff /\
          line = "Average supply minus forecast demand (MW) for overlap: "
                 ++ (fun _ : option Q => "-40.0") avg_diff) /\
       List.length (charts_of app) = 3%nat /\
       exists fig, nth_error (charts_of app) 2 = Some fig /\ fig_data fig = merge).
Proof.
  pose (out := snd (main stable_argsort (fun _ => "-40.0") serving_env "/app")).
  assert (H : main stable_argsort (fun _ => "-40.0") serving_env "/app"
              = (None, out)) by (vm_compute; reflexivity).
  exists out. split; [exact H|].
  exact (main_success _ _ _ _ _ H).
Defined.

Lemma main_failure_witness :
  exists out,
    main stable_argsort (fun _ => "-40.0") offline_env "/app"
      = (Some ConnectionError, out) /\
    (forall app dbg, ~ In (RunServer app dbg) out) /\
    ((exists tr1,
        run offline_env (fetch_fuelinst_data "/app") = (Raise ConnectionError, tr1) /\
        out = PrintLine "Fetching data from Elexon…" :: map Request tr1)
     \/ (exists fuel tr1 tr2,
           run offline_env (fetch_fuelinst_data "/app") = (Ok fuel, tr1) /\
           run offline_env (fetch_tsdf_data "/app") = (Raise ConnectionError, tr2) /\
           out = (PrintLine "Fetching data from Elexon…"
                    :: map Request tr1 ++ map Request tr2)%list)
     \/ (exists fuel tsdf tr1 tr2 s',
           run offline_env (fetch_fuelinst_data "/app") = (Ok fuel, tr1) /\
           run offline_env (fetch_tsdf_data "/app") = (Ok tsdf, tr2) /\
           process_data stable_argsort (mkFrames fuel tsdf)
             = (Raise ConnectionError, s') /\
           out = (PrintLine "Fetching data from Elexon…"
                    :: map Request tr1 ++ map Request tr2
                    ++ [ PrintLine (retrieved_message (df_len fuel) (df_len tsdf));
                         PrintLine "Processing data…" ])%list)).
Proof.
  pose (out := snd (main stable_argsort (fun _ => "-40.0") offline_env "/app")).
  assert (H : main stable_argsort (fun _ => "-40.0") offline_env "/app"
              = (Some ConnectionError, out)) by (vm_compute; reflexivity).
  exists out. split; [exact H|].
  exact (main_failure _ _ _ _ _ _ H).
Defined.

(** ** The derived columns, row by row *)

Lemma to_datetime_cell_utc v v' :
  to_datetime_cell v = Ok v' -> exists x, v' = VTime x UTC.
Proof.
  destruct v; simpl; try discriminate.
  - destruct (parse_iso8601 s); [|discriminate]. intros H. apply Ok_inj in H.
    subst. now eexists.
  - intros H. apply Ok_inj in H. subst. now eexists.
Qed.

(** The three time columns of a frame, in one row. *)
Lemma time_columns_row (st ts lt hh : column) (i : nat) :
  to_datetime_utc st = Ok ts ->
  dt_tz_convert Europe_London ts = Ok lt ->
  dt_floor_30min lt = Ok hh ->
  (i < List.length st)%nat ->
  exists x,
    to_datetime_cell (nth i st VNA) = Ok (VTime x UTC) /\
    nth i ts VNA = VTime x UTC /\
    nth i lt VNA = VTime x Europe_London /\
    nth i hh VNA = VTime (x - x mod 1800) Europe_London.
Proof.
  intros Hts Hlt Hhh Hi.
  pose proof (mapM_length _ _ _ Hts) as Lts.
  pose proof (mapM_length _ _ _ Hlt) as Llt.
  pose proof (mapM_nth _ _ _ VNA VNA Hts i Hi) as H1.
  pose proof (mapM_nth _ _ _ VNA VNA Hlt i ltac:(lia)) as H2.
  pose proof (mapM_nth _ _ _ VNA VNA Hhh i ltac:(lia)) as H3.
  cbv beta in H2, H3.
  destruct (to_datetime_cell_utc _ _ H1) as (x & Hx).
  rewrite Hx in H1, H2. apply Ok_inj in H2. rewrite <- H2 in H3.
  destruct (floor_30min x Europe_London) as [w|] eqn:Ew; [|discriminate].
  cbn [rbind] in H3. apply Ok_inj in H3.
  apply floor_30min_value in Ew. subst w.
  exists x. repeat split; congruence.
Qed.

(** X13. The columns a successful run writes, row by row.  In both frames
    StartTime becomes the instant its cell denotes, shown in UTC, LocalTime
    is the same instant shown in Europe/London, and LocalHalfHour is, for an
    instant from 1996 on, that instant rounded down to a multiple of 1800
    seconds.  In the generation frame Generation_clipped is Generation
    clipped at 0 and Category is the category of FuelType. *)
Theorem derived_columns_rowwise argsort f t pivot area merge s' :
  process_data argsort (mkFrames f t) = (Ok (pivot, area, merge), s') ->
  exists st g ft tst,
    getitem f "StartTime" = Ok st /\
    getitem f "Generation" = Ok g /\
    getitem f "FuelType" = Ok ft /\
    getitem t "StartTime" = Ok tst /\
    (forall i, (i < List.length st)%nat ->
       exists x,
         to_datetime_cell (nth i st VNA) = Ok (VTime x UTC) /\
         cell (fuel_df s') "StartTime" i = VTime x UTC /\
         cell (fuel_df s') "LocalTime" i = VTime x Europe_London /\
         (rule_in_force x ->
          cell (fuel_df s') "LocalHalfHour" i
          = VTime (x - x mod 1800) Europe_London)) /\
    (forall i, (i < List.length g)%nat ->
       clip_lower0_cell (nth i g VNA)
       = Ok (cell (fuel_df s') "Generation_clipped" i)) /\
    (forall i, (i < List.length ft)%nat ->
       cell (fuel_df s') "Category" i
       = VStr (match nth i ft VNA with
               | VStr code => _categorise_fuel_types code
               | _ => "Coal/Oil/Other"
               end)) /\
    (forall i, (i < List.length tst)%nat ->
       exists x,
         to_datetime_cell (nth i tst VNA) = Ok (VTime x UTC) /\
         cell (tsdf_df s') "StartTime" i = VTime x UTC /\
         cell (tsdf_df s') "LocalTime" i = VTime x Europe_London /\
         (rule_in_force x ->
          cell (tsdf_df s') "LocalHalfHour" i
          = VTime (x - x mod 1800) Europe_London)).
Proof.
  intros H. run_steps H. simpl_getitem.
  repeat match goal with
         | E : Ok ?a = Ok ?b |- _ => apply Ok_inj in E; subst b
         end.
  apply pair_equal_spec in H. destruct H as [_ <-]. cbn [fuel_df tsdf_df].
  exists a, a3, a5, a17.
  do 4 (split; [first [reflexivity | assumption]|]).
  unfold cell. rewrite !getitem_setitem. cbn [String.eqb Ascii.eqb Bool.eqb].
  split; [|split; [|split]].
  - intros i Hi.
    destruct (time_columns_row _ _ _ _ i E0 E2 E15 Hi) as (x & X1 & X2 & X3 & X4).
    exists x. repeat split; auto.
  - intros i Hi. exact (mapM_nth _ _ _ VNA VNA E4 i Hi).
  - intros i Hi. unfold apply_categorise.
    rewrite (nth_map_default
               (fun v => match v with
                         | VStr s => VStr (_categorise_fuel_types s)
                         | _ => VStr "Coal/Oil/Other"
                         end) a5 i VNA VNA Hi).
    now destruct (nth i a5 VNA).
  - intros i Hi.
    destruct (time_columns_row _ _ _ _ i E18 E20 E22 Hi) as (x & X1 & X2 & X3 & X4).
    exists x. repeat split; auto.
Qed.

Lemma derived_columns_rowwise_witness :
  process_data stable_argsort (mkFrames pumping_fuel revisions_tsdf)
    = (Ok (pumping_pivot, pumping_area, pumping_merge), pumping_frames) /\
  exists st g ft tst,
    getitem pumping_fuel "StartTime" = Ok st /\
    getitem pumping_fuel "Generation" = Ok g /\
    getitem pumping_fuel "FuelType" = Ok ft /\
    getitem revisions_tsdf "StartTime" = Ok tst /\
    (forall i, (i < List.length st)%nat ->
       exists x,
         to_datetime_cell (nth i st VNA) = Ok (VTime x UTC) /\
         cell (fuel_df pumping_frames) "StartTime" i = VTime x UTC /\
         cell (fuel_df pumping_frames) "LocalTime" i = VTime x Europe_London /\
         (rule_in_force x ->
          cell (fuel_df pumping_frames) "LocalHalfHour" i
          = VTime (x - x mod 1800) Europe_London)) /\
    (forall i, (i < List.length g)%nat ->
       clip_lower0_cell (nth i g VNA)
       = Ok (cell (fuel_df pumping_frames) "Generation_clipped" i)) /\
    (forall i, (i < List.length ft)%nat ->
       cell (fuel_df pumping_frames) "Category" i
       = VStr (match nth i ft VNA with
               | VStr code => _categorise_fuel_types code
               | _ => "Coal/Oil/Other"
               end)) /\
    (forall i, (i < List.length tst)%nat ->
       exists x,
         to_datetime_cell (nth i tst VNA) = Ok (VTime x UTC) /\
         cell (tsdf_df pumping_frames) "StartTime" i = VTime x UTC /\
         cell (tsdf_df pumping_frames) "LocalTime" i = VTime x Europe_London /\
         (rule_in_force x ->
          cell (tsdf_df pumping_frames) "LocalHalfHour" i
          = VTime (x - x mod 1800) Europe_London)).
Proof.
  assert (H : process_data stable_argsort (mkFrames pumping_fuel revisions_tsdf)
              = (Ok (pumping_pivot, pumping_area, pumping_merge),
                 pumping_frames)) by (vm_compute; reflexivity).
  split; [exact H|].
  exact (derived_columns_rowwise _ _ _ _ _ _ _ H).
Defined.

(** ** The records in a fetched frame *)

Lemma fold_keys_In (r : record) (seen : list string) (k : string) :
  In k (fold_left (fun acc kv =>
                     if str_mem (fst kv) acc then acc else (acc ++ [fst kv])%list)
                  r seen)
  <-> In k seen \/ In k (map fst r).
Proof.
  revert seen. induction r as [|[k' v] r IH]; intros seen; cbn [fold_left map fst].
  - simpl. tauto.
  - rewrite IH. destruct (str_mem k' seen) eqn:E.
    + apply str_mem_In in E. simpl. split; [tauto|].
      intros [H|[<-|H]]; tauto.
    + rewrite in_app_iff. simpl. tauto.
Qed.

Lemma record_keys_In (rows : list record) (seen : list string) (k : string) :
  In k (record_keys seen rows)
  <-> In k seen \/ exists r, In r rows /\ In k (map fst r).
Proof.
  revert seen. induction rows as [|r rows IH]; intros seen; cbn [record_keys].
  - split; [tauto|]. intros [H|(r & [] & _)]. exact H.
  - rewrite IH, fold_keys_In. split.
    + intros [[H|H]|(r' & Hr' & H)]; [now left| |].
      * right. exists r. split; [now left|exact H].
      * right. exists r'. split; [now right|exact H].
    + intros [H|(r' & [<-|Hr'] & H)]; [tauto|tauto|].
      right. now exists r'.
Qed.

Lemma assoc_renamed {A} (std : string -> string) (col : string -> A)
  (keys : list string) (k : string) :
  NoDup (map std keys) -> In k keys ->
  assoc (std k) (map (fun k' => (std k', col k')) keys) = Some (col k).
Proof.
  induction keys as [|a keys IH]; intros Hnd Hin; [contradiction|].
  cbn [map assoc]. inversion Hnd as [|? ? Hna Hnd']; subst.
  destruct (String.eqb_spec (std k) (std a)) as [E|E].
  - destruct Hin as [->|Hin]; [reflexivity|].
    exfalso. apply Hna. rewrite <- E. now apply in_map.
  - destruct Hin as [->|Hin]; [congruence|]. now apply IH.
Qed.

Lemma renamed_columns (mapping : list (string * string)) (rows : list record) :
  df_columns (rename_columns mapping (DataFrame_of_records rows))
  = map (fun k => (standard_name mapping k, map (record_field k) rows))
        (record_keys [] rows).
Proof.
  unfold rename_columns, DataFrame_of_records. cbn [df_columns].
  rewrite map_map. reflexivity.
Qed.

Lemma assoc_has_key {A} (c : string) (l : list (string * A)) :
  (exists v, assoc c l = Some v) <-> In c (map fst l).
Proof.
  induction l as [|[k v] l IH]; cbn [assoc map fst].
  - split; [intros (v & H); discriminate|intros []].
  - destruct (String.eqb_spec c k) as [->|Hne].
    + split; [intros _; now left|intros _; now eexists].
    + rewrite IH. simpl. split; [tauto|]. intros [H|H]; [congruence|exact H].
Qed.

(** What [pd.DataFrame(rows)] followed by the renaming holds. *)
Lemma renamed_frame_holds (mapping : list (string * string)) (rows : list record) :
  holds_records mapping rows (rename_columns mapping (DataFrame_of_records rows)).
Proof.
  unfold holds_records.
  split; [now rewrite df_len_rename, df_len_of_records|].
  split.
  { unfold wf_frame. rewrite renamed_columns, df_len_rename, df_len_of_records.
    apply Forall_forall. intros [c col] Hin. apply in_map_iff in Hin.
    destruct Hin as (k & [= <- <-] & _). cbn [snd]. apply length_map. }
  split.
  { intros c. unfold has_column. rewrite renamed_columns.
    assert (Hiff : (exists v, assoc c (map (fun k => (standard_name mapping k,
                                                       map (record_field k) rows))
                                           (record_keys [] rows)) = Some v)
                   <-> In c (map (standard_name mapping) (record_keys [] rows))).
    { rewrite assoc_has_key, map_map. reflexivity. }
    split.
    - intros H.
      destruct (assoc c _) as [v|] eqn:E; [|discriminate].
      assert (Hin : In c (map (standard_name mapping) (record_keys [] rows)))
        by (apply Hiff; now exists v).
      apply in_map_iff in Hin. destruct Hin as (k & <- & Hk).
      apply record_keys_In in Hk. destruct Hk as [[]|(r & Hr & Hk)].
      now exists r, k.
    - intros (r & k & Hr & Hk & <-).
      assert (Hin : In (standard_name mapping k)
                       (map (standard_name mapping) (record_keys [] rows))).
      { apply in_map. apply record_keys_In. right. now exists r. }
      apply Hiff in Hin. destruct Hin as (v & Hv).
      match goal with
      | |- match ?X with Some _ => _ | None => _ end = _ =>
          assert (HX : X = Some v) by exact Hv; rewrite HX
      end.
      reflexivity. }
  intros Hnd i r k Hi Hk. unfold cell, getitem. rewrite renamed_columns.
  pose proof (assoc_renamed (standard_name mapping)
                (fun k => map (record_field k) rows) _ k Hnd Hk) as HA.
  cbv beta in HA.
  match goal with
  | |- match match ?X with Some _ => _ | None => _ end with _ => _ end = _ =>
      assert (HX : X = Some (map (record_field k) rows)) by exact HA; rewrite HX
  end.
  rewrite (nth_map_default (record_field k) rows i [] VNA)
    by (apply nth_error_Some; congruence).
  now rewrite (nth_error_nth _ _ _ Hi).
Qed.

(** X15. On status 200 with a non-empty list of records each fetcher makes
    its one request and returns a frame that holds the records: one row per
    record in order, the columns being the field names after the
    standardising renaming, and the cell of a field in a row being the
    record's value (NA when the record lacks the field).  The demand fetcher
    returns the same frame from a fallback file holding the same records,
    as a bare list or under the key data. *)
Theorem fetched_frame_holds_records (env : environment) (dir : string)
  (rows : list record) :
  rows <> [] ->
  (net env fuelinst_url = Response 200 (Some (JObject (Some rows))) ->
   exists df,
     run env (fetch_fuelinst_data dir) = (Ok df, [EvGet fuelinst_url]) /\
     holds_records fuelinst_columns rows df) /\
  (net env tsdf_url = Response 200 (Some (JObject (Some rows))) ->
   exists df,
     run env (fetch_tsdf_data dir) = (Ok df, [EvGet tsdf_url]) /\
     holds_records tsdf_columns rows df) /\
  (forall status body doc,
     net env tsdf_url = Response status body -> status <> 200 ->
     files env (path_join dir "TSDF.json") = Some (JsonFile doc) ->
     doc = JArray rows \/ doc = JObject (Some rows) ->
     exists df,
       run env (fetch_tsdf_data dir)
         = (Ok df, [EvGet tsdf_url; EvExists (path_join dir "TSDF.json");
                    EvRead (path_join dir "TSDF.json")]) /\
       holds_records tsdf_columns rows df).
Proof.
  intros Hne. split; [|split].
  - intros Hnet. eexists. split; [|apply renamed_frame_holds].
    unfold fetch_fuelinst_data. cbn [run]. rewrite Hnet.
    cbn [Z.eqb Pos.eqb response_data rbind].
    destruct rows; [congruence|reflexivity].
  - intros Hnet. eexists. split; [|apply renamed_frame_holds].
    unfold fetch_tsdf_data. cbn [run]. rewrite Hnet.
    cbn [Z.eqb Pos.eqb response_data rbind].
    destruct rows; [congruence|reflexivity].
  - intros status body doc Hnet Hst Hfile Hdoc.
    eexists. split; [|apply renamed_frame_holds].
    unfold fetch_tsdf_data. cbn [run]. rewrite Hnet.
    apply Z.eqb_neq in Hst. rewrite Hst. cbn [run]. rewrite Hfile. cbn [run].
    rewrite Hfile. cbn [json_load rbind].
    destruct Hdoc as [->| ->]; reflexivity.
Qed.

Lemma fetched_frame_holds_records_witness :
  [one_forecast] <> [] /\
  net serving_env tsdf_url = Response 200 (Some (JObject (Some [one_forecast]))) /\
  exists df,
    run serving_env (fetch_tsdf_data "/app") = (Ok df, [EvGet tsdf_url]) /\
    holds_records tsdf_columns [one_forecast] df.
Proof.
  assert (Hne : [one_forecast] <> []) by discriminate.
  assert (Hnet : net serving_env tsdf_url
                 = Response 200 (Some (JObject (Some [one_forecast]))))
    by reflexivity.
  split; [exact Hne|]. split; [exact Hnet|].
  exact (proj1 (proj2 (fetched_frame_holds_records serving_env "/app"
                         [one_forecast] Hne)) Hnet).
Defined.

(** ** Inputs on which the pipeline returns *)




Lemma as_nums_total (c : column) :
  Forall numeric c -> exists vs, as_nums c = Ok vs.
Proof.
  unfold as_nums. induction 1 as [|v c Hv _ (vs & IH)].
  - now exists [].
  - cbn [mapM]. rewrite IH.
    destruct Hv as [->|(q & ->)]; cbn [as_num rbind]; now eexists.
Qed.









(** ** Publish times: the order of the strings and the order of the instants *)

Lemma march_year_base_closed (y' : Z) :
  march_year_base y' = 365 * y' + y' / 4 - y' / 100 + y' / 400.
Proof. unfold march_year_base. Z.div_mod_to_equations. lia. Qed.

Lemma march_year_base_mono (a b : Z) :
  a <= b -> march_year_base a <= march_year_base b.
Proof. rewrite !march_year_base_closed. intros H. Z.div_mod_to_equations. lia. Qed.

Lemma march_year_base_step (y' : Z) :
  march_year_base (y' + 1)
  = march_year_base y' + 365 + (if is_leap (y' + 1) then 1 else 0).
Proof.
  rewrite !march_year_base_closed. unfold is_leap.
  destruct (Z.eqb_spec ((y' + 1) mod 4) 0), (Z.eqb_spec ((y' + 1) mod 100) 0),
    (Z.eqb_spec ((y' + 1) mod 400) 0); cbn [andb orb negb];
    Z.div_mod_to_equations; lia.
Qed.

Lemma days_from_civil_march (y m d : Z) :
  days_from_civil y m d
  = march_year_base (if m <=? 2 then y - 1 else y) + march_day m d - 719468.
Proof. unfold days_from_civil, march_year_base, march_day. lia. Qed.

Lemma month_cases (m : Z) :
  1 <= m <= 12 ->
  m = 1 \/ m = 2 \/ m = 3 \/ m = 4 \/ m = 5 \/ m = 6 \/ m = 7 \/ m = 8 \/ m = 9
  \/ m = 10 \/ m = 11 \/ m = 12.
Proof. lia. Qed.

(** The last day of a month comes before the first day of the next month of
    the same March-based year, and the year has room for all its days. *)
Lemma march_day_bounds (y m d : Z) :
  valid_date y m d ->
  0 <= march_day m d /\
  march_day m d <= 364 + (if m <=? 2 then (if is_leap y then 1 else 0) else 0) /\
  (m <> 2 -> march_day m d < march_day (if m =? 12 then 1 else m + 1) 1) /\
  (m <= 2 -> 306 <= march_day m d) /\
  (3 <= m -> march_day m d <= 305).
Proof.
  intros (Hm & Hd). unfold days_in_month in Hd.
  destruct (month_cases m Hm) as
    [->|[->|[->|[->|[->|[->|[->|[->|[->|[->|[->| ->]]]]]]]]]]];
    simpl in Hd; unfold march_day; simpl (_ =? _); cbv beta iota;
    try (destruct (is_leap y));
    repeat split; intros;
    repeat match goal with
           | |- context [?a <=? ?b] => destruct (Z.leb_spec a b); try lia
           end;
    Z.div_mod_to_equations; lia.
Qed.

Lemma march_day_month_lt (y1 y2 m1 m2 d1 d2 : Z) :
  valid_date y1 m1 d1 -> valid_date y2 m2 d2 ->
  m1 < m2 -> (m2 <= 2 \/ 3 <= m1) ->
  march_day m1 d1 < march_day m2 d2.
Proof.
  intros (Hm1 & Hd1) (Hm2 & Hd2) Hlt Hside.
  assert (B1 : d1 <= 31).
  { unfold days_in_month in Hd1.
    destruct (m1 =? 2); [destruct (is_leap y1); lia|].
    destruct ((m1 =? 4) || (m1 =? 6) || (m1 =? 9) || (m1 =? 11)); lia. }
  assert (B30 : m1 = 4 \/ m1 = 6 \/ m1 = 9 \/ m1 = 11 -> d1 <= 30).
  { intros C. unfold days_in_month in Hd1.
    destruct C as [->|[->|[->| ->]]]; simpl in Hd1; lia. }
  unfold march_day.
  destruct (Z.leb_spec m1 2), (Z.leb_spec m2 2); try lia;
    Z.div_mod_to_equations; lia.
Qed.

(** Dates in calendar order have day numbers in the same order. *)
Lemma days_from_civil_lt (y1 m1 d1 y2 m2 d2 : Z) :
  valid_date y1 m1 d1 -> valid_date y2 m2 d2 ->
  y1 < y2 \/ (y1 = y2 /\ (m1 < m2 \/ (m1 = m2 /\ d1 < d2))) ->
  days_from_civil y1 m1 d1 < days_from_civil y2 m2 d2.
Proof.
  intros V1 V2 Hlex. rewrite !days_from_civil_march.
  destruct (march_day_bounds _ _ _ V1) as (L1 & U1 & _ & J1 & K1).
  destruct (march_day_bounds _ _ _ V2) as (L2 & U2 & _ & J2 & K2).
  set (Y1 := if m1 <=? 2 then y1 - 1 else y1).
  set (Y2 := if m2 <=? 2 then y2 - 1 else y2).
  destruct (Z.lt_trichotomy Y1 Y2) as [Hy|[Hy|Hy]].
  - pose proof (march_year_base_mono (Y1 + 1) Y2 ltac:(lia)) as Hb.
    rewrite march_year_base_step in Hb.
    assert (Hu : march_day m1 d1
                 <= 364 + (if is_leap (Y1 + 1) then 1 else 0)).
    { unfold Y1. destruct (Z.leb_spec m1 2).
      - replace (y1 - 1 + 1) with y1 by lia. exact U1.
      - destruct (is_leap (y1 + 1)); lia. }
    lia.
  - rewrite Hy. enough (march_day m1 d1 < march_day m2 d2) by lia.
    unfold Y1, Y2 in Hy.
    destruct Hlex as [Hlt|(-> & [Hlt|(-> & Hlt)])].
    + destruct (Z.leb_spec m1 2), (Z.leb_spec m2 2); lia.
    + apply (march_day_month_lt y2 y2 m1 m2 d1 d2 V1 V2 Hlt).
      destruct (Z.leb_spec m1 2), (Z.leb_spec m2 2); lia.
    + unfold march_day. lia.
  - exfalso. unfold Y1, Y2 in Hy.
    destruct V1 as (Hm1 & _), V2 as (Hm2 & _).
    destruct (Z.leb_spec m1 2), (Z.leb_spec m2 2); lia.
Qed.

Lemma instant_of_lt y1 m1 d1 h1 mi1 sec1 y2 m2 d2 h2 mi2 sec2 :
  valid_date y1 m1 d1 -> valid_date y2 m2 d2 ->
  valid_clock h1 mi1 sec1 -> valid_clock h2 mi2 sec2 ->
  fields_lt y1 m1 d1 h1 mi1 sec1 y2 m2 d2 h2 mi2 sec2 ->
  instant_of y1 m1 d1 h1 mi1 sec1 < instant_of y2 m2 d2 h2 mi2 sec2.
Proof.
  intros V1 V2 C1 C2 Hlt. unfold instant_of, valid_clock, fields_lt in *.
  assert (Hdate : y1 < y2 \/ (y1 = y2 /\ (m1 < m2 \/ (m1 = m2 /\ d1 < d2)))
                  \/ (y1 = y2 /\ m1 = m2 /\ d1 = d2)) by lia.
  destruct Hdate as [H|[H|(-> & -> & ->)]].
  - pose proof (days_from_civil_lt _ _ _ _ _ _ V1 V2 (or_introl H)). lia.
  - pose proof (days_from_civil_lt _ _ _ _ _ _ V1 V2 (or_intror H)). lia.
  - lia.
Qed.

(** *** The characters of a timestamp *)

Fixpoint lex_compare (l1 l2 : list Z) : comparison :=
  match l1, l2 with
  | [], [] => Eq
  | [], _ :: _ => Lt
  | _ :: _, [] => Gt
  | a :: l1', b :: l2' =>
      match a ?= b with
      | Eq => lex_compare l1' l2'
      | Lt => Lt
      | Gt => Gt
      end
  end.

(** Strings compare as the lists of their character codes. *)
Lemma string_compare_codes (s1 s2 : string) :
  String.compare s1 s2 = lex_compare (codes s1) (codes s2).
Proof.
  unfold codes. revert s2. induction s1 as [|a s1 IH]; intros [|b s2];
    cbn [String.compare list_ascii_of_string map lex_compare]; try reflexivity.
  unfold Ascii.compare. rewrite N2Z.inj_compare, IH. reflexivity.
Qed.

Lemma digit_code (c : ascii) (d : Z) :
  digit c = Some d -> Z.of_N (N_of_ascii c) = 48 + d /\ 0 <= d <= 9.
Proof.
  unfold digit. set (n := Z.of_N (N_of_ascii c)).
  destruct (Z.leb_spec 48 n), (Z.leb_spec n 57); cbn [andb]; try discriminate.
  intros [= <-]. lia.
Qed.

Lemma is_char_code (c k : ascii) :
  is_char c (String k EmptyString) = true ->
  Z.of_N (N_of_ascii c) = Z.of_N (N_of_ascii k).
Proof.
  unfold is_char. intros H. apply String.eqb_eq in H. now injection H as ->.
Qed.

Ltac open_digit H :=
  match type of H with
  | context [digit ?c] =>
      let d := fresh "d" in
      let E := fresh "E" in
      destruct (digit c) as [d|] eqn:E; [|discriminate H];
      apply digit_code in E
  end.

(** What a string that parses is made of. *)
Lemma parse_iso8601_inv (s : string) (x : Z) :
  parse_iso8601 s = Some x ->
  exists a1 a2 a3 a4 b1 b2 c1 c2 e1 e2 f1 f2 g1 g2,
    Forall (fun d => 0 <= d <= 9)
           [a1; a2; a3; a4; b1; b2; c1; c2; e1; e2; f1; f2; g1; g2] /\
    codes s = [ 48 + a1; 48 + a2; 48 + a3; 48 + a4; 45; 48 + b1; 48 + b2; 45;
                48 + c1; 48 + c2; 84; 48 + e1; 48 + e2; 58; 48 + f1; 48 + f2;
                58; 48 + g1; 48 + g2; 90 ] /\
    valid_date (1000 * a1 + 100 * a2 + 10 * a3 + a4) (10 * b1 + b2) (10 * c1 + c2) /\
    valid_clock (10 * e1 + e2) (10 * f1 + f2) (10 * g1 + g2) /\
    x = instant_of (1000 * a1 + 100 * a2 + 10 * a3 + a4) (10 * b1 + b2)
                   (10 * c1 + c2) (10 * e1 + e2) (10 * f1 + f2) (10 * g1 + g2).
Proof.
  unfold parse_iso8601, codes. intros H.
  destruct (list_ascii_of_string s) as [|y1 l]; [discriminate|].
  do 19 (destruct l as [|? l]; [discriminate|]).
  destruct l; [|discriminate].
  cbn [digits] in H.
  do 14 open_digit H.
  repeat match type of H with
         | context [10 * 0 + ?d] => replace (10 * 0 + d) with d in H by lia
         end.
  match type of H with
  | (if ?b then _ else _) = _ => destruct b eqn:B; [|discriminate H]
  end.
  repeat match goal with
         | B : _ && _ = true |- _ => apply andb_prop in B; destruct B as [B ?]
         end.
  repeat match goal with
         | B : is_char _ _ = true |- _ => apply is_char_code in B
         | B : (_ <=? _) = true |- _ => apply Z.leb_le in B
         | B : (_ <? _) = true |- _ => apply Z.ltb_lt in B
         end.
  injection H as <-.
  repeat match goal with
         | E : _ /\ _ |- _ => destruct E
         end.
  exists d, d0, d1, d2, d3, d4, d5, d6, d7, d8, d9, d10, d11, d12.
  split; [repeat (constructor; [lia|]); constructor|].
  split.
  { cbn [map].
    repeat match goal with
           | E : Z.of_N (N_of_ascii ?c) = _ |- context [Z.of_N (N_of_ascii ?c)] =>
               rewrite E
           end.
    reflexivity. }
  replace (1000 * d + 100 * d0 + 10 * d1 + d2)
    with (10 * (10 * (10 * d + d0) + d1) + d2) by lia.
  unfold valid_date, valid_clock, instant_of.
  repeat split; lia.
Qed.

Ltac next_char V1 V2 C1 C2 :=
  match goal with
  | |- match ?a ?= ?b with Eq => _ | Lt => Lt | Gt => Gt end = _ =>
      destruct (Z.compare_spec a b) as [Heq|Hlt|Hgt];
      [ try (assert (a = b) by exact Heq; clear Heq)
      | symmetry; apply Z.compare_lt_iff;
        apply (instant_of_lt _ _ _ _ _ _ _ _ _ _ _ _ V1 V2 C1 C2);
        unfold fields_lt; lia
      | symmetry; apply Z.compare_gt_iff;
        apply (instant_of_lt _ _ _ _ _ _ _ _ _ _ _ _ V2 V1 C2 C1);
        unfold fields_lt; lia ]
  end.

(** Two timestamps in the format of the datasets compare as strings the way
    their instants compare. *)
Lemma iso_compare (s1 s2 : string) (x1 x2 : Z) :
  parse_iso8601 s1 = Some x1 -> parse_iso8601 s2 = Some x2 ->
  String.compare s1 s2 = (x1 ?= x2).
Proof.
  intros H1 H2.
  destruct (parse_iso8601_inv _ _ H1)
    as (a1 & a2 & a3 & a4 & b1 & b2 & c1 & c2 & e1 & e2 & f1 & f2 & g1 & g2
        & D1 & K1 & V1 & C1 & ->).
  destruct (parse_iso8601_inv _ _ H2)
    as (p1 & p2 & p3 & p4 & q1 & q2 & r1 & r2 & t1 & t2 & u1 & u2 & v1 & v2
        & D2 & K2 & V2 & C2 & ->).
  rewrite string_compare_codes, K1, K2. clear K1 K2 H1 H2.
  repeat match goal with
         | D : Forall _ (_ :: _) |- _ =>
             let B := fresh "B" in
             inversion D as [|? ? B ?]; subst; clear D
         | D : Forall _ [] |- _ => clear D
         end.
  cbn [lex_compare]. rewrite !Z.compare_refl.
  do 14 next_char V1 V2 C1 C2.
  symmetry. apply Z.compare_eq_iff.
  repeat match goal with
         | E : 48 + ?a = 48 + ?b |- _ =>
             assert (a = b) by lia; clear E; subst b
         end.
  reflexivity.
Qed.

(** X19. When every publish time of the demand table is a timestamp in the
    format of the datasets, the order of the strings is the order of the
    instants: the record whose demand a reconciliation row carries is, among
    the records of the row's window, one that was published last. *)
Theorem latest_revision_is_latest_published argsort f t pivot area merge s' :
  process_data argsort (mkFrames f t) = (Ok (pivot, area, merge), s') ->
  sorts argsort -> wf_frame t ->
  (forall r, (r < df_len t)%nat ->
             exists x, parse_iso8601 (str (cell t "PublishTime" r)) = Some x) ->
  forall j, (j < df_len merge)%nat ->
    exists r,
      (r < df_len t)%nat /\
      cell (tsdf_df s') "LocalHalfHour" r = cell merge "LocalHalfHour" j /\
      cell merge "DemandForecast" j = cell t "demand" r /\
      forall r', (r' < df_len t)%nat ->
        cell (tsdf_df s') "LocalHalfHour" r' = cell merge "LocalHalfHour" j ->
        publish_instant (cell t "PublishTime" r')
        <= publish_instant (cell t "PublishTime" r).
Proof.
  intros H Hs Hwf Hfmt j Hj.
  destruct (reconciliation_rows _ _ _ _ _ _ _ H Hs Hwf)
    as (gc & gks & gvs & ws & pks & dcol & smd & rows & _ & _ & _ & _ & HT
        & HP & HD & Lws & Lpks & Ldcol & _ & _ & Hrows & Hmerge & _).
  assert (Hs' : getitem (tsdf_df s') "PublishTime" = getitem t "PublishTime"
                /\ getitem (tsdf_df s') "demand" = getitem t "demand").
  { destruct (process_data_merge _ _ _ _ _ _ _ H)
      as (? & ? & ? & ? & ? & ? & ? & ? & ? & ? & ? & ? & ? & ? & ? & ?
          & _ & _ & _ & _ & _ & _ & _ & _ & _ & _ & _ & -> & _).
    rewrite !getitem_setitem. split; reflexivity. }
  destruct Hs' as (EP & ED). rewrite EP in HP. rewrite ED in HD. clear EP ED.
  rewrite Hmerge in Hj. unfold df_len in Hj. cbn [df_index] in Hj.
  rewrite RangeIndex_length in Hj.
  assert (Hrow : In (nth j rows (0%nat, 0)) rows) by (now apply nth_In).
  destruct (nth j rows (0%nat, 0)) as [r w] eqn:E.
  destruct (Hrows r w Hrow) as (Hr & Hw & Hmax & _).
  assert (CW : cell merge "LocalHalfHour" j = VTime w Europe_London).
  { rewrite Hmerge. unfold cell, times.
    cbn [getitem df_columns assoc String.eqb Ascii.eqb Bool.eqb].
    rewrite map_map.
    rewrite (nth_map_default (fun x : nat * Z => VTime (snd x) Europe_London)
               rows j (0%nat, 0) VNA) by exact Hj.
    now rewrite E. }
  assert (CT : forall x, (x < df_len t)%nat ->
               cell (tsdf_df s') "LocalHalfHour" x = VTime (nth x ws 0) Europe_London).
  { intros x Hx. unfold cell. rewrite HT. unfold times.
    apply (nth_map_default (fun t0 => VTime t0 Europe_London)). lia. }
  assert (CP : forall x, (x < df_len t)%nat ->
               cell t "PublishTime" x = VStr (nth x pks "")).
  { intros x Hx. unfold cell. rewrite HP.
    apply (nth_map_default VStr). lia. }
  rewrite CW. exists r. split; [exact Hr|].
  split; [rewrite CT by exact Hr; now rewrite Hw|]. split.
  { rewrite Hmerge. unfold cell. rewrite HD.
    cbn [getitem df_columns assoc String.eqb Ascii.eqb Bool.eqb].
    rewrite (nth_map_default (fun rw : nat * Z => nth (fst rw) dcol VNA)
               rows j (0%nat, 0) VNA) by exact Hj.
    now rewrite E. }
  intros r' Hr' Hsame. rewrite CT in Hsame by exact Hr'.
  injection Hsame as Hsame.
  pose proof (Hmax r' Hr' Hsame) as Hle.
  destruct (Hfmt r Hr) as (x & Hx). destruct (Hfmt r' Hr') as (x' & Hx').
  unfold publish_instant. rewrite Hx, Hx'.
  rewrite CP in Hx, Hx' by assumption. cbn [str] in Hx, Hx'.
  unfold String.leb in Hle. rewrite (iso_compare _ _ _ _ Hx' Hx) in Hle.
  destruct (Z.compare_spec x' x); [lia|lia|discriminate].
Qed.

Lemma latest_revision_is_latest_published_witness :
  process_data stable_argsort (mkFrames pumping_fuel revisions_tsdf)
    = (Ok (pumping_pivot, pumping_area, pumping_merge), pumping_frames) /\
  sorts stable_argsort /\ wf_frame revisions_tsdf /\
  (forall r, (r < df_len revisions_tsdf)%nat ->
     exists x, parse_iso8601 (str (cell revisions_tsdf "PublishTime" r)) = Some x) /\
  (0 < df_len pumping_merge)%nat /\
  exists r,
    (r < df_len revisions_tsdf)%nat /\
    cell (tsdf_df pumping_frames) "LocalHalfHour" r
      = cell pumping_merge "LocalHalfHour" 0 /\
    cell pumping_merge "DemandForecast" 0 = cell revisions_tsdf "demand" r /\
    forall r', (r' < df_len revisions_tsdf)%nat ->
      cell (tsdf_df pumping_frames) "LocalHalfHour" r'
        = cell pumping_merge "LocalHalfHour" 0 ->
      publish_instant (cell revisions_tsdf "PublishTime" r')
      <= publish_instant (cell revisions_tsdf "PublishTime" r).
Proof.
  assert (H : process_data stable_argsort (mkFrames pumping_fuel revisions_tsdf)
              = (Ok (pumping_pivot, pumping_area, pumping_merge),
                 pumping_frames)) by (vm_compute; reflexivity).
  assert (Hwf : wf_frame revisions_tsdf)
    by (repeat (apply Forall_cons; [reflexivity|]); apply Forall_nil).
  assert (Hfmt : forall r, (r < df_len revisions_tsdf)%nat ->
            exists x, parse_iso8601 (str (cell revisions_tsdf "PublishTime" r))
                      = Some x).
  { intros r Hr. change (df_len revisions_tsdf) with 2%nat in Hr.
    destruct r as [|[|r]]; [| |lia]; eexists; vm_compute; reflexivity. }
  assert (Hj : (0 < df_len pumping_merge)%nat) by (vm_compute; lia).
  split; [exact H|]. split; [exact stable_argsort_sorts|].
  split; [exact Hwf|]. split; [exact Hfmt|]. split; [exact Hj|].
  exact (latest_revision_is_latest_published _ _ _ _ _ _ _ H
           stable_argsort_sorts Hwf Hfmt 0%nat Hj).
Defined.

(** ** The wide table: every category has its value *)

Lemma filter_obs_none (rows : list obs) (x : Z) (c : string) :
  (forall v, ~ In (x, c, v) rows) -> filter (obs_in x c) rows = [].
Proof.
  induction rows as [|[[x' c'] v] rows IH]; intros Hno; [reflexivity|].
  cbn [filter obs_in].
  destruct (Z.eqb_spec x' x) as [->|Hx].
  - destruct (String.eqb_spec c' c) as [->|Hc].
    + exfalso. apply (Hno v). now left.
    + cbn [andb]. apply IH. intros v' Hin. apply (Hno v'). now right.
  - cbn [andb]. apply IH. intros v' Hin. apply (Hno v'). now right.
Qed.

(** C3. In every row of the wide table each of the seven category columns
    holds a number: the sum of the clipped generation of the readings of
    that category at the row's local time, which is 0 when no reading fell
    in the category for that interval.  TotalGeneration is the sum of the
    seven. *)
Theorem total_generation_is_sum argsort f t pivot area merge s' :
  process_data argsort (mkFrames f t) = (Ok (pivot, area, merge), s') ->
  exists lt cat gc ts cs vs,
    getitem (fuel_df s') "LocalTime" = Ok lt /\
    as_times lt = Ok ts /\
    getitem (fuel_df s') "Category" = Ok cat /\
    as_strs cat = Ok cs /\
    getitem (fuel_df s') "Generation_clipped" = Ok gc /\
    as_nums gc = Ok vs /\
    let readings := zip3 ts cs vs in
    forall i, (i < df_len pivot)%nat ->
      exists x tz,
        nth i (df_index pivot) VNA = VTime x tz /\
        (forall c, In c categories ->
           cell pivot c i
           = VNum (sum_skipna (map snd (filter (obs_in x c) readings))) /\
           ((forall v, ~ In (x, c, v) readings) -> cell pivot c i = VNum 0)) /\
        exists tot,
          cell pivot "TotalGeneration" i = VNum tot /\
          (tot == Qsum (map (fun c => num (cell pivot c i)) categories))%Q.
Proof.
  intros H.
  destruct (process_data_readings _ _ _ _ _ _ _ H)
    as (lt & cat & gc & ts & cs & vs & total & ci & Hlt & Hts & Hcat & Hcs
        & Hgc & Hvs & Hp).
  exists lt, cat, gc, ts, cs, vs.
  repeat (split; [assumption|]). cbv zeta.
  intros i Hi.
  set (readings := zip3 ts cs vs) in *.
  set (intervals := unique_times (map (fun o : obs => fst (fst o)) readings)).
  assert (Hidx : df_index pivot
                 = map (fun x => VTime x (column_tz lt)) intervals).
  { rewrite Hp. cbn [setitem df_index].
    destruct (ensure_columns_index
                (df_fillna0 (pivot_frame "LocalTime" (column_tz lt) readings)))
      as (Hx & _). rewrite Hx. reflexivity. }
  assert (Hlen : (i < List.length intervals)%nat).
  { unfold df_len in Hi. rewrite Hidx in Hi. now rewrite length_map in Hi. }
  exists (nth i intervals 0), (column_tz lt).
  split.
  { rewrite Hidx.
    apply (nth_map_default (fun x => VTime x (column_tz lt)) intervals i 0 VNA Hlen). }
  split.
  - intros c Hc.
    assert (Hcell : cell pivot c i
                    = VNum (sum_skipna
                              (map snd (filter (obs_in (nth i intervals 0) c)
                                               readings)))).
    { rewrite Hp, !cell_setitem.
      assert (Hne1 : String.eqb c "CarbonIntensity" = false).
      { simpl in Hc. repeat (destruct Hc as [<-|Hc]; [reflexivity|]).
        contradiction. }
      assert (Hne2 : String.eqb c "TotalGeneration" = false).
      { simpl in Hc. repeat (destruct Hc as [<-|Hc]; [reflexivity|]).
        contradiction. }
      rewrite Hne1, Hne2. apply wide_cell; assumption. }
    split; [exact Hcell|].
    intros Hno. rewrite Hcell, (filter_obs_none _ _ _ Hno). reflexivity.
  - destruct (process_data_wide _ _ _ _ _ _ _ H i Hi)
      as (gas & bio & nuc & wind & hyd & imp & oth & tot & HG & HB & HN & HW
          & HH & HI & HO & _ & HT & -> & _).
    eexists. split; [exact HT|].
    unfold categories. cbn [map Qsum fold_right].
    rewrite HG, HB, HN, HW, HH, HI, HO. cbn [num]. reflexivity.
Qed.

Lemma total_generation_is_sum_witness :
  process_data stable_argsort (mkFrames pumping_fuel revisions_tsdf)
    = (Ok (pumping_pivot, pumping_area, pumping_merge), pumping_frames) /\
  exists lt cat gc ts cs vs,
    getitem (fuel_df pumping_frames) "LocalTime" = Ok lt /\
    as_times lt = Ok ts /\
    getitem (fuel_df pumping_frames) "Category" = Ok cat /\
    as_strs cat = Ok cs /\
    getitem (fuel_df pumping_frames) "Generation_clipped" = Ok gc /\
    as_nums gc = Ok vs /\
    let readings := zip3 ts cs vs in
    forall i, (i < df_len pumping_pivot)%nat ->
      exists x tz,
        nth i (df_index pumping_pivot) VNA = VTime x tz /\
        (forall c, In c categories ->
           cell pumping_pivot c i
           = VNum (sum_skipna (map snd (filter (obs_in x c) readings))) /\
           ((forall v, ~ In (x, c, v) readings) ->
            cell pumping_pivot c i = VNum 0)) /\
        exists tot,
          cell pumping_pivot "TotalGeneration" i = VNum tot /\
          (tot == Qsum (map (fun c => num (cell pumping_pivot c i)) categories))%Q.
Proof.
  assert (H : process_data stable_argsort (mkFrames pumping_fuel revisions_tsdf)
              = (Ok (pumping_pivot, pumping_area, pumping_merge),
                 pumping_frames)) by (vm_compute; reflexivity).
  split; [exact H|].
  exact (total_generation_is_sum _ _ _ _ _ _ _ H).
Defined.

(** ** The carbon intensity never divides by zero *)

Lemma rbind_no_zero_division {A B} (r : result A) (k : A -> result B) :
  r <> Raise ZeroDivisionError ->
  (forall a, k a <> Raise ZeroDivisionError) ->
  rbind r k <> Raise ZeroDivisionError.
Proof.
  intros Hr Hk. destruct r as [a|e]; cbn [rbind]; [apply Hk|].
  intros [= ->]. now apply Hr.
Qed.

Lemma mapM_no_zero_division {A B} (f : A -> result B) (l : list A) :
  (forall a, f a <> Raise ZeroDivisionError) ->
  mapM f l <> Raise ZeroDivisionError.
Proof.
  intros Hf. induction l as [|a l IH]; cbn [mapM]; [discriminate|].
  apply rbind_no_zero_division; [apply Hf|]. intros b.
  apply rbind_no_zero_division; [exact IH|]. discriminate.
Qed.

Lemma map2M_no_zero_division {A B C} (f : A -> B -> result C)
  (l1 : list A) (l2 : list B) :
  (forall a b, In b l2 -> f a b <> Raise ZeroDivisionError) ->
  map2M f l1 l2 <> Raise ZeroDivisionError.
Proof.
  revert l2. induction l1 as [|a l1 IH]; intros [|b l2] Hf; cbn [map2M];
    try discriminate.
  apply rbind_no_zero_division; [apply Hf; now left|]. intros c.
  apply rbind_no_zero_division; [|discriminate].
  apply IH. intros a' b' Hin. apply Hf. now right.
Qed.

Lemma getitem_no_zero_division (df : DataFrame) (n : string) :
  getitem df n <> Raise ZeroDivisionError.
Proof. unfold getitem. destruct (assoc n (df_columns df)); discriminate. Qed.

Lemma num_binop_no_zero_division (op : Q -> Q -> Q) (a b : value) :
  num_binop op a b <> Raise ZeroDivisionError.
Proof. destruct a, b; discriminate. Qed.

(** The one division of the pipeline: a zero of the divisor has been
    replaced by NA before the quotient is taken. *)
Lemma value_div_replace0 (a b : value) :
  value_div a (replace0_NA_cell b) <> Raise ZeroDivisionError.
Proof.
  destruct b as [s|y|x tz|]; cbn [replace0_NA_cell];
    try (destruct a; discriminate).
  destruct (Qeq_bool y 0) eqn:E; [destruct a; discriminate|].
  destruct a; cbn [value_div]; rewrite ?E; discriminate.
Qed.

Lemma series_div_replace0_no_zero_division (a b : column) :
  series_div a (replace0_NA b) <> Raise ZeroDivisionError.
Proof.
  unfold series_div, replace0_NA. apply map2M_no_zero_division.
  intros x y Hy. apply in_map_iff in Hy. destruct Hy as (y' & <- & _).
  apply value_div_replace0.
Qed.

Ltac no_zero_division :=
  repeat first
    [ discriminate
    | apply getitem_no_zero_division
    | apply num_binop_no_zero_division
    | apply series_div_replace0_no_zero_division
    | apply rbind_no_zero_division; [ | intros ? ]
    | apply mapM_no_zero_division; intros ?
    | apply map2M_no_zero_division; intros ? ? _ ].

Lemma to_datetime_utc_no_zero_division (c : column) :
  to_datetime_utc c <> Raise ZeroDivisionError.
Proof.
  unfold to_datetime_utc. apply mapM_no_zero_division. intros v.
  unfold to_datetime_cell. destruct v; try discriminate.
  destruct (parse_iso8601 s); discriminate.
Qed.

Lemma dt_tz_convert_no_zero_division (tz : tzinfo) (c : column) :
  dt_tz_convert tz c <> Raise ZeroDivisionError.
Proof.
  unfold dt_tz_convert. apply mapM_no_zero_division. intros v.
  destruct v; discriminate.
Qed.

Lemma clip_lower0_no_zero_division (c : column) :
  clip_lower0 c <> Raise ZeroDivisionError.
Proof.
  unfold clip_lower0. apply mapM_no_zero_division. intros v.
  destruct v; discriminate.
Qed.

Lemma as_times_no_zero_division (c : column) :
  as_times c <> Raise ZeroDivisionError.
Proof.
  unfold as_times. apply mapM_no_zero_division. intros v. destruct v; discriminate.
Qed.

Lemma as_strs_no_zero_division (c : column) :
  as_strs c <> Raise ZeroDivisionError.
Proof.
  unfold as_strs. apply mapM_no_zero_division. intros v. destruct v; discriminate.
Qed.

Lemma as_nums_no_zero_division (c : column) :
  as_nums c <> Raise ZeroDivisionError.
Proof.
  unfold as_nums. apply mapM_no_zero_division. intros v. destruct v; discriminate.
Qed.

Lemma dt_floor_30min_no_zero_division (c : column) :
  dt_floor_30min c <> Raise ZeroDivisionError.
Proof.
  unfold dt_floor_30min. apply mapM_no_zero_division. intros v.
  destruct v as [| |x tz|]; try discriminate.
  apply rbind_no_zero_division; [|discriminate].
  unfold floor_30min, tz_localize. destruct tz; [discriminate|].
  destruct (london_utcoffset _ =? 0), (london_utcoffset _ =? 3600); discriminate.
Qed.

Lemma select_no_zero_division (df : DataFrame) (names : list string) :
  select df names <> Raise ZeroDivisionError.
Proof. unfold select. no_zero_division. Qed.

Lemma sum_axis1_no_zero_division (df : DataFrame) :
  sum_axis1 df <> Raise ZeroDivisionError.
Proof.
  unfold sum_axis1. apply rbind_no_zero_division; [|discriminate].
  apply mapM_no_zero_division. intros kc. apply as_nums_no_zero_division.
Qed.

Lemma ci_numerator_no_zero_division (pivot : DataFrame) :
  ci_numerator pivot <> Raise ZeroDivisionError.
Proof.
  unfold ci_numerator, series_scale, series_add.
  cbn [fold_left emission_factors]. no_zero_division.
Qed.

Lemma pivot_table_sum_no_zero_division (df : DataFrame) (i c v : string) :
  pivot_table_sum df i c v <> Raise ZeroDivisionError.
Proof.
  unfold pivot_table_sum.
  repeat first
    [ discriminate
    | apply getitem_no_zero_division
    | apply as_times_no_zero_division
    | apply as_strs_no_zero_division
    | apply as_nums_no_zero_division
    | apply rbind_no_zero_division; [ | intros ? ] ].
Qed.

Lemma melt_no_zero_division (df : DataFrame) (id var val : string) :
  melt df id var val <> Raise ZeroDivisionError.
Proof. unfold melt. no_zero_division. Qed.

Lemma groupby_sum_no_zero_division (df : DataFrame) (by_ v : string) :
  groupby_sum df by_ v <> Raise ZeroDivisionError.
Proof.
  unfold groupby_sum.
  repeat first
    [ discriminate
    | apply getitem_no_zero_division
    | apply as_times_no_zero_division
    | apply as_nums_no_zero_division
    | apply rbind_no_zero_division; [ | intros ? ] ].
Qed.

Lemma sort_values_no_zero_division argsort (df : DataFrame) (by_ : string) :
  sort_values argsort df by_ <> Raise ZeroDivisionError.
Proof.
  unfold sort_values.
  repeat first
    [ discriminate
    | apply getitem_no_zero_division
    | apply as_strs_no_zero_division
    | apply rbind_no_zero_division; [ | intros ? ] ].
Qed.

Lemma groupby_tail1_no_zero_division (df : DataFrame) (by_ : string) :
  groupby_tail1 df by_ <> Raise ZeroDivisionError.
Proof.
  unfold groupby_tail1.
  repeat first
    [ discriminate
    | apply getitem_no_zero_division
    | apply as_times_no_zero_division
    | apply rbind_no_zero_division; [ | intros ? ] ].
Qed.

Lemma merge_inner_no_zero_division (l r : DataFrame) (key : string) :
  merge_inner l r key <> Raise ZeroDivisionError.
Proof.
  unfold merge_inner.
  repeat first
    [ discriminate
    | apply getitem_no_zero_division
    | apply as_times_no_zero_division
    | apply rbind_no_zero_division; [ | intros ? ] ].
Qed.

Lemma series_sub_no_zero_division (a b : column) :
  series_sub a b <> Raise ZeroDivisionError.
Proof. unfold series_sub. no_zero_division. Qed.

Lemma bind_no_zero_division {A B} (m : M A) (k : A -> M B) :
  (forall s, fst (m s) <> Raise ZeroDivisionError) ->
  (forall a s, fst (k a s) <> Raise ZeroDivisionError) ->
  forall s, fst (bind m k s) <> Raise ZeroDivisionError.
Proof.
  intros Hm Hk s. unfold bind. specialize (Hm s).
  destruct (m s) as [[a|e] s1]; [apply Hk|].
  cbn [fst] in *. intros [= ->]. now apply Hm.
Qed.

(** No run of the pipeline ends in a division by zero. *)
Lemma process_data_no_zero_division argsort (s : frames) :
  fst (process_data argsort s) <> Raise ZeroDivisionError.
Proof.
  revert s. unfold process_data.
  repeat (apply bind_no_zero_division; [intros s | intros ?]);
    try (intros s);
    cbv beta iota zeta delta [lift fuel_get fuel_set tsdf_get tsdf_set get_fuel
                                get_tsdf ret fst];
    first
      [ discriminate
      | apply getitem_no_zero_division
      | apply to_datetime_utc_no_zero_division
      | apply dt_tz_convert_no_zero_division
      | apply clip_lower0_no_zero_division
      | apply pivot_table_sum_no_zero_division
      | apply select_no_zero_division
      | apply sum_axis1_no_zero_division
      | apply ci_numerator_no_zero_division
      | apply series_div_replace0_no_zero_division
      | apply melt_no_zero_division
      | apply dt_floor_30min_no_zero_division
      | apply groupby_sum_no_zero_division
      | apply sort_values_no_zero_division
      | apply groupby_tail1_no_zero_division
      | apply merge_inner_no_zero_division
      | apply series_sub_no_zero_division ].
Qed.

(** C4. The division behind CarbonIntensity never fails on a zero total: no
    run ends in a division by zero, whatever the frames.  In a row of the
    wide table whose TotalGeneration is 0 the CarbonIntensity cell is NA; in
    a row whose TotalGeneration is positive it is the quotient of the
    emission-weighted sum of the seven categories by TotalGeneration.  The
    total is never negative, so these are all the rows. *)
Theorem carbon_intensity_cases argsort f t :
  fst (process_data argsort (mkFrames f t)) <> Raise ZeroDivisionError /\
  forall pivot area merge s',
    process_data argsort (mkFrames f t) = (Ok (pivot, area, merge), s') ->
    forall i, (i < df_len pivot)%nat ->
      exists tot,
        cell pivot "TotalGeneration" i = VNum tot /\
        (0 <= tot)%Q /\
        ((tot == 0)%Q -> cell pivot "CarbonIntensity" i = VNA) /\
        ((0 < tot)%Q ->
         exists ci,
           cell pivot "CarbonIntensity" i = VNum ci /\
           (ci == Qsum (map (fun c => num (cell pivot c i) * emission_factor c)
                            categories) / tot)%Q).
Proof.
  split; [apply process_data_no_zero_division|].
  intros pivot area merge s' H i Hi.
  destruct (process_data_wide _ _ _ _ _ _ _ H i Hi)
    as (gas & bio & nuc & wind & hyd & imp & oth & tot & HG & HB & HN & HW
        & HH & HI & HO & Hpos & HT & Htot & HC).
  exists tot. split; [exact HT|].
  destruct Hpos as (? & ? & ? & ? & ? & ? & ?).
  split.
  { subst tot.
    repeat (rewrite <- (Qplus_0_l 0); apply Qplus_le_compat; [assumption|]).
    apply Qle_refl. }
  split.
  - intros Hz. apply Qeq_bool_iff in Hz. now rewrite Hz in HC.
  - intros Hlt. destruct (Qeq_bool tot 0) eqn:E.
    + apply Qeq_bool_iff in E. rewrite E in Hlt. now apply Qlt_irrefl in Hlt.
    + eexists. split; [exact HC|].
      unfold categories. cbn [map Qsum fold_right].
      rewrite HG, HB, HN, HW, HH, HI, HO. cbn [num].
      unfold Qdiv. apply Qmult_comp; [apply ci_row_weighted|reflexivity].
Qed.

Lemma carbon_intensity_cases_witness :
  process_data stable_argsort (mkFrames charging_fuel scenario_tsdf)
    = (Ok (charging_pivot, charging_area, charging_merge), charging_frames) /\
  df_len charging_pivot = 2%nat /\
  cell charging_pivot "TotalGeneration" 0 = VNum 0 /\
  cell charging_pivot "CarbonIntensity" 0 = VNA /\
  cell charging_pivot "TotalGeneration" 1 = VNum 100 /\
  (exists ci, cell charging_pivot "CarbonIntensity" 1 = VNum ci /\ (ci == 3294 # 10)%Q) /\
  fst (process_data stable_argsort (mkFrames charging_fuel scenario_tsdf))
    <> Raise ZeroDivisionError /\
  forall i, (i < 2)%nat ->
    exists tot,
      cell charging_pivot "TotalGeneration" i = VNum tot /\
      (0 <= tot)%Q /\
      ((tot == 0)%Q -> cell charging_pivot "CarbonIntensity" i = VNA) /\
      ((0 < tot)%Q ->
       exists ci,
         cell charging_pivot "CarbonIntensity" i = VNum ci /\
         (ci == Qsum (map (fun c => num (cell charging_pivot c i) * emission_factor c)
                          categories) / tot)%Q).
Proof.
  assert (H : process_data stable_argsort (mkFrames charging_fuel scenario_tsdf)
              = (Ok (charging_pivot, charging_area, charging_merge),
                 charging_frames)) by (vm_compute; reflexivity).
  assert (L : df_len charging_pivot = 2%nat) by reflexivity.
  split; [exact H|]. split; [exact L|].
  split; [reflexivity|]. split; [reflexivity|]. split; [reflexivity|].
  split; [eexists; split; [reflexivity|reflexivity]|].
  destruct (carbon_intensity_cases stable_argsort charging_fuel scenario_tsdf)
    as (Hnz & Hrows).
  split; [exact Hnz|].
  intros i Hi. apply (Hrows _ _ _ _ H i). rewrite L. exact Hi.
Defined.

(** ** The reconciliation join *)

(** C7, as the code has it.  For a sorting routine and a well-formed demand
    table: the windows of the reconciliation table are distinct and are
    exactly the windows that occur both in the bucketed generation readings
    and in the bucketed demand records; the DemandForecast of a row is the
    demand of a record of that window whose PublishTime string no record of
    the window exceeds in the order of strings, which makes it a record
    published last whenever the publish times compared are written in the
    format of the datasets; and SupplyMinusDemand is TotalGeneration minus
    DemandForecast.  Forecasts of 500 published at 10:00 and 520 published
    at 10:05 for one window give DemandForecast 520. *)
Theorem reconciliation_join argsort :
  sorts argsort ->
  (forall f t pivot area merge s',
     process_data argsort (mkFrames f t) = (Ok (pivot, area, merge), s') ->
     wf_frame t ->
     exists fw tw mw,
       getitem (fuel_df s') "LocalHalfHour" = Ok fw /\
       getitem (tsdf_df s') "LocalHalfHour" = Ok tw /\
       getitem merge "LocalHalfHour" = Ok mw /\
       List.length mw = df_len merge /\
       NoDup mw /\
       (forall v, In v mw <-> In v fw /\ In v tw) /\
       forall j, (j < df_len merge)%nat ->
         (exists r,
            (r < df_len (tsdf_df s'))%nat /\
            cell (tsdf_df s') "LocalHalfHour" r = cell merge "LocalHalfHour" j /\
            cell merge "DemandForecast" j = cell (tsdf_df s') "demand" r /\
            forall r', (r' < df_len (tsdf_df s'))%nat ->
              cell (tsdf_df s') "LocalHalfHour" r' = cell merge "LocalHalfHour" j ->
              String.leb (str (cell (tsdf_df s') "PublishTime" r'))
                         (str (cell (tsdf_df s') "PublishTime" r)) = true /\
              forall x' x,
                parse_iso8601 (str (cell (tsdf_df s') "PublishTime" r')) = Some x' ->
                parse_iso8601 (str (cell (tsdf_df s') "PublishTime" r)) = Some x ->
                x' <= x) /\
         (exists tot,
            cell merge "TotalGeneration" j = VNum tot /\
            forall d, cell merge "DemandForecast" j = VNum d ->
                      cell merge "SupplyMinusDemand" j = VNum (tot - d)%Q)) /\
  (exists pivot area merge s',
     process_data argsort (mkFrames scenario_fuel revisions_tsdf)
       = (Ok (pivot, area, merge), s') /\
     df_len merge = 1%nat /\
     cell merge "LocalHalfHour" 0 = VTime 1704103200 Europe_London /\
     cell merge "DemandForecast" 0 = VNum 520).
Proof.
  intros Hs. split.
  - intros f t pivot area merge s' H Hwf.
    destruct (reconciliation_rows _ _ _ _ _ _ _ H Hs Hwf)
      as (gc & gks & gvs & ws & pks & dcol & smd & rows & HF & _ & _ & _ & HT
          & HP & HD & Lws & Lpks & Ldcol & Hnd & Hin & Hrows & -> & Hsub).
    assert (HlenT : df_len (tsdf_df s') = df_len t).
    { destruct (process_data_merge _ _ _ _ _ _ _ H)
        as (? & ? & ? & ? & ? & ? & ? & ? & ? & ? & ? & ? & ? & ? & ? & ?
            & _ & _ & _ & _ & _ & _ & _ & _ & _ & _ & _ & -> & _).
      reflexivity. }
    exists (times Europe_London gks), (times Europe_London ws),
           (times Europe_London (map snd rows)).
    split; [exact HF|]. split; [exact HT|]. split; [reflexivity|].
    split.
    { unfold times, df_len. cbn [df_index].
      now rewrite !length_map, RangeIndex_length. }
    split; [now apply NoDup_times|]. split.
    { intros v. split.
      - intros Hv. destruct (times_In_inv _ _ _ Hv) as (w & -> & Hw).
        apply Hin in Hw. rewrite !times_In. tauto.
      - intros (Hf & Ht). destruct (times_In_inv _ _ _ Hf) as (w & -> & Hw).
        apply times_In in Ht. apply times_In, Hin. tauto. }
    intros j Hj. unfold df_len in Hj. cbn [df_index] in Hj.
    rewrite RangeIndex_length in Hj. rewrite HlenT.
    assert (Hrow : In (nth j rows (0%nat, 0)) rows) by (now apply nth_In).
    destruct (nth j rows (0%nat, 0)) as [r w] eqn:E.
    destruct (Hrows r w Hrow) as (Hr & Hw & Hmax & _).
    assert (CW : cell {| df_index_name := None;
                         df_index := RangeIndex (List.length rows);
                         df_columns :=
                           [("LocalHalfHour", times Europe_London (map snd rows));
                            ("DemandForecast",
                             map (fun rw : nat * Z => nth (fst rw) dcol VNA) rows);
                            ("TotalGeneration",
                             map (fun rw : nat * Z =>
                                    VNum (group_sum (snd rw) gks gvs)) rows);
                            ("SupplyMinusDemand", smd)] |} "LocalHalfHour" j
                 = VTime w Europe_London).
    { unfold cell, times.
      cbn [getitem df_columns assoc String.eqb Ascii.eqb Bool.eqb].
      rewrite map_map.
      rewrite (nth_map_default (fun x : nat * Z => VTime (snd x) Europe_London)
                 rows j (0%nat, 0) VNA) by exact Hj.
      now rewrite E. }
    rewrite CW.
    assert (CT : forall x, (x < df_len t)%nat ->
                 cell (tsdf_df s') "LocalHalfHour" x = VTime (nth x ws 0) Europe_London).
    { intros x Hx. unfold cell. rewrite HT. unfold times.
      apply (nth_map_default (fun t0 => VTime t0 Europe_London)). lia. }
    split.
    + exists r. split; [exact Hr|]. split; [rewrite CT by exact Hr; now rewrite Hw|].
      split.
      * unfold cell at 1 2. rewrite HD.
        cbn [getitem df_columns assoc String.eqb Ascii.eqb Bool.eqb].
        rewrite (nth_map_default (fun rw : nat * Z => nth (fst rw) dcol VNA)
                   rows j (0%nat, 0) VNA) by exact Hj.
        now rewrite E.
      * intros r' Hr' Hsame. rewrite CT in Hsame by exact Hr'.
        injection Hsame as Hsame.
        pose proof (Hmax r' Hr' Hsame) as Hle.
        unfold cell. rewrite HP.
        rewrite !(nth_map_default VStr pks _ "" VNA) by lia.
        split; [exact Hle|].
        cbn [str]. intros x' x Hx' Hx.
        unfold String.leb in Hle. rewrite (iso_compare _ _ _ _ Hx' Hx) in Hle.
        destruct (Z.compare_spec x' x); [lia|lia|discriminate].
    + pose proof (map2M_length _ _ _ _ Hsub) as Lsmd.
      rewrite !length_map, Nat.min_id in Lsmd.
      pose proof (map2M_nth _ _ _ _ VNA VNA VNA Hsub j ltac:(lia)) as Hcell.
      rewrite (nth_map_default
                 (fun rw : nat * Z => VNum (group_sum (snd rw) gks gvs))
                 rows j (0%nat, 0) VNA) in Hcell by exact Hj.
      rewrite (nth_map_default (fun rw : nat * Z => nth (fst rw) dcol VNA)
                 rows j (0%nat, 0) VNA) in Hcell by exact Hj.
      rewrite E in Hcell. cbn [fst snd] in Hcell.
      exists (group_sum w gks gvs). unfold cell.
      cbn [getitem df_columns assoc String.eqb Ascii.eqb Bool.eqb].
      rewrite (nth_map_default
                 (fun rw : nat * Z => VNum (group_sum (snd rw) gks gvs))
                 rows j (0%nat, 0) VNA) by exact Hj.
      rewrite (nth_map_default (fun rw : nat * Z => nth (fst rw) dcol VNA)
                 rows j (0%nat, 0) VNA) by exact Hj.
      rewrite E. cbn [fst snd]. split; [reflexivity|].
      intros d Hd. rewrite Hd in Hcell. cbn [num_binop] in Hcell.
      now apply Ok_inj in Hcell.
  - pose proof (sorts_two argsort "2024-01-01T10:00:00Z" "2024-01-01T10:05:00Z"
                  Hs eq_refl) as Hsort.
    eexists _, _, _, _. split.
    + vm_compute. rewrite Hsort. vm_compute. reflexivity.
    + repeat split; reflexivity.
Qed.

Lemma reconciliation_join_witness :
  sorts stable_argsort /\
  process_data stable_argsort (mkFrames pumping_fuel revisions_tsdf)
    = (Ok (pumping_pivot, pumping_area, pumping_merge), pumping_frames) /\
  wf_frame revisions_tsdf /\
  (exists fw tw mw,
     getitem (fuel_df pumping_frames) "LocalHalfHour" = Ok fw /\
     getitem (tsdf_df pumping_frames) "LocalHalfHour" = Ok tw /\
     getitem pumping_merge "LocalHalfHour" = Ok mw /\
     List.length mw = df_len pumping_merge /\
     NoDup mw /\
     (forall v, In v mw <-> In v fw /\ In v tw)) /\
  exists pivot area merge s',
    process_data stable_argsort (mkFrames scenario_fuel revisions_tsdf)
      = (Ok (pivot, area, merge), s') /\
    df_len merge = 1%nat /\
    cell merge "LocalHalfHour" 0 = VTime 1704103200 Europe_London /\
    cell merge "DemandForecast" 0 = VNum 520.
Proof.
  assert (H : process_data stable_argsort (mkFrames pumping_fuel revisions_tsdf)
              = (Ok (pumping_pivot, pumping_area, pumping_merge), pumping_frames))
    by (vm_compute; reflexivity).
  assert (Hwf : wf_frame revisions_tsdf) by (repeat constructor).
  split; [exact stable_argsort_sorts|]. split; [exact H|]. split; [exact Hwf|].
  destruct (reconciliation_join stable_argsort stable_argsort_sorts) as (Hgen & Hex).
  split; [|exact Hex].
  destruct (Hgen _ _ _ _ _ _ H Hwf)
    as (fw & tw & mw & Hf & Ht & Hm & Hl & Hnd & Hin & _).
  exists fw, tw, mw. repeat split; try assumption; now apply Hin.
Defined.

(** Two forecasts for one window, the first published at 08:30 UTC with
    500 MW, the second published half an hour earlier, at 09:00 in a zone one
    hour ahead of UTC, with 520 MW.  The second has the greater PublishTime
    string, and its demand is the one the reconciliation table carries: the
    record kept is not the one with the latest publish time. *)
Lemma later_string_earlier_instant :
  iso8601_instant "2024-01-01T08:30:00Z" = Some 1704097800 /\
  iso8601_instant "2024-01-01T09:00:00+01:00" = Some 1704096000 /\
  1704096000 < 1704097800 /\
  exists pivot area merge s',
    process_data stable_argsort (mkFrames scenario_fuel offsets_tsdf)
      = (Ok (pivot, area, merge), s') /\
    process_data Npy.argsort (mkFrames scenario_fuel offsets_tsdf)
      = (Ok (pivot, area, merge), s') /\
    df_len merge = 1%nat /\
    cell (tsdf_df s') "LocalHalfHour" 0 = cell merge "LocalHalfHour" 0 /\
    cell (tsdf_df s') "LocalHalfHour" 1 = cell merge "LocalHalfHour" 0 /\
    cell (tsdf_df s') "PublishTime" 0 = VStr "2024-01-01T08:30:00Z" /\
    cell (tsdf_df s') "PublishTime" 1 = VStr "2024-01-01T09:00:00+01:00" /\
    cell (tsdf_df s') "demand" 0 = VNum 500 /\
    cell (tsdf_df s') "demand" 1 = VNum 520 /\
    cell merge "DemandForecast" 0 = VNum 520.
Proof.
  split; [vm_compute; reflexivity|]. split; [vm_compute; reflexivity|].
  split; [lia|].
  eexists _, _, _, _. split; [vm_compute; reflexivity|].
  split; [vm_compute; reflexivity|].
  repeat split; reflexivity.
Qed.
